(** * WebSocketManager: connection life cycle and message routing

    A shallow embedding of
    [packages/core/src/services/websocket-manager.ts] and of the types it
    uses from [packages/core/types/websocket.types.ts].

    The class is a single mutable object driven by run-to-completion
    callbacks.  Its fields become the record [Manager]; a method becomes a
    function from [Manager] to the new [Manager] together with the way the
    call completed (returned or threw; for an [async] method: resolved or
    rejected).  What the class asks of its host (the socket, the console,
    the timers, consumer callbacks) is appended to the [effects] field, in
    the order in which the code performs it.  The readings the class takes
    from its host ([Date.now()], [Math.random()]) are the [Env] argument
    of each call. *)

From Stdlib Require Import ZArith QArith Qminmax Qpower Lia.
From stdpp Require Import base option list strings gmap pretty.

Open Scope Z_scope.

(** ** websocket.types.ts *)

(** A value of type [any]: kept as its JSON text. *)
Definition any := string.

Module MessageType.
Inductive t :=
| SUBSCRIBE | UNSUBSCRIBE | DATA | ERROR | PING
| PONG | ACK | BROADCAST | COMMAND | STATUS.

#[global] Instance eq_dec : EqDecision t.
Proof. solve_decision. Defined.

Definition tag (x : t) : nat :=
  match x with
  | SUBSCRIBE => 0 | UNSUBSCRIBE => 1 | DATA => 2 | ERROR => 3 | PING => 4
  | PONG => 5 | ACK => 6 | BROADCAST => 7 | COMMAND => 8 | STATUS => 9
  end%nat.

Definition of_tag (n : nat) : option t :=
  match n with
  | 0 => Some SUBSCRIBE | 1 => Some UNSUBSCRIBE | 2 => Some DATA
  | 3 => Some ERROR | 4 => Some PING | 5 => Some PONG | 6 => Some ACK
  | 7 => Some BROADCAST | 8 => Some COMMAND | 9 => Some STATUS
  | _ => None
  end%nat.

#[global] Instance countable : Countable t.
Proof. apply (inj_countable tag of_tag). intros []; reflexivity. Defined.
End MessageType.

Module ConnectionStatus.
Inductive t :=
| CONNECTING | CONNECTED | DISCONNECTED | RECONNECTING | ERROR | CLOSED.

#[global] Instance eq_dec : EqDecision t.
Proof. solve_decision. Defined.
End ConnectionStatus.

Inductive AuthType := BEARER | API_KEY | BASIC | CUSTOM | NONE.

Record Credentials := { username : string; password : string }.

Record WebSocketAuth := {
  auth_type : AuthType;
  token : option string;
  apiKey : option string;
  credentials : option Credentials;
  customHeaders : option (list (string * string))
}.

Inductive BinaryType := blob | arraybuffer.

Record WebSocketConfig := {
  url : string;
  protocols : option (list string);
  reconnectInterval : Z;
  maxReconnectAttempts : Z;
  heartbeatInterval : Z;
  messageQueueSize : Z;
  compression : bool;
  binaryType : option BinaryType;
  authentication : option WebSocketAuth
}.

Inductive MessagePriority := CRITICAL | HIGH | NORMAL | LOW.

Record MessageMetadata := {
  sequence : Z;
  version : string;
  meta_compression : option string;
  meta_encoding : option string;
  signature : option string;
  priority : option MessagePriority
}.

Inductive CommitmentLevel := PROCESSED | CONFIRMED | FINALIZED.

Record SubscriptionParams := {
  addresses : option (list string);
  programs : option (list string);
  tokens : option (list string);
  commitment : option CommitmentLevel;
  encoding : option string
}.

Inductive FilterOperator :=
| EQUALS | NOT_EQUALS | GREATER_THAN | LESS_THAN | IN | NOT_IN | CONTAINS | REGEX.

Record SubscriptionFilter := {
  field : string;
  operator : FilterOperator;
  value : any
}.

Record SubscriptionOptions := {
  batchSize : option Z;
  throttle : option Z;
  includeHistory : option bool;
  historyLimit : option Z;
  autoReconnect : option bool
}.

Record SubscriptionRequest := {
  channel : string;
  params : SubscriptionParams;
  filters : option (list SubscriptionFilter);
  options : option SubscriptionOptions
}.

Record WebSocketError := {
  code : Z;
  message : string;
  timestamp : Z;
  details : option any;
  recoverable : bool
}.

(** The payloads the manager builds or inspects.  Of an inbound payload the
    code reads [subscriptionId] and [data] only. *)
Inductive Payload :=
| PSubscribe (subscriptionId : string) (request : SubscriptionRequest)
    (* { subscriptionId, ...request } *)
| PSubscriptionId (subscriptionId : string)          (* { subscriptionId } *)
| PTimestamp (ts : Z)                                (* { timestamp } *)
| PData (subscriptionId : option string) (data : any)
| PError (subscriptionId : option string) (error : WebSocketError)
| PUndefined.

Record WebSocketMessage := {
  msg_id : string;
  msg_type : MessageType.t;
  msg_timestamp : Z;
  payload : Payload;
  metadata : option MessageMetadata
}.

Record SubscriptionState := {
  sub_id : string;
  sub_channel : string;
  active : bool;
  createdAt : Z;
  lastMessage : option Z;
  messageCount : Z;
  errorCount : Z
}.

Record ConnectionStats := {
  connectedAt : option Z;
  disconnectedAt : option Z;
  reconnectCount : Z;
  messagesSent : Z;
  messagesReceived : Z;
  bytesReceived : Z;
  bytesSent : Z;
  latency : Z;
  uptime : Z
}.

(** [subscriptions] is a JS [Map]: keys are unique and [forEach] visits them
    in insertion order, which [resubscribeAll] relies on, so it is kept as
    an association list in insertion order. *)
Record WebSocketState := {
  status : ConnectionStatus.t;
  connected : bool;
  subscriptions : list (string * SubscriptionState);
  state_messageQueue : list WebSocketMessage;
  stats : ConnectionStats;
  lastError : option Payload
}.

(** ** The host: socket, timers, console, exceptions *)

Inductive ReadyState := WS_CONNECTING | WS_OPEN | WS_CLOSING | WS_CLOSED.

#[global] Instance ReadyState_eq_dec : EqDecision ReadyState.
Proof. solve_decision. Defined.

(** A parsed [URL] object: the configured address and its [searchParams]. *)
Record Url := {
  href : string;
  searchParams : list (string * string)
}.

Record WebSocket := {
  ws_url : Url;
  ws_protocols : option (list string);
  ws_binaryType : option BinaryType;   (* [None]: the host default *)
  readyState : ReadyState
}.

(** [this.ws] is never declared nor initialised by the class: it reads as
    [undefined] until the first [connect()], holds a socket afterwards and
    [null] after [disconnect()]. *)
Inductive WsRef :=
| WsUndefined
| WsNull
| WsSocket (sock : WebSocket).

(** A timer handle as returned by [setTimeout] / [setInterval]. *)
Inductive Timer :=
| TimeoutHandle (delay : Q)
| IntervalHandle (period : Z).

Inductive Exn :=
| NotFound (subscriptionId : string)  (* Error(`Subscription ${id} not found`) *)
| TypeError                           (* property read on undefined *)
| SerializeError                      (* JSON.stringify threw *)
| SendError                           (* ws.send threw *)
| SyntaxError                         (* JSON.parse, new URL, new WebSocket *)
| HandlerError (name : string).       (* thrown by a consumer callback *)

(** How a call completed.  For an [async] method [Ok] is a resolved promise
    and [Throw] a rejected one. *)
Inductive Outcome (A : Type) :=
| Ok (a : A)
| Throw (e : Exn).
Arguments Ok {A} a.
Arguments Throw {A} e.

(** The promise returned by [connect()]: it is settled by the executor only
    on the catch path; otherwise it stays pending until the socket opens. *)
Inductive ConnectPromise :=
| Pending
| Rejected (e : Exn).

(** ** Handlers

    [type MessageHandler = (message) => void].  The closures the class
    itself registers are named after what they call; a consumer's handler
    is known by a name and by whether it throws on a given envelope. *)
Inductive MessageHandler :=
| HSendPong                     (* () => this.sendPong() *)
| HErrorMessage                 (* (m) => this.handleErrorMessage(m) *)
| HAcknowledgment               (* (m) => this.handleAcknowledgment(m) *)
| HLatency (pingTime : Z)       (* the closure sendPing registers *)
| HUser (name : string) (throws : WebSocketMessage -> bool).

(** [type SubscriptionCallback = (data: any) => void]. *)
Record SubscriptionCallback := {
  cb_name : string;
  cb_throws : option any -> bool
}.

Inductive LogLine :=
| LogConnected                                   (* 'WebSocket connected' *)
| LogClosed (code : Z) (reason : string)         (* `WebSocket closed: ...` *)
| LogResubscribing (channel : string)            (* `Resubscribing to ...` *)
| LogReconnecting (delay : Q) (attempt : Z)      (* `Reconnecting in ...` *)
| LogAcknowledged (id : string)                  (* 'Message acknowledged:' *)
| LogServerError (p : Payload)                   (* 'Server error:' *)
| LogSocketError                                 (* 'WebSocket error:' *)
| LogHandlingError (e : Exn).                    (* 'Error handling message:' *)

Inductive Effect :=
| WsNew (u : Url) (protocols : option (list string))
| WsSend (data : string)
| WsClose (code : Z) (reason : string)
| Console (line : LogLine)
| Invoke (h : MessageHandler) (m : WebSocketMessage)
| InvokeCallback (cb : SubscriptionCallback) (data : option any)
| TimerSet (t : Timer)
| TimerCleared (t : Timer)
| Uncaught (e : Exn).   (* an exception or rejection nobody handles *)

(** ** The manager object *)

Record Manager := {
  config : WebSocketConfig;
  ws : WsRef;
  state : WebSocketState;
  reconnectTimer : option Timer;
  heartbeatTimer : option Timer;
  messageHandlers : gmap MessageType.t (list MessageHandler);
  subscriptionCallbacks : gmap string SubscriptionCallback;
  messageQueue : list WebSocketMessage;
  reconnectAttempts : Z;
  effects : list Effect
}.

(** Readings taken from the host during one call.  [random] is a value of
    [Math.random()]; [random36 k] is the k-th
    [Math.random().toString(36).substr(2, 9)] of the call. *)
Record Env := {
  now : Z;
  random : Q;
  random36 : nat -> string
}.

(** The library functions the class calls and that may throw.  They are
    fixed for a run and depend on their argument only; [None] stands for a
    throw. *)
Record Host := {
  JSON_stringify : WebSocketMessage -> option string;
  JSON_parse : string -> option WebSocketMessage;
  new_URL_throws : string -> bool;
  new_WebSocket_throws : Url -> bool;
  send_throws : string -> bool          (* does [ws.send(data)] throw? *)
}.

(** ** Field updates *)

Definition with_status (s : ConnectionStatus.t) (st : WebSocketState) :=
  {| status := s; connected := connected st; subscriptions := subscriptions st;
     state_messageQueue := state_messageQueue st; stats := stats st;
     lastError := lastError st |}.

Definition with_connected (b : bool) (st : WebSocketState) :=
  {| status := status st; connected := b; subscriptions := subscriptions st;
     state_messageQueue := state_messageQueue st; stats := stats st;
     lastError := lastError st |}.

Definition with_subscriptions (l : list (string * SubscriptionState))
    (st : WebSocketState) :=
  {| status := status st; connected := connected st; subscriptions := l;
     state_messageQueue := state_messageQueue st; stats := stats st;
     lastError := lastError st |}.

Definition with_stats (c : ConnectionStats) (st : WebSocketState) :=
  {| status := status st; connected := connected st;
     subscriptions := subscriptions st;
     state_messageQueue := state_messageQueue st; stats := c;
     lastError := lastError st |}.

Definition with_lastError (e : option Payload) (st : WebSocketState) :=
  {| status := status st; connected := connected st;
     subscriptions := subscriptions st;
     state_messageQueue := state_messageQueue st; stats := stats st;
     lastError := e |}.

Definition with_state (st : WebSocketState) (m : Manager) :=
  {| config := config m; ws := ws m; state := st;
     reconnectTimer := reconnectTimer m; heartbeatTimer := heartbeatTimer m;
     messageHandlers := messageHandlers m;
     subscriptionCallbacks := subscriptionCallbacks m;
     messageQueue := messageQueue m; reconnectAttempts := reconnectAttempts m;
     effects := effects m |}.

Definition with_ws (w : WsRef) (m : Manager) :=
  {| config := config m; ws := w; state := state m;
     reconnectTimer := reconnectTimer m; heartbeatTimer := heartbeatTimer m;
     messageHandlers := messageHandlers m;
     subscriptionCallbacks := subscriptionCallbacks m;
     messageQueue := messageQueue m; reconnectAttempts := reconnectAttempts m;
     effects := effects m |}.

Definition with_reconnectTimer (t : option Timer) (m : Manager) :=
  {| config := config m; ws := ws m; state := state m;
     reconnectTimer := t; heartbeatTimer := heartbeatTimer m;
     messageHandlers := messageHandlers m;
     subscriptionCallbacks := subscriptionCallbacks m;
     messageQueue := messageQueue m; reconnectAttempts := reconnectAttempts m;
     effects := effects m |}.

Definition with_heartbeatTimer (t : option Timer) (m : Manager) :=
  {| config := config m; ws := ws m; state := state m;
     reconnectTimer := reconnectTimer m; heartbeatTimer := t;
     messageHandlers := messageHandlers m;
     subscriptionCallbacks := subscriptionCallbacks m;
     messageQueue := messageQueue m; reconnectAttempts := reconnectAttempts m;
     effects := effects m |}.

Definition with_messageHandlers
    (h : gmap MessageType.t (list MessageHandler)) (m : Manager) :=
  {| config := config m; ws := ws m; state := state m;
     reconnectTimer := reconnectTimer m; heartbeatTimer := heartbeatTimer m;
     messageHandlers := h;
     subscriptionCallbacks := subscriptionCallbacks m;
     messageQueue := messageQueue m; reconnectAttempts := reconnectAttempts m;
     effects := effects m |}.

Definition with_subscriptionCallbacks
    (c : gmap string SubscriptionCallback) (m : Manager) :=
  {| config := config m; ws := ws m; state := state m;
     reconnectTimer := reconnectTimer m; heartbeatTimer := heartbeatTimer m;
     messageHandlers := messageHandlers m;
     subscriptionCallbacks := c;
     messageQueue := messageQueue m; reconnectAttempts := reconnectAttempts m;
     effects := effects m |}.

Definition with_messageQueue (q : list WebSocketMessage) (m : Manager) :=
  {| config := config m; ws := ws m; state := state m;
     reconnectTimer := reconnectTimer m; heartbeatTimer := heartbeatTimer m;
     messageHandlers := messageHandlers m;
     subscriptionCallbacks := subscriptionCallbacks m;
     messageQueue := q; reconnectAttempts := reconnectAttempts m;
     effects := effects m |}.

Definition with_reconnectAttempts (n : Z) (m : Manager) :=
  {| config := config m; ws := ws m; state := state m;
     reconnectTimer := reconnectTimer m; heartbeatTimer := heartbeatTimer m;
     messageHandlers := messageHandlers m;
     subscriptionCallbacks := subscriptionCallbacks m;
     messageQueue := messageQueue m; reconnectAttempts := n;
     effects := effects m |}.

(** Appends one effect to the log. *)
Definition emit (e : Effect) (m : Manager) :=
  {| config := config m; ws := ws m; state := state m;
     reconnectTimer := reconnectTimer m; heartbeatTimer := heartbeatTimer m;
     messageHandlers := messageHandlers m;
     subscriptionCallbacks := subscriptionCallbacks m;
     messageQueue := messageQueue m; reconnectAttempts := reconnectAttempts m;
     effects := effects m ++ [e] |}.

Definition on_state (f : WebSocketState -> WebSocketState) (m : Manager) :=
  with_state (f (state m)) m.

Definition on_stats (f : ConnectionStats -> ConnectionStats) (m : Manager) :=
  on_state (fun st => with_stats (f (stats st)) st) m.

Definition on_subscriptions
    (f : list (string * SubscriptionState) -> list (string * SubscriptionState))
    (m : Manager) :=
  on_state (fun st => with_subscriptions (f (subscriptions st)) st) m.

Definition with_connectedAt (t : option Z) (c : ConnectionStats) :=
  {| connectedAt := t; disconnectedAt := disconnectedAt c;
     reconnectCount := reconnectCount c; messagesSent := messagesSent c;
     messagesReceived := messagesReceived c; bytesReceived := bytesReceived c;
     bytesSent := bytesSent c; latency := latency c; uptime := uptime c |}.

Definition with_disconnectedAt (t : option Z) (c : ConnectionStats) :=
  {| connectedAt := connectedAt c; disconnectedAt := t;
     reconnectCount := reconnectCount c; messagesSent := messagesSent c;
     messagesReceived := messagesReceived c; bytesReceived := bytesReceived c;
     bytesSent := bytesSent c; latency := latency c; uptime := uptime c |}.

Definition with_reconnectCount (n : Z) (c : ConnectionStats) :=
  {| connectedAt := connectedAt c; disconnectedAt := disconnectedAt c;
     reconnectCount := n; messagesSent := messagesSent c;
     messagesReceived := messagesReceived c; bytesReceived := bytesReceived c;
     bytesSent := bytesSent c; latency := latency c; uptime := uptime c |}.

Definition with_sent (n b : Z) (c : ConnectionStats) :=
  {| connectedAt := connectedAt c; disconnectedAt := disconnectedAt c;
     reconnectCount := reconnectCount c; messagesSent := n;
     messagesReceived := messagesReceived c; bytesReceived := bytesReceived c;
     bytesSent := b; latency := latency c; uptime := uptime c |}.

Definition with_received (n b : Z) (c : ConnectionStats) :=
  {| connectedAt := connectedAt c; disconnectedAt := disconnectedAt c;
     reconnectCount := reconnectCount c; messagesSent := messagesSent c;
     messagesReceived := n; bytesReceived := b;
     bytesSent := bytesSent c; latency := latency c; uptime := uptime c |}.

Definition with_latency (l : Z) (c : ConnectionStats) :=
  {| connectedAt := connectedAt c; disconnectedAt := disconnectedAt c;
     reconnectCount := reconnectCount c; messagesSent := messagesSent c;
     messagesReceived := messagesReceived c; bytesReceived := bytesReceived c;
     bytesSent := bytesSent c; latency := l; uptime := uptime c |}.

Definition with_uptime (u : Z) (c : ConnectionStats) :=
  {| connectedAt := connectedAt c; disconnectedAt := disconnectedAt c;
     reconnectCount := reconnectCount c; messagesSent := messagesSent c;
     messagesReceived := messagesReceived c; bytesReceived := bytesReceived c;
     bytesSent := bytesSent c; latency := latency c; uptime := u |}.

(** ** Calls that may throw, over the manager object

    A throw leaves the mutations made before it in place, as in the
    source: nothing is rolled back. *)

Definition Js (A : Type) : Type := Manager -> Manager * Outcome A.

Definition ret {A} (a : A) : Js A := fun m => (m, Ok a).

Definition throw {A} (e : Exn) : Js A := fun m => (m, Throw e).

Definition bind {A B} (c : Js A) (k : A -> Js B) : Js B :=
  fun m =>
    match c m with
    | (m', Ok a) => k a m'
    | (m', Throw e) => (m', Throw e)
    end.

Definition this : Js Manager := fun m => (m, Ok m).

Definition modify (f : Manager -> Manager) : Js unit := fun m => (f m, Ok tt).

Definition lift {A} (o : Outcome A) : Js A := fun m => (m, o).

(** [try { c } catch (error) { h error }] *)
Definition try_catch (c : Js unit) (h : Exn -> Js unit) : Js unit :=
  fun m =>
    match c m with
    | (m', Ok _) => (m', Ok tt)
    | (m', Throw e) => h e m'
    end.

(** A promise that nobody awaits or catches: the caller goes on, a
    rejection is left to the host. *)
Definition detached {A} (c : Js A) : Js unit :=
  fun m =>
    match c m with
    | (m', Ok _) => (m', Ok tt)
    | (m', Throw e) => (emit (Uncaught e) m', Ok tt)
    end.

Declare Scope js_scope.
Delimit Scope js_scope with js.
Notation "x ← y ; z" := (bind y (fun x => z))
  (at level 20, y at level 100, z at level 200, only parsing) : js_scope.
Notation "x ;; z" := (bind x (fun _ => z))
  (at level 100, z at level 200, only parsing, right associativity) : js_scope.

(** [array.forEach(f)]: a throw from [f] ends the iteration. *)
Fixpoint forEach {A} (f : A -> Js unit) (l : list A) : Js unit :=
  match l with
  | [] => ret tt
  | x :: l' => (f x;; forEach f l')%js
  end.

(** ** The subscription [Map] *)

Fixpoint sub_get (id : string) (l : list (string * SubscriptionState))
    : option SubscriptionState :=
  match l with
  | [] => None
  | (k, v) :: l' => if decide (k = id) then Some v else sub_get id l'
  end.

(** [Map.set]: an existing key keeps its place. *)
Fixpoint sub_set (id : string) (v : SubscriptionState)
    (l : list (string * SubscriptionState)) : list (string * SubscriptionState) :=
  match l with
  | [] => [(id, v)]
  | (k, x) :: l' =>
      if decide (k = id) then (k, v) :: l' else (k, x) :: sub_set id v l'
  end.

Fixpoint sub_delete (id : string) (l : list (string * SubscriptionState))
    : list (string * SubscriptionState) :=
  match l with
  | [] => []
  | (k, x) :: l' =>
      if decide (k = id) then sub_delete id l' else (k, x) :: sub_delete id l'
  end.

(** Mutation of the object stored under [id], if there is one. *)
Fixpoint sub_alter (f : SubscriptionState -> SubscriptionState) (id : string)
    (l : list (string * SubscriptionState)) : list (string * SubscriptionState) :=
  match l with
  | [] => []
  | (k, x) :: l' =>
      if decide (k = id) then (k, f x) :: l' else (k, x) :: sub_alter f id l'
  end.

Definition sub_received (t : Z) (s : SubscriptionState) :=
  {| sub_id := sub_id s; sub_channel := sub_channel s; active := active s;
     createdAt := createdAt s; lastMessage := Some t;
     messageCount := messageCount s + 1; errorCount := errorCount s |}.

Definition sub_errored (s : SubscriptionState) :=
  {| sub_id := sub_id s; sub_channel := sub_channel s; active := active s;
     createdAt := createdAt s; lastMessage := lastMessage s;
     messageCount := messageCount s; errorCount := errorCount s + 1 |}.

Definition sub_deactivate (s : SubscriptionState) :=
  {| sub_id := sub_id s; sub_channel := sub_channel s; active := false;
     createdAt := createdAt s; lastMessage := lastMessage s;
     messageCount := messageCount s; errorCount := errorCount s |}.

(** [payload?.subscriptionId] *)
Definition payload_subscriptionId (p : Payload) : option string :=
  match p with
  | PSubscribe id _ => Some id
  | PSubscriptionId id => Some id
  | PData id _ => id
  | PError id _ => id
  | PTimestamp _ | PUndefined => None
  end.

(** The value as an [if] condition: [undefined] and the empty string are
    falsy. *)
Definition truthy (o : option string) : option string :=
  match o with
  | Some s => if decide (s = "") then None else Some s
  | None => None
  end.

(** [payload.data] *)
Definition payload_data (p : Payload) : option any :=
  match p with
  | PData _ d => Some d
  | _ => None
  end.

(** [event.data] of a [MessageEvent]; [code] and [reason] of a
    [CloseEvent]. *)
Record MessageEvent := { data : string }.

Record CloseEvent := { close_code : Z; close_reason : string }.

(** ** websocket-manager.ts *)

Section WebSocketManager.

Variable host : Host.

Local Open Scope js_scope.

Definition initializeState : WebSocketState :=
  {| status := ConnectionStatus.DISCONNECTED;
     connected := false;
     subscriptions := [];
     state_messageQueue := [];
     stats := {| connectedAt := None; disconnectedAt := None;
                 reconnectCount := 0; messagesSent := 0;
                 messagesReceived := 0; bytesReceived := 0; bytesSent := 0;
                 latency := 0; uptime := 0 |};
     lastError := None |}.

Definition updateStatus (env : Env) (s : ConnectionStatus.t) (m : Manager)
    : Manager :=
  let m1 := on_state (with_status s) m in
  match connectedAt (stats (state m1)) with
  | Some t => on_stats (with_uptime (now env - t)) m1
  | None => m1
  end.

Definition serializeMessage (message : WebSocketMessage) : Outcome string :=
  match JSON_stringify host message with
  | Some d => Ok d
  | None => Throw SerializeError
  end.

Definition deserializeMessage (d : string) : Outcome WebSocketMessage :=
  match JSON_parse host d with
  | Some message => Ok message
  | None => Throw SyntaxError
  end.

Definition generateMessageId (env : Env) (k : nat) : string :=
  "msg_" +:+ pretty (now env) +:+ "_" +:+ random36 env k.

Definition generateSubscriptionId (env : Env) (k : nat) : string :=
  "sub_" +:+ pretty (now env) +:+ "_" +:+ random36 env k.

(** [this.ws !== null && this.ws.readyState === WebSocket.OPEN]:
    [undefined !== null] holds, and the property read then throws. *)
Definition isConnected (m : Manager) : Outcome bool :=
  match ws m with
  | WsUndefined => Throw TypeError
  | WsNull => Ok false
  | WsSocket sock => Ok (bool_decide (readyState sock = WS_OPEN))
  end.

Definition queueMessage (message : WebSocketMessage) (m : Manager) : Manager :=
  let m1 :=
    if Z.of_nat (length (messageQueue m)) >=? messageQueueSize (config m)
    then with_messageQueue (tail (messageQueue m)) m   (* shift() *)
    else m in
  with_messageQueue (messageQueue m1 ++ [message]) m1.

Definition sendMessage (message : WebSocketMessage) : Js unit :=
  fun m =>
    match isConnected m with
    | Throw e => (m, Throw e)
    | Ok false => (queueMessage message m, Ok tt)
    | Ok true =>
        match serializeMessage message with
        | Throw e => (m, Throw e)
        | Ok d =>
            if send_throws host d then (m, Throw SendError)
            else
              (on_stats
                 (fun c => with_sent (messagesSent c + 1)
                             (bytesSent c + Z.of_nat (String.length d)) c)
                 (emit (WsSend d) m),
               Ok tt)
        end
    end.

Definition onMessage (type : MessageType.t) (handler : MessageHandler)
    (m : Manager) : Manager :=
  let handlers := default [] (messageHandlers m !! type) in
  with_messageHandlers (<[type := handlers ++ [handler]]> (messageHandlers m)) m.

Definition onSubscription (subscriptionId : string)
    (callback : SubscriptionCallback) (m : Manager) : Manager :=
  with_subscriptionCallbacks
    (<[subscriptionId := callback]> (subscriptionCallbacks m)) m.

Definition setupDefaultHandlers (m : Manager) : Manager :=
  onMessage MessageType.ACK HAcknowledgment
    (onMessage MessageType.ERROR HErrorMessage
       (onMessage MessageType.PING HSendPong m)).

Definition constructor (cfg : WebSocketConfig) : Manager :=
  setupDefaultHandlers
    {| config := cfg; ws := WsUndefined; state := initializeState;
       reconnectTimer := None; heartbeatTimer := None;
       messageHandlers := ∅; subscriptionCallbacks := ∅;
       messageQueue := []; reconnectAttempts := 0; effects := [] |}.

(** [searchParams.append(name, value!)]: an absent value is appended as the
    text of [undefined]. *)
Definition append_param (name : string) (v : option string) (u : Url) : Url :=
  {| href := href u;
     searchParams := searchParams u ++ [(name, default "undefined" v)] |}.

Definition buildConnectionUrl (cfg : WebSocketConfig) : Outcome Url :=
  if new_URL_throws host (url cfg) then Throw SyntaxError
  else
    let u := {| href := url cfg; searchParams := [] |} in
    Ok match authentication cfg with
       | Some auth =>
           match auth_type auth with
           | API_KEY => append_param "apiKey" (apiKey auth) u
           | BEARER => append_param "token" (token auth) u
           | _ => u
           end
       | None => u
       end.

(** The synchronous part of [connect()], that is the promise executor.  The
    four event callbacks it installs are [handleOpen], [handleMessage],
    [handleError] and [handleClose] below; [resolve()] is called by the
    socket's [onopen] only. *)
Definition connect (env : Env) (m : Manager) : Manager * ConnectPromise :=
  let m1 := updateStatus env ConnectionStatus.CONNECTING m in
  match buildConnectionUrl (config m1) with
  | Throw e => (updateStatus env ConnectionStatus.ERROR m1, Rejected e)
  | Ok u =>
      if new_WebSocket_throws host u
      then (updateStatus env ConnectionStatus.ERROR m1, Rejected SyntaxError)
      else
        let sock := {| ws_url := u; ws_protocols := protocols (config m1);
                       ws_binaryType := binaryType (config m1);
                       readyState := WS_CONNECTING |} in
        (with_ws (WsSocket sock) (emit (WsNew u (protocols (config m1))) m1),
         Pending)
  end.

Definition clearTimers (m : Manager) : Manager :=
  let m1 :=
    match reconnectTimer m with
    | Some t => with_reconnectTimer None (emit (TimerCleared t) m)
    | None => m
    end in
  match heartbeatTimer m1 with
  | Some t => with_heartbeatTimer None (emit (TimerCleared t) m1)
  | None => m1
  end.

Definition disconnect (env : Env) (m : Manager) : Manager :=
  let m1 := clearTimers m in
  let m2 :=
    match ws m1 with
    | WsSocket _ => with_ws WsNull (emit (WsClose 1000 "Client disconnect") m1)
    | WsNull | WsUndefined => m1
    end in
  updateStatus env ConnectionStatus.DISCONNECTED m2.

Definition subscribe (env : Env) (request : SubscriptionRequest) : Js string :=
  let subscriptionId := generateSubscriptionId env 0 in
  let message :=
    {| msg_id := generateMessageId env 1;
       msg_type := MessageType.SUBSCRIBE;
       msg_timestamp := now env;
       payload := PSubscribe subscriptionId request;
       metadata := None |} in
  sendMessage message;;
  modify (on_subscriptions
            (sub_set subscriptionId
               {| sub_id := subscriptionId; sub_channel := channel request;
                  active := true; createdAt := now env; lastMessage := None;
                  messageCount := 0; errorCount := 0 |}));;
  ret subscriptionId.

Definition unsubscribe (env : Env) (subscriptionId : string) : Js unit :=
  m ← this;
  match sub_get subscriptionId (subscriptions (state m)) with
  | None => throw (NotFound subscriptionId)
  | Some _ =>
      let message :=
        {| msg_id := generateMessageId env 0;
           msg_type := MessageType.UNSUBSCRIBE;
           msg_timestamp := now env;
           payload := PSubscriptionId subscriptionId;
           metadata := None |} in
      sendMessage message;;
      modify (on_subscriptions (sub_alter sub_deactivate subscriptionId));;
      modify (on_subscriptions (sub_delete subscriptionId))
  end.

Definition sendPong (env : Env) : Js unit :=
  detached
    (sendMessage
       {| msg_id := generateMessageId env 0;
          msg_type := MessageType.PONG;
          msg_timestamp := now env;
          payload := PTimestamp (now env);
          metadata := None |}).

Definition handleErrorMessage (message : WebSocketMessage) : Js unit :=
  modify (emit (Console (LogServerError (payload message))));;
  modify (on_state
            (with_lastError
               match payload message with
               | PUndefined => None
               | p => Some p
               end));;
  match truthy (payload_subscriptionId (payload message)) with
  | Some id => modify (on_subscriptions (sub_alter sub_errored id))
  | None => ret tt
  end.

Definition handleAcknowledgment (message : WebSocketMessage) : Js unit :=
  modify (emit (Console (LogAcknowledged (msg_id message)))).

(** [handler(message)] *)
Definition call (env : Env) (message : WebSocketMessage) (h : MessageHandler)
    : Js unit :=
  modify (emit (Invoke h message));;
  match h with
  | HSendPong => sendPong env
  | HErrorMessage => handleErrorMessage message
  | HAcknowledgment => handleAcknowledgment message
  | HLatency pingTime => modify (on_stats (with_latency (now env - pingTime)))
  | HUser name throws =>
      if throws message then throw (HandlerError name) else ret tt
  end.

(** [callback(message.payload.data)] *)
Definition call_back (cb : SubscriptionCallback) (d : option any) : Js unit :=
  modify (emit (InvokeCallback cb d));;
  if cb_throws cb d then throw (HandlerError (cb_name cb)) else ret tt.

(** The body of the [try] block of [handleMessage]. *)
Definition dispatch (env : Env) (event : MessageEvent) : Js unit :=
  message ← lift (deserializeMessage (data event));
  modify (on_stats
            (fun c => with_received (messagesReceived c + 1)
                        (bytesReceived c + Z.of_nat (String.length (data event)))
                        c));;
  match truthy (payload_subscriptionId (payload message)) with
  | Some id => modify (on_subscriptions (sub_alter (sub_received (now env)) id))
  | None => ret tt
  end;;
  m ← this;
  match messageHandlers m !! msg_type message with
  | Some handlers => forEach (call env message) handlers
  | None => ret tt
  end;;
  match msg_type message, truthy (payload_subscriptionId (payload message)) with
  | MessageType.DATA, Some id =>
      m' ← this;
      match subscriptionCallbacks m' !! id with
      | Some callback => call_back callback (payload_data (payload message))
      | None => ret tt
      end
  | _, _ => ret tt
  end.

Definition handleMessage (env : Env) (event : MessageEvent) (m : Manager)
    : Manager :=
  fst (try_catch (dispatch env event)
         (fun error => modify (emit (Console (LogHandlingError error)))) m).

Definition handleError (env : Env) (error : any) (m : Manager) : Manager :=
  let m1 := emit (Console LogSocketError) m in
  let m2 :=
    on_state
      (with_lastError
         (Some (PError None
                  {| code := 1006; message := "WebSocket error occurred";
                     timestamp := now env; details := Some error;
                     recoverable := true |}))) m1 in
  updateStatus env ConnectionStatus.ERROR m2.

Definition startHeartbeat (m : Manager) : Manager :=
  let t := IntervalHandle (heartbeatInterval (config m)) in
  with_heartbeatTimer (Some t) (emit (TimerSet t) m).

(** [sendMessage(message).then(...)]: the continuation registers the
    latency handler once the send has resolved; a rejection has no
    handler. *)
Definition sendPing (env : Env) (m : Manager) : Manager :=
  let pingTime := now env in
  let message :=
    {| msg_id := generateMessageId env 0;
       msg_type := MessageType.PING;
       msg_timestamp := pingTime;
       payload := PTimestamp pingTime;
       metadata := None |} in
  match sendMessage message m with
  | (m', Ok _) => onMessage MessageType.PONG (HLatency pingTime) m'
  | (m', Throw e) => emit (Uncaught e) m'
  end.

(** The callback given to [setInterval] by [startHeartbeat]. *)
Definition heartbeat (env : Env) (m : Manager) : Manager :=
  match isConnected m with
  | Ok true => sendPing env m
  | Ok false => m
  | Throw e => emit (Uncaught e) m
  end.

Definition shouldReconnect (m : Manager) : bool :=
  reconnectAttempts m <? maxReconnectAttempts (config m).

(** Numbers are taken as exact rationals; [Math.pow(2, n)] is [2 ^ n]. *)
Definition calculateReconnectDelay (env : Env) (m : Manager) : Q :=
  let baseDelay := inject_Z (reconnectInterval (config m)) in
  let exponentialDelay := (baseDelay * Qpower 2 (reconnectAttempts m))%Q in
  let jitter := (random env * 1000)%Q in
  let maxDelay := 30000%Q in
  Qmin (exponentialDelay + jitter) maxDelay.

Definition scheduleReconnect (env : Env) (m : Manager) : Manager :=
  let m1 := updateStatus env ConnectionStatus.RECONNECTING m in
  let delay := calculateReconnectDelay env m1 in
  let m2 := emit (Console (LogReconnecting delay (reconnectAttempts m1 + 1))) m1 in
  with_reconnectTimer (Some (TimeoutHandle delay))
    (emit (TimerSet (TimeoutHandle delay)) m2).

(** The callback given to [setTimeout] by [scheduleReconnect]. *)
Definition reconnect (env : Env) (m : Manager) : Manager :=
  let m1 := with_reconnectAttempts (reconnectAttempts m + 1) m in
  let m2 := on_stats (fun c => with_reconnectCount (reconnectCount c + 1) c) m1 in
  fst (connect env m2).

Definition handleClose (env : Env) (event : CloseEvent) (m : Manager) : Manager :=
  let m1 := emit (Console (LogClosed (close_code event) (close_reason event))) m in
  let m2 := updateStatus env ConnectionStatus.DISCONNECTED m1 in
  let m3 := on_state (with_connected false) m2 in
  let m4 := on_stats (with_disconnectedAt (Some (now env))) m3 in
  let m5 := clearTimers m4 in
  if negb (close_code event =? 1000) && shouldReconnect m5
  then scheduleReconnect env m5
  else m5.

(** [while (this.messageQueue.length > 0) { shift(); sendMessage(..) }].
    The loop is not bounded by the source: an envelope that [sendMessage]
    puts back on the queue is taken up again.  [fuel] bounds the number of
    iterations; [None] means the bound was reached. *)
Fixpoint flushMessageQueue (fuel : nat) (m : Manager) : option Manager :=
  match messageQueue m with
  | [] => Some m
  | message :: rest =>
      match fuel with
      | O => None
      | S fuel' =>
          flushMessageQueue fuel'
            (fst (detached (sendMessage message) (with_messageQueue rest m)))
      end
  end.

Definition resubscribeAll (m : Manager) : Manager :=
  fold_left
    (fun acc '(_, subscription) =>
       if active subscription
       then emit (Console (LogResubscribing (sub_channel subscription))) acc
       else acc)
    (subscriptions (state m)) m.

Definition handleOpen (env : Env) (fuel : nat) (m : Manager) : option Manager :=
  let m1 := emit (Console LogConnected) m in
  let m2 := updateStatus env ConnectionStatus.CONNECTED m1 in
  let m3 := on_state (with_connected true) m2 in
  let m4 := on_stats (with_connectedAt (Some (now env))) m3 in
  let m5 := with_reconnectAttempts 0 m4 in
  let m6 := startHeartbeat m5 in
  match flushMessageQueue fuel m6 with
  | Some m7 => Some (resubscribeAll m7)
  | None => None
  end.

(** The host moves the socket held by the manager to another
    [readyState]. *)
Definition socket_becomes (rs : ReadyState) (m : Manager) : Manager :=
  match ws m with
  | WsSocket sock =>
      with_ws (WsSocket {| ws_url := ws_url sock;
                           ws_protocols := ws_protocols sock;
                           ws_binaryType := ws_binaryType sock;
                           readyState := rs |}) m
  | _ => m
  end.

End WebSocketManager.

(** ** Runs of the send path *)

(** The envelopes [ms] are handed to [sendMessage] one after the other. *)
Definition sendAll (host : Host) (ms : list WebSocketMessage) (m : Manager)
    : Manager :=
  fold_left (fun acc message => fst (sendMessage host message acc)) ms m.

(** The last [c] elements of a list (all of it when it is shorter). *)
Definition last_n {A} (c : nat) (l : list A) : list A :=
  drop (length l - c) l.

(** ** Sample data for the closed examples *)

(** A host on which nothing throws; an envelope is serialised to its id and
    the three texts below are the only ones that parse. *)
Definition sample_message (type : MessageType.t) (id : string) (p : Payload)
    : WebSocketMessage :=
  {| msg_id := id; msg_type := type; msg_timestamp := 0; payload := p;
     metadata := None |}.

Definition quiet_host : Host :=
  {| JSON_stringify := fun message => Some (msg_id message);
     JSON_parse := fun d =>
       if decide (d = "pong") then
         Some (sample_message MessageType.PONG "srv_1" (PTimestamp 0))
       else if decide (d = "data") then
         Some (sample_message MessageType.DATA "srv_2"
                 (PData (Some "sub_1") "{}"))
       else None;
     new_URL_throws := fun _ => false;
     new_WebSocket_throws := fun _ => false;
     send_throws := fun _ => false |}.


Definition sample_config (queueSize maxAttempts : Z) : WebSocketConfig :=
  {| url := "wss://example.test/stream"; protocols := None;
     reconnectInterval := 100; maxReconnectAttempts := maxAttempts;
     heartbeatInterval := 30000; messageQueueSize := queueSize;
     compression := false; binaryType := None; authentication := None |}.

Definition at_time (t : Z) : Env :=
  {| now := t; random := 1 # 2; random36 := fun k => pretty (Z.of_nat k) |}.

(** A manager whose socket has been created but is not open yet. *)
Definition connecting (host : Host) (cfg : WebSocketConfig) : Manager :=
  fst (connect host (at_time 1000) (constructor cfg)).

(** A manager whose socket has opened: [connect()], then the [open] event. *)
Definition opened (host : Host) (cfg : WebSocketConfig) : option Manager :=
  handleOpen host (at_time 1001) 0 (socket_becomes WS_OPEN (connecting host cfg)).

Definition sample_request : SubscriptionRequest :=
  {| channel := "wallet";
     params := {| addresses := None; programs := None; tokens := None;
                  commitment := None; encoding := None |};
     filters := None; options := None |}.

(** ** Reconnection backoff *)




(** ** Timers and close events *)

(** The effects of [clearTimers]: one [clearTimeout] / [clearInterval] per
    handle the manager holds. *)
Definition cleared (m : Manager) : list Effect :=
  option_list (TimerCleared <$> reconnectTimer m)
  ++ option_list (TimerCleared <$> heartbeatTimer m).


(** A series of [close] events, each with the host readings of its time. *)
Definition closeAll (events : list (Env * CloseEvent)) (m : Manager) : Manager :=
  fold_left (fun acc '(env, event) => handleClose env event acc) events m.

(** An abnormal closure followed by the firing of the reconnect timer it
    scheduled (if it scheduled one). *)
Definition drop_and_retry (host : Host) (env : Env) (m : Manager) : Manager :=
  let m1 := handleClose env {| close_code := 1006; close_reason := "" |} m in
  match reconnectTimer m1 with
  | Some _ => reconnect host env m1
  | None => m1
  end.

(** Is this effect a [setTimeout] / [setInterval]? *)
Definition is_TimerSet (e : Effect) : bool :=
  match e with
  | TimerSet _ => true
  | _ => false
  end.

(** ** Sample states *)

(** A manager whose socket is open ([connect()], then the [open] event). *)
Definition established (host : Host) (cfg : WebSocketConfig) : Manager :=
  default (connecting host cfg) (opened host cfg).

(** A manager that subscribed to "wallet" while its socket was still
    connecting, and whose socket then opened. *)
Definition subscribed_early (host : Host) (cfg : WebSocketConfig) : Manager :=
  let m := fst (subscribe host (at_time 1000) sample_request (connecting host cfg)) in
  default m (handleOpen host (at_time 1001) 10 (socket_becomes WS_OPEN m)).

(** The envelopes built by [subscribe] and [unsubscribe], and the registry
    entry written by [subscribe]. *)
Definition subscribe_envelope (env : Env) (request : SubscriptionRequest)
    : WebSocketMessage :=
  {| msg_id := generateMessageId env 1;
     msg_type := MessageType.SUBSCRIBE;
     msg_timestamp := now env;
     payload := PSubscribe (generateSubscriptionId env 0) request;
     metadata := None |}.

Definition subscribe_entry (env : Env) (request : SubscriptionRequest)
    : SubscriptionState :=
  {| sub_id := generateSubscriptionId env 0;
     sub_channel := channel request;
     active := true; createdAt := now env; lastMessage := None;
     messageCount := 0; errorCount := 0 |}.

Definition unsubscribe_envelope (env : Env) (subscriptionId : string)
    : WebSocketMessage :=
  {| msg_id := generateMessageId env 0;
     msg_type := MessageType.UNSUBSCRIBE;
     msg_timestamp := now env;
     payload := PSubscriptionId subscriptionId;
     metadata := None |}.

(** ** Observing dispatch *)

(** The handler calls recorded in an effect log, in order. *)
Definition invocations (es : list Effect)
    : list (MessageHandler * WebSocketMessage) :=
  omap (fun e => match e with Invoke h message => Some (h, message) | _ => None end)
    es.

(** The subscription-callback calls recorded in an effect log. *)
Definition callback_invocations (es : list Effect)
    : list (SubscriptionCallback * option any) :=
  omap (fun e => match e with InvokeCallback cb d => Some (cb, d) | _ => None end)
    es.

(** Does the handler throw when called with [message]?  Only a consumer's
    handler can. *)
Definition throws_on (message : WebSocketMessage) (h : MessageHandler) : bool :=
  match h with
  | HUser _ throws => throws message
  | _ => false
  end.

(** The ping times of the latency handlers in a handler list, in order. *)
Definition latency_handlers (hs : list MessageHandler) : list Z :=
  omap (fun h => match h with HLatency t => Some t | _ => None end) hs.

(** The handlers registered for PONG. *)
Definition pong_handlers (m : Manager) : list MessageHandler :=
  default [] (messageHandlers m !! MessageType.PONG).

(** What a message count of the registry looks like from outside: id,
    [messageCount] and [lastMessage] of every entry. *)
Definition message_counts (l : list (string * SubscriptionState))
    : list (string * Z * option Z) :=
  map (fun '(k, s) => (k, messageCount s, lastMessage s)) l.

Arguments invocations : simpl never.
Arguments callback_invocations : simpl never.
Arguments latency_handlers : simpl never.
Arguments message_counts : simpl never.

(** ** Runs of the manager

    What can happen to a manager after its construction: a call of its
    public interface, an event of its socket, or one of its timers firing.
    A consumer registers handlers of its own ([HUser]) only. *)
Inductive Op :=
| CallConnect
| CallDisconnect
| CallSubscribe (request : SubscriptionRequest)
| CallUnsubscribe (subscriptionId : string)
| CallSendMessage (message : WebSocketMessage)
| CallOnMessage (type : MessageType.t) (name : string)
    (throws : WebSocketMessage -> bool)
| CallOnSubscription (subscriptionId : string) (callback : SubscriptionCallback)
| SocketBecomes (rs : ReadyState)
| EvOpen (fuel : nat)
| EvMessage (event : MessageEvent)
| EvError (error : any)
| EvClose (event : CloseEvent)
| TickHeartbeat
| TickReconnect.

(** One step; [None] when the flush of [handleOpen] does not end within its
    fuel. *)
Definition step (host : Host) (env : Env) (op : Op) (m : Manager)
    : option Manager :=
  match op with
  | CallConnect => Some (fst (connect host env m))
  | CallDisconnect => Some (disconnect env m)
  | CallSubscribe request => Some (fst (subscribe host env request m))
  | CallUnsubscribe id => Some (fst (unsubscribe host env id m))
  | CallSendMessage message => Some (fst (sendMessage host message m))
  | CallOnMessage type name throws => Some (onMessage type (HUser name throws) m)
  | CallOnSubscription id callback => Some (onSubscription id callback m)
  | SocketBecomes rs => Some (socket_becomes rs m)
  | EvOpen fuel => handleOpen host env fuel m
  | EvMessage event => Some (handleMessage host env event m)
  | EvError error => Some (handleError env error m)
  | EvClose event => Some (handleClose env event m)
  | TickHeartbeat => Some (heartbeat host env m)
  | TickReconnect => Some (reconnect host env m)
  end.

Fixpoint run (host : Host) (steps : list (Env * Op)) (m : Manager)
    : option Manager :=
  match steps with
  | [] => Some m
  | (env, op) :: rest =>
      match step host env op m with
      | Some m' => run host rest m'
      | None => None
      end
  end.

(** The PING envelope that [sendPing] builds. *)
Definition ping_envelope (env : Env) : WebSocketMessage :=
  {| msg_id := generateMessageId env 0;
     msg_type := MessageType.PING;
     msg_timestamp := now env;
     payload := PTimestamp (now env);
     metadata := None |}.

(** Does a heartbeat tick in state [m] put a PING on the wire? *)
Definition ping_sent (host : Host) (env : Env) (m : Manager) : bool :=
  match isConnected m, JSON_stringify host (ping_envelope env) with
  | Ok true, Some d => negb (send_throws host d)
  | _, _ => false
  end.

(** The send times of the heartbeat PINGs sent along a run, in order. *)
Fixpoint ping_times (host : Host) (steps : list (Env * Op)) (m : Manager)
    : list Z :=
  match steps with
  | [] => []
  | (env, op) :: rest =>
      let here :=
        match op with
        | TickHeartbeat => if ping_sent host env m then [now env] else []
        | _ => []
        end in
      match step host env op m with
      | Some m' => here ++ ping_times host rest m'
      | None => here
      end
  end.

(** What the dispatch path keeps track of, and what a handler must leave
    alone: the handler and callback tables, the inbound counters, the
    message counts of the registry, and the callback calls made so far. *)
Definition inbound_view (m : Manager) :=
  (messageHandlers m, subscriptionCallbacks m,
   messagesReceived (stats (state m)), bytesReceived (stats (state m)),
   message_counts (subscriptions (state m)),
   callback_invocations (effects m)).

(** The manager after [handleMessage] has counted an inbound envelope and
    before it calls any handler. *)
Definition counted (env : Env) (event : MessageEvent)
    (message : WebSocketMessage) (m : Manager) : Manager :=
  let m1 :=
    on_stats (fun c => with_received (messagesReceived c + 1)
                         (bytesReceived c + Z.of_nat (String.length (data event)))
                         c) m in
  match truthy (payload_subscriptionId (payload message)) with
  | Some id => on_subscriptions (sub_alter (sub_received (now env)) id) m1
  | None => m1
  end.

(** The part of [handleMessage] that follows the handlers: the callback of
    the subscription a DATA envelope is addressed to. *)
Definition deliver (message : WebSocketMessage) : Js unit :=
  match msg_type message, truthy (payload_subscriptionId (payload message)) with
  | MessageType.DATA, Some id =>
      bind this (fun m' =>
        match subscriptionCallbacks m' !! id with
        | Some callback => call_back callback (payload_data (payload message))
        | None => ret tt
        end)
  | _, _ => ret tt
  end.

(** ** Sample consumers *)

Definition faulty_handler : MessageHandler := HUser "first" (fun _ => true).

Definition sound_handler : MessageHandler := HUser "second" (fun _ => false).

(** An open connection with two consumer handlers registered for DATA, in
    this order: one that throws, one that does not. *)
Definition two_handlers : Manager :=
  onMessage MessageType.DATA sound_handler
    (onMessage MessageType.DATA faulty_handler
       (established quiet_host (sample_config 100 5))).

(** The name a consumer gave to a handler of its own. *)
Definition handler_name (h : MessageHandler) : string :=
  match h with
  | HUser name _ => name
  | HSendPong => "sendPong"
  | HErrorMessage => "handleErrorMessage"
  | HAcknowledgment => "handleAcknowledgment"
  | HLatency _ => "latency"
  end.

(** ** Observing the open event *)

(** What the flush of the queue asks of the host for one envelope: the data
    on the wire, or an exception nobody handles. *)
Definition transmit (host : Host) (message : WebSocketMessage) : Effect :=
  match JSON_stringify host message with
  | Some d => if send_throws host d then Uncaught SendError else WsSend d
  | None => Uncaught SerializeError
  end.

(** The entries of the registry that are marked active, in insertion
    order. *)
Definition active_subscriptions (m : Manager) : list SubscriptionState :=
  filter (fun s => active s = true) (map snd (subscriptions (state m))).

(** What [resubscribeAll] does for one active subscription. *)
Definition resubscribing (s : SubscriptionState) : Effect :=
  Console (LogResubscribing (sub_channel s)).

(** Is this effect data put on the wire? *)
Definition is_WsSend (e : Effect) : bool :=
  match e with
  | WsSend _ => true
  | _ => false
  end.

(** The part of the manager that sending, queueing and logging leave
    alone. *)
Definition control_view (m : Manager) :=
  (config m, ws m, status (state m), connected (state m),
   subscriptions (state m), lastError (state m),
   connectedAt (stats (state m)), disconnectedAt (stats (state m)),
   reconnectCount (stats (state m)),
   reconnectTimer m, heartbeatTimer m,
   messageHandlers m, subscriptionCallbacks m, reconnectAttempts m).

(** A manager that subscribed to "wallet" on an open connection, lost the
    connection (close code 1006) and saw its reconnect timer fire: the new
    socket is about to open. *)
Definition before_reopen (host : Host) (cfg : WebSocketConfig) : Manager :=
  let m1 := fst (subscribe host (at_time 2000) sample_request (established host cfg)) in
  let m2 := handleClose (at_time 3000) {| close_code := 1006; close_reason := "" |}
              (socket_becomes WS_CLOSED m1) in
  let m3 := reconnect host (at_time 3600) m2 in
  socket_becomes WS_OPEN m3.

(** ** Sample runs *)

(** Connect, see the socket open, and let the heartbeat fire twice. *)
Definition heartbeat_run : list (Env * Op) :=
  [(at_time 1000, CallConnect);
   (at_time 1001, SocketBecomes WS_OPEN);
   (at_time 1001, EvOpen 0);
   (at_time 5000, TickHeartbeat);
   (at_time 35000, TickHeartbeat)].

(** The same run by a consumer that first registered a PONG handler of its
    own, one that throws. *)
Definition audited_run : list (Env * Op) :=
  (at_time 900, CallOnMessage MessageType.PONG "audit" (fun _ => true))
  :: heartbeat_run.

(** ** Tactics *)

(** Case analysis on every field of a manager. *)
Ltac destruct_manager m :=
  destruct m as [?c ?w [?s ?cn ?subs ?sq [?ca ?da ?rc ?ms ?mr ?br ?bs ?la ?up] ?le]
                   ?rt ?ht ?mh ?sc ?q ?ra ?ef].


(** ** Further observations *)

(** The PONG envelope that [sendPong] builds. *)
Definition pong_envelope (env : Env) : WebSocketMessage :=
  {| msg_id := generateMessageId env 0;
     msg_type := MessageType.PONG;
     msg_timestamp := now env;
     payload := PTimestamp (now env);
     metadata := None |}.

(** The data put on the wire according to an effect log, in order. *)
Definition wire (es : list Effect) : list string :=
  omap (fun e => match e with WsSend d => Some d | _ => None end) es.

(** The callback [handleMessage] owes an envelope: the one registered for
    the subscription a DATA envelope is addressed to, with [payload.data]. *)
Definition due_callback (message : WebSocketMessage) (m : Manager)
    : list (SubscriptionCallback * option any) :=
  match msg_type message, truthy (payload_subscriptionId (payload message)) with
  | MessageType.DATA, Some id =>
      match subscriptionCallbacks m !! id with
      | Some callback => [(callback, payload_data (payload message))]
      | None => []
      end
  | _, _ => []
  end.

(** A registry in which every entry is marked active and is stored under
    its own id. *)
Definition well_kept (l : list (string * SubscriptionState)) : Prop :=
  Forall (fun e => active (snd e) = true /\ sub_id (snd e) = fst e) l.

(** A series of abnormal closures, each followed by the firing of the
    reconnect timer it scheduled. *)
Definition drop_and_retry_all (host : Host) (envs : list Env) (m : Manager)
    : Manager :=
  fold_left (fun acc env => drop_and_retry host env acc) envs m.

Arguments wire : simpl never.

(** The total length of the data put on the wire. *)
Definition wire_bytes (es : list Effect) : Z :=
  foldr (fun d n => Z.of_nat (String.length d) + n) 0 (wire es).

(** The data of the [message] events of a run that [JSON.parse] accepts. *)
Definition parsed_data (host : Host) (steps : list (Env * Op)) : list string :=
  omap (fun s => match snd s with
                 | EvMessage event =>
                     match JSON_parse host (data event) with
                     | Some _ => Some (data event)
                     | None => None
                     end
                 | _ => None
                 end) steps.

(** The traffic counters, the sent ones next to what the socket was given. *)
Definition traffic_view (m : Manager) : Z * Z * Z * Z :=
  (messagesSent (stats (state m)) - Z.of_nat (length (wire (effects m))),
   bytesSent (stats (state m)) - wire_bytes (effects m),
   messagesReceived (stats (state m)),
   bytesReceived (stats (state m))).

(** One more envelope received. *)
Definition received_one (d : string) (v : Z * Z * Z * Z) : Z * Z * Z * Z :=
  let '(a, b, mr, br) := v in (a, b, mr + 1, br + Z.of_nat (String.length d)).

Arguments wire_bytes : simpl never.
Arguments traffic_view : simpl never.

(** The handlers registered for a type, in calling order. *)
Definition handlers_for (type : MessageType.t) (m : Manager)
    : list MessageHandler :=
  default [] (messageHandlers m !! type).

(** The handlers that [setupDefaultHandlers] registers. *)
Definition builtin_handlers (type : MessageType.t) : list MessageHandler :=
  match type with
  | MessageType.PING => [HSendPong]
  | MessageType.ERROR => [HErrorMessage]
  | MessageType.ACK => [HAcknowledgment]
  | _ => []
  end.

(** The handlers that the [onMessage] calls of a run register for a type. *)
Definition registered (type : MessageType.t) (steps : list (Env * Op))
    : list MessageHandler :=
  omap (fun s => match snd s with
                 | CallOnMessage type' name throws =>
                     if decide (type' = type) then Some (HUser name throws)
                     else None
                 | _ => None
                 end) steps.

(** The part of [ConnectionStats] that follows the life of the connection:
    [connectedAt], [disconnectedAt], [reconnectCount] and [uptime]. *)
Definition lifetime (m : Manager) : option Z * option Z * Z * Z :=
  let c := stats (state m) in
  (connectedAt c, disconnectedAt c, reconnectCount c, uptime c).

(** The steps that go through [updateStatus]. *)
Definition changes_status (op : Op) : bool :=
  match op with
  | CallConnect | CallDisconnect | EvOpen _ | EvError _ | EvClose _
  | TickReconnect => true
  | _ => false
  end.

(** What a step does to [lifetime], told from the step alone. *)
Definition lifetime_step (v : option Z * option Z * Z * Z) (s : Env * Op)
    : option Z * option Z * Z * Z :=
  let '(ca, da, rc, up) := v in
  let '(env, op) := s in
  (match op with EvOpen _ => Some (now env) | _ => ca end,
   match op with EvClose _ => Some (now env) | _ => da end,
   match op with TickReconnect => rc + 1 | _ => rc end,
   if changes_status op
   then match ca with Some t => now env - t | None => up end
   else up).

(** Is the step an [open] event? *)
Definition is_EvOpen (s : Env * Op) : bool :=
  match snd s with EvOpen _ => true | _ => false end.

Arguments lifetime : simpl never.

(** Closes a goal [view m' = view m] with the frame lemma [same] of the
    view, when the counters compute and the step sends nothing. *)
Ltac quiet_step same :=
  apply same;
  [ reflexivity
  | unfold wire; cbn; rewrite ?omap_app; cbn; rewrite ?app_nil_r;
    reflexivity ].
(** ** Basic facts *)

Section Facts.

Variable host : Host.

Lemma last_n_short {A} (c : nat) (l : list A) :
  (length l <= c)%nat -> last_n c l = l.
Proof.
  intros Hl. unfold last_n.
  replace (length l - c)%nat with 0%nat by lia. reflexivity.
Qed.

Lemma last_n_length {A} (c : nat) (l : list A) :
  length (last_n c l) = Nat.min c (length l).
Proof. unfold last_n. rewrite length_drop. lia. Qed.

Lemma last_n_app_absorb {A} (c : nat) (l l' : list A) :
  last_n c (last_n c l ++ l') = last_n c (l ++ l').
Proof.
  destruct (Nat.le_gt_cases (length l) c) as [Hle | Hgt].
  - rewrite (last_n_short c l) by assumption. reflexivity.
  - unfold last_n. rewrite !length_app, length_drop.
    replace (length l - (length l - c) + length l' - c)%nat
      with (length l') by lia.
    replace (length l + length l' - c)%nat
      with ((length l - c) + length l')%nat by lia.
    rewrite <- drop_drop. rewrite (drop_app_le l l') by lia. reflexivity.
Qed.

Lemma queueMessage_queue (x : WebSocketMessage) (m : Manager) :
  messageQueue (queueMessage x m) =
  (if Z.of_nat (length (messageQueue m)) >=? messageQueueSize (config m)
   then tail (messageQueue m) else messageQueue m) ++ [x].
Proof. unfold queueMessage. destruct (_ >=? _); reflexivity. Qed.

Lemma queueMessage_config x m : config (queueMessage x m) = config m.
Proof. unfold queueMessage. destruct (_ >=? _); reflexivity. Qed.

Lemma queueMessage_ws x m : ws (queueMessage x m) = ws m.
Proof. unfold queueMessage. destruct (_ >=? _); reflexivity. Qed.

(** With room for at least one envelope, queueing keeps the newest
    [capacity] entries. *)
Lemma queueMessage_last_n (x : WebSocketMessage) (m : Manager) :
  1 <= messageQueueSize (config m) ->
  Z.of_nat (length (messageQueue m)) <= messageQueueSize (config m) ->
  messageQueue (queueMessage x m) =
  last_n (Z.to_nat (messageQueueSize (config m))) (messageQueue m ++ [x]).
Proof.
  intros Hcap Hlen. rewrite queueMessage_queue.
  destruct (Z.geb_spec (Z.of_nat (length (messageQueue m)))
              (messageQueueSize (config m))) as [Hge | Hlt].
  - assert (Hfull : length (messageQueue m)
                    = Z.to_nat (messageQueueSize (config m))) by lia.
    unfold last_n. rewrite length_app, <- Hfull. simpl length.
    replace (length (messageQueue m) + 1 - length (messageQueue m))%nat
      with 1%nat by lia.
    destruct (messageQueue m) as [|y q]; [simpl in Hfull; lia | reflexivity].
  - rewrite last_n_short; [reflexivity|].
    rewrite length_app. simpl. lia.
Qed.

Lemma sendMessage_not_open (x : WebSocketMessage) (m : Manager) :
  isConnected m = Ok false ->
  sendMessage host x m = (queueMessage x m, Ok tt).
Proof. intros H. unfold sendMessage. rewrite H. reflexivity. Qed.

Lemma isConnected_queueMessage x m :
  isConnected (queueMessage x m) = isConnected m.
Proof. unfold isConnected. rewrite queueMessage_ws. reflexivity. Qed.

Lemma sendAll_cons x ms m :
  sendAll host (x :: ms) m = sendAll host ms (fst (sendMessage host x m)).
Proof. reflexivity. Qed.

Lemma sendAll_not_open (ms : list WebSocketMessage) (m : Manager) :
  1 <= messageQueueSize (config m) ->
  Z.of_nat (length (messageQueue m)) <= messageQueueSize (config m) ->
  isConnected m = Ok false ->
  config (sendAll host ms m) = config m /\
  isConnected (sendAll host ms m) = Ok false /\
  messageQueue (sendAll host ms m) =
  last_n (Z.to_nat (messageQueueSize (config m))) (messageQueue m ++ ms).
Proof.
  revert m. induction ms as [|x ms IH]; intros m Hcap Hlen Hconn.
  - simpl. rewrite app_nil_r.
    repeat split; try assumption.
    symmetry. apply last_n_short. lia.
  - rewrite sendAll_cons, sendMessage_not_open by assumption.
    cbn [fst].
    pose proof (queueMessage_last_n x m Hcap Hlen) as Hq.
    destruct (IH (queueMessage x m)) as (Hc & Hi & Hm).
    + rewrite queueMessage_config. assumption.
    + rewrite queueMessage_config, Hq, last_n_length. lia.
    + rewrite isConnected_queueMessage. assumption.
    + rewrite queueMessage_config in Hc, Hm.
      repeat split; try assumption.
      rewrite Hm, Hq, last_n_app_absorb, <- app_assoc. reflexivity.
Qed.

End Facts.

(** ** Status updates and timers *)

Section StatusAndTimers.

Lemma updateStatus_status env s m : status (state (updateStatus env s m)) = s.
Proof.
  unfold updateStatus. cbn. destruct (connectedAt _); reflexivity.
Qed.

(** [updateStatus] writes [status] and [uptime] only. *)
Lemma updateStatus_frame env s m :
  let m' := updateStatus env s m in
  config m' = config m /\ ws m' = ws m /\
  reconnectTimer m' = reconnectTimer m /\
  heartbeatTimer m' = heartbeatTimer m /\
  messageHandlers m' = messageHandlers m /\
  subscriptionCallbacks m' = subscriptionCallbacks m /\
  messageQueue m' = messageQueue m /\
  reconnectAttempts m' = reconnectAttempts m /\
  effects m' = effects m /\
  connected (state m') = connected (state m) /\
  subscriptions (state m') = subscriptions (state m) /\
  lastError (state m') = lastError (state m) /\
  with_uptime 0 (stats (state m')) = with_uptime 0 (stats (state m)).
Proof.
  unfold updateStatus. cbn. destruct (connectedAt _); cbn; repeat split.
Qed.

Lemma clearTimers_timers m :
  reconnectTimer (clearTimers m) = None /\ heartbeatTimer (clearTimers m) = None.
Proof.
  destruct m as [c w st [rt|] [ht|] mh sc q ra ef]; split; reflexivity.
Qed.

Lemma clearTimers_effects m :
  effects (clearTimers m) = effects m ++ cleared m.
Proof.
  destruct m as [c w st [rt|] [ht|] mh sc q ra ef];
    unfold clearTimers, cleared; cbn;
    rewrite <- ?app_assoc, ?app_nil_r; reflexivity.
Qed.

Lemma clearTimers_frame m :
  let m' := clearTimers m in
  config m' = config m /\ ws m' = ws m /\ state m' = state m /\
  messageHandlers m' = messageHandlers m /\
  subscriptionCallbacks m' = subscriptionCallbacks m /\
  messageQueue m' = messageQueue m /\
  reconnectAttempts m' = reconnectAttempts m.
Proof.
  destruct m as [c w st [rt|] [ht|] mh sc q ra ef]; cbn; repeat split.
Qed.

(** Clearing twice is clearing once. *)
Lemma clearTimers_idem m : clearTimers (clearTimers m) = clearTimers m.
Proof.
  destruct m as [c w st [rt|] [ht|] mh sc q ra ef]; reflexivity.
Qed.

End StatusAndTimers.

(** ** The subscription map *)

Section SubscriptionMap.

Implicit Types (l : list (string * SubscriptionState)) (id : string).



Lemma sub_get_delete_eq id l : sub_get id (sub_delete id l) = None.
Proof.
  induction l as [|[k x] l IH]; cbn; [reflexivity|].
  destruct (decide (k = id)) as [->|Hk]; cbn; [exact IH|].
  destruct (decide (k = id)); [contradiction | exact IH].
Qed.


Lemma sub_get_alter_eq f id l :
  sub_get id (sub_alter f id l) = f <$> sub_get id l.
Proof.
  induction l as [|[k x] l IH]; cbn; [reflexivity|].
  destruct (decide (k = id)) as [->|Hk]; cbn.
  - destruct (decide (id = id)); congruence.
  - destruct (decide (k = id)); [contradiction | exact IH].
Qed.


Lemma sub_alter_absent f id l : sub_get id l = None -> sub_alter f id l = l.
Proof.
  induction l as [|[k x] l IH]; cbn; [reflexivity|].
  destruct (decide (k = id)); [discriminate|].
  intros H. rewrite (IH H). reflexivity.
Qed.

End SubscriptionMap.

(** ** The send path *)

Section SendPath.

Variable host : Host.

(** The three ways a call of [sendMessage] can go. *)
Lemma sendMessage_sent (x : WebSocketMessage) (d : string) (m : Manager) :
  isConnected m = Ok true ->
  JSON_stringify host x = Some d ->
  send_throws host d = false ->
  sendMessage host x m =
  (on_stats (fun c => with_sent (messagesSent c + 1)
                        (bytesSent c + Z.of_nat (String.length d)) c)
     (emit (WsSend d) m), Ok tt).
Proof.
  intros Hc Hs Ht. unfold sendMessage, serializeMessage.
  rewrite Hc, Hs, Ht. reflexivity.
Qed.


(** [sendMessage] either returns, having sent or queued, or throws. *)
Lemma sendMessage_cases (x : WebSocketMessage) (m : Manager) :
  (exists d,
     isConnected m = Ok true /\ JSON_stringify host x = Some d /\
     send_throws host d = false /\
     sendMessage host x m =
     (on_stats (fun c => with_sent (messagesSent c + 1)
                           (bytesSent c + Z.of_nat (String.length d)) c)
        (emit (WsSend d) m), Ok tt)) \/
  (isConnected m = Ok false /\
   sendMessage host x m = (queueMessage x m, Ok tt)) \/
  (exists e, sendMessage host x m = (m, Throw e)).
Proof.
  unfold sendMessage, serializeMessage.
  destruct (isConnected m) as [[|]|e] eqn:Hc.
  - destruct (JSON_stringify host x) as [d|] eqn:Hs.
    + destruct (send_throws host d) eqn:Ht.
      * right; right. eauto.
      * left. exists d. repeat split; reflexivity || assumption.
    + right; right. eauto.
  - right; left. split; reflexivity.
  - right; right. eauto.
Qed.

(** Sending and queueing leave the registry, the handlers and the timers
    alone. *)
Lemma sendMessage_frame (x : WebSocketMessage) (m : Manager) :
  let m' := fst (sendMessage host x m) in
  config m' = config m /\ ws m' = ws m /\
  subscriptions (state m') = subscriptions (state m) /\
  status (state m') = status (state m) /\
  messageHandlers m' = messageHandlers m /\
  subscriptionCallbacks m' = subscriptionCallbacks m /\
  reconnectTimer m' = reconnectTimer m /\
  heartbeatTimer m' = heartbeatTimer m /\
  reconnectAttempts m' = reconnectAttempts m.
Proof.
  destruct (sendMessage_cases x m) as [(d & _ & _ & _ & ->) | [(_ & ->) | (e & ->)]];
    cbn; unfold queueMessage; try destruct (_ >=? _); cbn; repeat split.
Qed.

End SendPath.

(** ** Dispatch *)

Section Dispatch.

Variable host : Host.

Lemma invocations_app es es' :
  invocations (es ++ es') = invocations es ++ invocations es'.
Proof. apply omap_app. Qed.

Lemma callback_invocations_app es es' :
  callback_invocations (es ++ es')
  = callback_invocations es ++ callback_invocations es'.
Proof. apply omap_app. Qed.

Lemma message_counts_errored id l :
  message_counts (sub_alter sub_errored id l) = message_counts l.
Proof.
  unfold message_counts.
  induction l as [|[k s] l IH]; cbn; [reflexivity|].
  destruct (decide (k = id)); cbn; [reflexivity | rewrite IH; reflexivity].
Qed.

(** [sendMessage] is invisible to the dispatch path. *)
Lemma sendMessage_inbound_view (x : WebSocketMessage) (m : Manager) :
  inbound_view (fst (sendMessage host x m)) = inbound_view m /\
  invocations (effects (fst (sendMessage host x m))) = invocations (effects m) /\
  latency (stats (state (fst (sendMessage host x m)))) = latency (stats (state m)).
Proof.
  destruct (sendMessage_cases host x m)
    as [(d & _ & _ & _ & ->) | [(_ & ->) | (e & ->)]]; cbn.
  - unfold inbound_view; cbn.
    rewrite callback_invocations_app, invocations_app; cbn.
    rewrite !app_nil_r. repeat split.
  - unfold queueMessage. destruct (_ >=? _); repeat split.
  - repeat split.
Qed.

Lemma detached_sendMessage (x : WebSocketMessage) (m : Manager) :
  exists m', detached (sendMessage host x) m = (m', Ok tt) /\
    inbound_view m' = inbound_view m /\
    invocations (effects m') = invocations (effects m) /\
    latency (stats (state m')) = latency (stats (state m)).
Proof.
  pose proof (sendMessage_inbound_view x m) as (Hv & Hi & Hl).
  unfold detached.
  destruct (sendMessage host x m) as [m1 [[]|e]]; cbn in *.
  - exists m1. repeat split; assumption.
  - exists (emit (Uncaught e) m1). split; [reflexivity|].
    unfold inbound_view in *; cbn.
    rewrite callback_invocations_app, invocations_app; cbn.
    rewrite !app_nil_r. repeat split; assumption.
Qed.

Lemma latency_handlers_cons h hs :
  latency_handlers (h :: hs) =
  match h with
  | HLatency t => t :: latency_handlers hs
  | _ => latency_handlers hs
  end.
Proof. destruct h; reflexivity. Qed.

Lemma latency_handlers_app hs hs' :
  latency_handlers (hs ++ hs') = latency_handlers hs ++ latency_handlers hs'.
Proof. apply omap_app. Qed.

(** The latency left by a handler list is the one its last latency handler
    writes. *)
Lemma latency_step (env : Env) h hs (l0 l1 : Z) :
  l1 = match h with HLatency t => now env - t | _ => l0 end ->
  match last (latency_handlers hs) with
  | Some t => now env - t
  | None => l1
  end =
  match last (latency_handlers (h :: hs)) with
  | Some t => now env - t
  | None => l0
  end.
Proof.
  intros ->. rewrite latency_handlers_cons.
  destruct h as [| | |t|name throws]; try reflexivity.
  rewrite last_cons. destruct (last (latency_handlers hs)); reflexivity.
Qed.

(** A handler that returns: its call is recorded, and the dispatch path
    sees no other change; [latency] is written by a latency handler only. *)
Lemma call_returns (env : Env) (message : WebSocketMessage)
    (h : MessageHandler) (m : Manager) :
  throws_on message h = false ->
  exists m',
    call host env message h m = (m', Ok tt) /\
    invocations (effects m') = invocations (effects m) ++ [(h, message)] /\
    inbound_view m' = inbound_view m /\
    latency (stats (state m')) =
      match h with
      | HLatency t => now env - t
      | _ => latency (stats (state m))
      end.
Proof.
  intros Hthrows.
  assert (Hemit : invocations (effects (emit (Invoke h message) m))
                  = invocations (effects m) ++ [(h, message)]).
  { cbn. rewrite invocations_app. reflexivity. }
  assert (Hview : inbound_view (emit (Invoke h message) m) = inbound_view m).
  { unfold inbound_view; cbn. rewrite callback_invocations_app; cbn.
    rewrite app_nil_r. reflexivity. }
  unfold call, bind, modify.
  destruct h as [| | |t|name throws]; cbn in Hthrows.
  - destruct (detached_sendMessage
                {| msg_id := generateMessageId env 0;
                   msg_type := MessageType.PONG; msg_timestamp := now env;
                   payload := PTimestamp (now env); metadata := None |}
                (emit (Invoke HSendPong message) m))
      as (m' & Hd & Hv & Hi & Hl).
    exists m'. unfold sendPong. rewrite Hd, Hi, Hv, Hl.
    repeat split; assumption.
  - unfold handleErrorMessage, bind, modify, ret.
    destruct (truthy (payload_subscriptionId (payload message))) as [id|];
      eexists; (split; [reflexivity|]);
      unfold inbound_view in *; cbn in *;
      rewrite ?message_counts_errored, !invocations_app, !callback_invocations_app;
      cbn; rewrite ?app_nil_r; repeat split.
  - unfold handleAcknowledgment, modify.
    eexists; (split; [reflexivity|]).
    unfold inbound_view in *; cbn in *.
    rewrite !invocations_app, !callback_invocations_app; cbn.
    rewrite ?app_nil_r. repeat split.
  - eexists; (split; [reflexivity|]).
    unfold inbound_view in *; cbn in *. repeat split; assumption.
  - rewrite Hthrows. unfold ret.
    eexists; (split; [reflexivity|]). repeat split; assumption.
Qed.

(** A handler that throws: its call is recorded and nothing else happens. *)
Lemma call_throws (env : Env) (message : WebSocketMessage)
    (h : MessageHandler) (m : Manager) :
  throws_on message h = true ->
  exists name,
    call host env message h m
    = (emit (Invoke h message) m, Throw (HandlerError name)).
Proof.
  intros Hthrows. destruct h as [| | |t|name throws]; try discriminate.
  cbn in Hthrows. exists name.
  unfold call, bind, modify, throw. rewrite Hthrows. reflexivity.
Qed.

(** [forEach] over handlers that all return. *)
Lemma forEach_all_return (env : Env) (message : WebSocketMessage)
    (hs : list MessageHandler) (m : Manager) :
  forallb (fun h => negb (throws_on message h)) hs = true ->
  exists m',
    forEach (call host env message) hs m = (m', Ok tt) /\
    invocations (effects m')
    = invocations (effects m) ++ map (fun h => (h, message)) hs /\
    inbound_view m' = inbound_view m /\
    latency (stats (state m')) =
      match last (latency_handlers hs) with
      | Some t => now env - t
      | None => latency (stats (state m))
      end.
Proof.
  revert m. induction hs as [|h hs IH]; intros m Hall.
  - exists m. cbn. rewrite app_nil_r. repeat split.
  - cbn in Hall. apply andb_prop in Hall as [Hh Hall].
    apply negb_true_iff in Hh.
    destruct (call_returns env message h m Hh) as (m1 & Hc & Hi & Hv & Hl).
    destruct (IH m1 Hall) as (m' & Hf & Hi' & Hv' & Hl').
    exists m'. cbn [forEach]. unfold bind at 1. rewrite Hc, Hf.
    split; [reflexivity|].
    split; [rewrite Hi', Hi, <- app_assoc; reflexivity|].
    split; [congruence|].
    rewrite Hl'. apply latency_step. exact Hl.
Qed.

(** [forEach] over handlers of which one throws: the iteration ends there. *)
Lemma forEach_throw (env : Env) (message : WebSocketMessage)
    (pre post : list MessageHandler) (h : MessageHandler) (m : Manager) :
  forallb (fun h' => negb (throws_on message h')) pre = true ->
  throws_on message h = true ->
  exists m' name,
    forEach (call host env message) (pre ++ h :: post) m
    = (m', Throw (HandlerError name)) /\
    invocations (effects m')
    = invocations (effects m) ++ map (fun h' => (h', message)) (pre ++ [h]) /\
    inbound_view m' = inbound_view m /\
    latency (stats (state m')) =
      match last (latency_handlers pre) with
      | Some t => now env - t
      | None => latency (stats (state m))
      end.
Proof.
  revert m. induction pre as [|p pre IH]; intros m Hall Hh.
  - destruct (call_throws env message h m Hh) as (name & Hc).
    exists (emit (Invoke h message) m), name.
    cbn [app forEach]. unfold bind. rewrite Hc.
    split; [reflexivity|].
    unfold inbound_view; cbn.
    rewrite invocations_app, callback_invocations_app; cbn.
    rewrite app_nil_r. repeat split.
  - cbn in Hall. apply andb_prop in Hall as [Hp Hall].
    apply negb_true_iff in Hp.
    destruct (call_returns env message p m Hp) as (m1 & Hc & Hi & Hv & Hl).
    destruct (IH m1 Hall Hh) as (m' & name & Hf & Hi' & Hv' & Hl').
    exists m', name. cbn [app forEach]. unfold bind at 1. rewrite Hc, Hf.
    split; [reflexivity|].
    split; [rewrite Hi', Hi, <- app_assoc; reflexivity|].
    split; [congruence|].
    rewrite Hl'. apply latency_step. exact Hl.
Qed.

Lemma dispatch_unfold (env : Env) (event : MessageEvent)
    (message : WebSocketMessage) (m : Manager) :
  JSON_parse host (data event) = Some message ->
  dispatch host env event m =
  bind (match messageHandlers m !! msg_type message with
        | Some handlers => forEach (call host env message) handlers
        | None => ret tt
        end)
       (fun _ => deliver message)
       (counted env event message m).
Proof.
  intros Hp. unfold dispatch, deserializeMessage, counted, deliver.
  rewrite Hp. unfold bind at 1, lift. unfold bind at 1, modify.
  destruct (truthy (payload_subscriptionId (payload message))) as [id|];
    unfold bind, modify, ret, this; cbn; reflexivity.
Qed.

Lemma counted_view (env : Env) (event : MessageEvent)
    (message : WebSocketMessage) (m : Manager) :
  let m' := counted env event message m in
  messageHandlers m' = messageHandlers m /\
  subscriptionCallbacks m' = subscriptionCallbacks m /\
  effects m' = effects m /\
  latency (stats (state m')) = latency (stats (state m)) /\
  messagesReceived (stats (state m')) = messagesReceived (stats (state m)) + 1 /\
  bytesReceived (stats (state m'))
  = bytesReceived (stats (state m)) + Z.of_nat (String.length (data event)).
Proof.
  unfold counted.
  destruct (truthy (payload_subscriptionId (payload message))); cbn;
    repeat split.
Qed.

End Dispatch.

(** ** Flushing and resubscribing *)

Section OpenEvent.

Variable host : Host.

Lemma sendMessage_control_view (x : WebSocketMessage) (m : Manager) :
  control_view (fst (sendMessage host x m)) = control_view m.
Proof.
  destruct (sendMessage_cases host x m)
    as [(d & _ & _ & _ & ->) | [(_ & ->) | (e & ->)]]; cbn;
    unfold queueMessage; try destruct (_ >=? _); reflexivity.
Qed.

(** On an open connection [sendMessage] does not touch the queue and asks
    the host for exactly [transmit]. *)
Lemma detached_sendMessage_open (x : WebSocketMessage) (m : Manager) :
  isConnected m = Ok true ->
  let m' := fst (detached (sendMessage host x) m) in
  effects m' = effects m ++ [transmit host x] /\
  messageQueue m' = messageQueue m /\
  control_view m' = control_view m.
Proof.
  intros Hc. unfold detached, sendMessage, serializeMessage, transmit.
  rewrite Hc.
  destruct (JSON_stringify host x) as [d|]; [destruct (send_throws host d)|];
    cbn; repeat split.
Qed.

Lemma isConnected_control_view m m' :
  control_view m' = control_view m -> isConnected m' = isConnected m.
Proof.
  unfold control_view, isConnected. intros [= _ -> _]. reflexivity.
Qed.

(** On an open connection the flush ends after one iteration per queued
    envelope, having handed them to the socket in queue order. *)
Lemma flushMessageQueue_open (fuel : nat) (m : Manager) :
  isConnected m = Ok true ->
  (length (messageQueue m) <= fuel)%nat ->
  exists m',
    flushMessageQueue host fuel m = Some m' /\
    messageQueue m' = [] /\
    effects m' = effects m ++ map (transmit host) (messageQueue m) /\
    control_view m' = control_view m.
Proof.
  revert m. induction fuel as [|fuel IH]; intros m Hc Hlen.
  - destruct (messageQueue m) as [|x q] eqn:Hq; [|cbn in Hlen; lia].
    exists m. cbn. rewrite Hq. cbn. rewrite app_nil_r. repeat split.
  - cbn [flushMessageQueue].
    destruct (messageQueue m) as [|x q] eqn:Hq.
    + exists m. cbn. rewrite app_nil_r. repeat split. exact Hq.
    + pose proof (detached_sendMessage_open x (with_messageQueue q m)) as Hd.
      cbv zeta in Hd. destruct (Hd Hc) as (He & Hmq & Hv). clear Hd.
      cbn in He, Hmq.
      destruct (IH (fst (detached (sendMessage host x) (with_messageQueue q m))))
        as (m' & Hf & Hq' & He' & Hv').
      * rewrite (isConnected_control_view _ _ Hv). exact Hc.
      * rewrite Hmq. cbn in Hlen. lia.
      * exists m'. split; [exact Hf|]. split; [exact Hq'|].
        split; [rewrite He', He, Hmq, <- app_assoc; reflexivity|].
        rewrite Hv', Hv. reflexivity.
Qed.

(** While the connection is not open, [sendMessage] puts every envelope
    back, so the flush of a queue that is not empty never ends. *)
Lemma flushMessageQueue_not_open (fuel : nat) (m : Manager) :
  isConnected m = Ok false ->
  messageQueue m <> [] ->
  flushMessageQueue host fuel m = None.
Proof.
  revert m. induction fuel as [|fuel IH]; intros m Hc Hne.
  - cbn. destruct (messageQueue m); [contradiction | reflexivity].
  - cbn [flushMessageQueue].
    destruct (messageQueue m) as [|x q] eqn:Hq; [contradiction|].
    unfold detached.
    rewrite sendMessage_not_open by exact Hc. cbn [fst].
    apply IH.
    + rewrite isConnected_queueMessage. exact Hc.
    + rewrite queueMessage_queue. intros Habs.
      apply app_eq_nil in Habs as [_ Habs]. discriminate.
Qed.

Lemma resubscribeAll_fold (l : list (string * SubscriptionState)) (acc : Manager) :
  let m' :=
    fold_left
      (fun acc '(_, subscription) =>
         if active subscription
         then emit (Console (LogResubscribing (sub_channel subscription))) acc
         else acc) l acc in
  effects m' = effects acc
               ++ map resubscribing (filter (fun s => active s = true) (map snd l)) /\
  messageQueue m' = messageQueue acc /\
  control_view m' = control_view acc /\
  stats (state m') = stats (state acc).
Proof.
  revert acc. induction l as [|[k s] l IH]; intros acc.
  - cbn. rewrite app_nil_r. repeat split.
  - cbn [fold_left map snd]. rewrite filter_cons.
    destruct (IH (if active s
                  then emit (Console (LogResubscribing (sub_channel s))) acc
                  else acc)) as (He & Hq & Hv & Hs).
    cbv zeta in *. rewrite He, Hq, Hv, Hs.
    case_decide as Ha; rewrite Ha || (apply not_true_is_false in Ha; rewrite Ha).
    + cbn [effects emit map]. rewrite <- app_assoc. repeat split.
    + repeat split.
Qed.

(** [resubscribeAll] writes one console line per active subscription, in
    registry order, and does nothing else: nothing goes on the wire. *)
Lemma resubscribeAll_effects (m : Manager) :
  effects (resubscribeAll m)
  = effects m ++ map resubscribing (active_subscriptions m) /\
  messageQueue (resubscribeAll m) = messageQueue m /\
  control_view (resubscribeAll m) = control_view m /\
  stats (state (resubscribeAll m)) = stats (state m).
Proof. apply resubscribeAll_fold. Qed.

End OpenEvent.

(** ** The outbound queue *)

Section OutboundQueue.

Variable host : Host.

(** C4 (as amended).  When the configured capacity is at least 1 and the
    queue starts within it, handing [capacity + k] envelopes ([k > 0]) to
    [sendMessage] while the connection is not open never lets the queue
    grow beyond the capacity, after any number of them, and leaves exactly
    the [capacity] most recently submitted envelopes, in arrival order. *)
Theorem queue_bounded_keeps_newest (m : Manager) (ms : list WebSocketMessage)
    (k : nat) :
  1 <= messageQueueSize (config m) ->
  Z.of_nat (length (messageQueue m)) <= messageQueueSize (config m) ->
  isConnected m = Ok false ->
  length ms = (Z.to_nat (messageQueueSize (config m)) + k)%nat ->
  (0 < k)%nat ->
  (forall i : nat,
     Z.of_nat (length (messageQueue (sendAll host (take i ms) m)))
     <= messageQueueSize (config m)) /\
  length (messageQueue (sendAll host ms m))
  = Z.to_nat (messageQueueSize (config m)) /\
  messageQueue (sendAll host ms m) = drop k ms.
Proof.
  intros Hcap Hlen Hconn Hms Hk.
  split; [|split].
  - intros i.
    destruct (sendAll_not_open host (take i ms) m Hcap Hlen Hconn)
      as (_ & _ & Hq).
    rewrite Hq, last_n_length. lia.
  - destruct (sendAll_not_open host ms m Hcap Hlen Hconn) as (_ & _ & Hq).
    rewrite Hq, last_n_length, length_app. lia.
  - destruct (sendAll_not_open host ms m Hcap Hlen Hconn) as (_ & _ & Hq).
    rewrite Hq. unfold last_n.
    rewrite length_app, Hms.
    replace (length (messageQueue m) + (Z.to_nat (messageQueueSize (config m)) + k)
             - Z.to_nat (messageQueueSize (config m)))%nat
      with (length (messageQueue m) + k)%nat by lia.
    rewrite drop_app_add'; reflexivity.
Qed.

End OutboundQueue.

(** Five envelopes submitted before the socket opens, capacity three: the
    queue holds the third, fourth and fifth. *)
Lemma queue_bounded_keeps_newest_witness :
  let m := connecting quiet_host (sample_config 3 5) in
  let e := fun i : Z => sample_message MessageType.COMMAND (pretty i) PUndefined in
  messageQueue (sendAll quiet_host [e 1; e 2; e 3; e 4; e 5] m) = [e 3; e 4; e 5].
Proof.
  intros m e.
  exact (proj2 (proj2
    (queue_bounded_keeps_newest quiet_host m [e 1; e 2; e 3; e 4; e 5] 2
       ltac:(vm_compute; discriminate) ltac:(vm_compute; discriminate)
       eq_refl eq_refl ltac:(lia)))).
Defined.

(** C4 (as stated) fails for capacity 0: one envelope submitted to an empty
    queue stays in it. *)
Lemma queue_capacity_zero_overflows :
  let m := connecting quiet_host (sample_config 0 5) in
  let e := sample_message MessageType.COMMAND "1" PUndefined in
  isConnected m = Ok false /\
  messageQueue m = [] /\
  messageQueueSize (config m) = 0 /\
  ~ (Z.of_nat (length (messageQueue (sendAll quiet_host [e] m)))
     <= messageQueueSize (config m)).
Proof.
  repeat split; try reflexivity.
  vm_compute. intros H. apply H. reflexivity.
Qed.

(** ** Reconnection backoff *)




(** ** Teardown *)




(** ** Close events and the reconnect policy *)

Lemma handleClose_unfold env event m :
  let m5 :=
    clearTimers
      (on_stats (with_disconnectedAt (Some (now env)))
         (on_state (with_connected false)
            (updateStatus env ConnectionStatus.DISCONNECTED
               (emit (Console (LogClosed (close_code event) (close_reason event)))
                  m)))) in
  handleClose env event m =
  if negb (close_code event =? 1000) && shouldReconnect m
  then scheduleReconnect env m5
  else m5.
Proof.
  cbv zeta. unfold handleClose. cbv zeta.
  match goal with |- (if _ && shouldReconnect ?a then _ else _) = _ =>
    assert (shouldReconnect a = shouldReconnect m) as ->; [|reflexivity] end.
  destruct_manager m. destruct ca, rt, ht; reflexivity.
Qed.

(** The manager just before [handleClose] decides about reconnecting. *)
Lemma handleClose_closed env event m :
  let m5 :=
    clearTimers
      (on_stats (with_disconnectedAt (Some (now env)))
         (on_state (with_connected false)
            (updateStatus env ConnectionStatus.DISCONNECTED
               (emit (Console (LogClosed (close_code event) (close_reason event)))
                  m)))) in
  status (state m5) = ConnectionStatus.DISCONNECTED /\
  connected (state m5) = false /\
  disconnectedAt (stats (state m5)) = Some (now env) /\
  reconnectTimer m5 = None /\ heartbeatTimer m5 = None /\
  reconnectAttempts m5 = reconnectAttempts m /\
  config m5 = config m /\
  effects m5 = effects m
               ++ [Console (LogClosed (close_code event) (close_reason event))]
               ++ cleared m.
Proof.
  destruct_manager m.
  destruct ca, rt, ht; cbn; unfold cleared; cbn;
    rewrite <- ?app_assoc; repeat split.
Qed.

Lemma scheduleReconnect_fields env m :
  let m' := scheduleReconnect env m in
  let delay := calculateReconnectDelay env m in
  status (state m') = ConnectionStatus.RECONNECTING /\
  connected (state m') = connected (state m) /\
  disconnectedAt (stats (state m')) = disconnectedAt (stats (state m)) /\
  reconnectTimer m' = Some (TimeoutHandle delay) /\
  heartbeatTimer m' = heartbeatTimer m /\
  reconnectAttempts m' = reconnectAttempts m /\
  config m' = config m /\
  effects m' = effects m
               ++ [Console (LogReconnecting delay (reconnectAttempts m + 1));
                   TimerSet (TimeoutHandle delay)].
Proof.
  destruct_manager m.
  destruct ca; cbn; rewrite <- ?app_assoc; repeat split.
Qed.

Lemma calculateReconnectDelay_ext env m m' :
  config m' = config m -> reconnectAttempts m' = reconnectAttempts m ->
  calculateReconnectDelay env m' = calculateReconnectDelay env m.
Proof. intros Hc Ha. unfold calculateReconnectDelay. rewrite Hc, Ha. reflexivity. Qed.

(** The two ways a [close] event can end. *)
Lemma handleClose_outcome (env : Env) (event : CloseEvent) (m : Manager) :
  let m' := handleClose env event m in
  let said := [Console (LogClosed (close_code event) (close_reason event))] in
  let delay := calculateReconnectDelay env m in
  reconnectAttempts m' = reconnectAttempts m /\
  heartbeatTimer m' = None /\
  if negb (close_code event =? 1000) && shouldReconnect m
  then status (state m') = ConnectionStatus.RECONNECTING /\
       reconnectTimer m' = Some (TimeoutHandle delay) /\
       effects m' = effects m ++ said ++ cleared m
                    ++ [Console (LogReconnecting delay (reconnectAttempts m + 1));
                        TimerSet (TimeoutHandle delay)]
  else status (state m') = ConnectionStatus.DISCONNECTED /\
       reconnectTimer m' = None /\
       effects m' = effects m ++ said ++ cleared m.
Proof.
  cbv zeta. rewrite handleClose_unfold. cbv zeta.
  pose proof (handleClose_closed env event m) as H5. cbv zeta in H5.
  set (m5 := clearTimers _) in *.
  destruct H5 as (Hs & _ & _ & Hrt & Hht & Hra & Hcfg & Hef).
  pose proof (scheduleReconnect_fields env m5) as HS. cbv zeta in HS.
  rewrite (calculateReconnectDelay_ext env m m5 Hcfg Hra) in HS.
  destruct HS as (Ss & _ & _ & Srt & Sht & Sra & _ & Sef).
  destruct (negb (close_code event =? 1000) && shouldReconnect m).
  - rewrite Ss, Srt, Sht, Sra, Sef, Hht, Hra, Hef, <- !app_assoc.
    repeat split.
  - repeat split; assumption.
Qed.



(** Once the attempts are used up, no series of close events requests a
    reconnect timer: the manager stays DISCONNECTED with no timer held. *)
Lemma closeAll_exhausted (events : list (Env * CloseEvent)) (m : Manager) :
  maxReconnectAttempts (config m) <= reconnectAttempts m ->
  events <> [] ->
  let m' := closeAll events m in
  status (state m') = ConnectionStatus.DISCONNECTED /\
  reconnectTimer m' = None /\
  heartbeatTimer m' = None /\
  filter is_TimerSet (effects m') = filter is_TimerSet (effects m).
Proof.
  intros Hmax Hne. cbv zeta.
  assert (Hstep : forall env event m0,
            maxReconnectAttempts (config m0) <= reconnectAttempts m0 ->
            let m1 := handleClose env event m0 in
            maxReconnectAttempts (config m1) <= reconnectAttempts m1 /\
            status (state m1) = ConnectionStatus.DISCONNECTED /\
            reconnectTimer m1 = None /\ heartbeatTimer m1 = None /\
            filter is_TimerSet (effects m1) = filter is_TimerSet (effects m0)).
  { intros env event m0 H0. cbv zeta.
    pose proof (handleClose_outcome env event m0) as Ho. cbv zeta in Ho.
    destruct Ho as (Hra & Hht & Ho).
    assert (Hsr : shouldReconnect m0 = false)
      by (unfold shouldReconnect; apply Z.ltb_ge; exact H0).
    rewrite Hsr, andb_false_r in Ho. destruct Ho as (Hs & Hrt & Hef).
    rewrite handleClose_unfold in *. cbv zeta in *.
    pose proof (handleClose_closed env event m0) as H5. cbv zeta in H5.
    destruct H5 as (_ & _ & _ & _ & _ & _ & Hcfg & _).
    unfold shouldReconnect in *.
    destruct (Z.ltb_spec (reconnectAttempts m0) (maxReconnectAttempts (config m0)));
      [lia|].
    rewrite andb_false_r in *.
    rewrite Hcfg, Hra, Hef.
    repeat split; try assumption.
    rewrite !filter_app. unfold cleared.
    destruct (reconnectTimer m0), (heartbeatTimer m0); cbn;
      rewrite ?app_nil_r; reflexivity. }
  assert (Hinv : forall evs,
            let m1 := closeAll evs m in
            maxReconnectAttempts (config m1) <= reconnectAttempts m1 /\
            filter is_TimerSet (effects m1) = filter is_TimerSet (effects m)).
  { induction evs as [|[env event] evs IH] using rev_ind.
    - split; [exact Hmax | reflexivity].
    - cbv zeta in *. unfold closeAll in *. rewrite fold_left_app. cbn [fold_left].
      destruct IH as (IH1 & IH2).
      destruct (Hstep env event _ IH1) as (H1 & _ & _ & _ & H5).
      split; [exact H1 | rewrite H5; exact IH2]. }
  destruct events as [|e events] using rev_ind; [contradiction|].
  destruct e as [env event].
  destruct (Hinv events) as (I1 & I2).
  unfold closeAll in *. rewrite fold_left_app. cbn [fold_left].
  destruct (Hstep env event _ I1) as (_ & H2 & H3 & H4 & H5).
  repeat split; try assumption. rewrite H5. exact I2.
Qed.

(** ** Subscribing and unsubscribing *)

Section Registry.

Variable host : Host.

Lemma subscribe_unfold env request m :
  subscribe host env request m =
  match sendMessage host (subscribe_envelope env request) m with
  | (m1, Ok _) =>
      (on_subscriptions
         (sub_set (generateSubscriptionId env 0) (subscribe_entry env request))
         m1,
       Ok (generateSubscriptionId env 0))
  | (m1, Throw e) => (m1, Throw e)
  end.
Proof.
  unfold subscribe, bind, modify, ret.
  fold (subscribe_envelope env request). fold (subscribe_entry env request).
  destruct (sendMessage host (subscribe_envelope env request) m) as [m1 [[]|e]];
    reflexivity.
Qed.


Lemma unsubscribe_unfold env id m :
  unsubscribe host env id m =
  match sub_get id (subscriptions (state m)) with
  | None => (m, Throw (NotFound id))
  | Some _ =>
      match sendMessage host (unsubscribe_envelope env id) m with
      | (m1, Ok _) =>
          (on_subscriptions (sub_delete id)
             (on_subscriptions (sub_alter sub_deactivate id) m1), Ok tt)
      | (m1, Throw e) => (m1, Throw e)
      end
  end.
Proof.
  unfold unsubscribe, bind, this, modify, throw.
  fold (unsubscribe_envelope env id).
  destruct (sub_get id (subscriptions (state m))); [|reflexivity].
  destruct (sendMessage host (unsubscribe_envelope env id) m) as [m1 [[]|e]];
    reflexivity.
Qed.


End Registry.





(** ** Connecting *)

Section Connecting.

Variable host : Host.

(** C2 (as amended).  In every state, an already connected one included,
    when the URL and the socket can be constructed [connect()] sets the
    status to CONNECTING and replaces the transport by a newly created
    socket that is not open yet, without closing the one it held; the
    returned promise is left pending.  The configuration, the timers, the
    handlers, the callbacks, the queue, the attempt counter, the registry
    and every statistic but [uptime] are left as they were. *)
Theorem connect_replaces_transport (env : Env) (m : Manager) (u : Url) :
  buildConnectionUrl host (config m) = Ok u ->
  new_WebSocket_throws host u = false ->
  let r := connect host env m in
  let sock := {| ws_url := u; ws_protocols := protocols (config m);
                 ws_binaryType := binaryType (config m);
                 readyState := WS_CONNECTING |} in
  snd r = Pending /\
  status (state (fst r)) = ConnectionStatus.CONNECTING /\
  ws (fst r) = WsSocket sock /\
  isConnected (fst r) = Ok false /\
  effects (fst r) = effects m ++ [WsNew u (protocols (config m))] /\
  config (fst r) = config m /\
  reconnectTimer (fst r) = reconnectTimer m /\
  heartbeatTimer (fst r) = heartbeatTimer m /\
  messageHandlers (fst r) = messageHandlers m /\
  subscriptionCallbacks (fst r) = subscriptionCallbacks m /\
  messageQueue (fst r) = messageQueue m /\
  reconnectAttempts (fst r) = reconnectAttempts m /\
  subscriptions (state (fst r)) = subscriptions (state m) /\
  connected (state (fst r)) = connected (state m) /\
  with_uptime 0 (stats (state (fst r))) = with_uptime 0 (stats (state m)).
Proof.
  intros Hu Hw. cbv zeta. unfold connect.
  pose proof (updateStatus_frame env ConnectionStatus.CONNECTING m) as F.
  cbv zeta in F.
  destruct F as (Fc & Fw & Frt & Fht & Fmh & Fsc & Fq & Fra & Fe & Fcn & Fs & Fl & Fst).
  rewrite Fc, Hu, Hw. cbn.
  rewrite updateStatus_status, Fe.
  repeat split; assumption.
Qed.

End Connecting.

(** From an open connection, a second [connect()] leaves the manager
    CONNECTING with a socket that is not open. *)
Lemma connect_replaces_transport_witness :
  let m := established quiet_host (sample_config 100 5) in
  let r := connect quiet_host (at_time 2000) m in
  status (state (fst r)) = ConnectionStatus.CONNECTING /\
  isConnected (fst r) = Ok false /\
  messageHandlers (fst r) = messageHandlers m.
Proof.
  intros m r.
  destruct (connect_replaces_transport quiet_host (at_time 2000) m
              {| href := "wss://example.test/stream"; searchParams := [] |}
              ltac:(vm_compute; reflexivity) ltac:(reflexivity))
    as (_ & Hs & _ & Hc & _ & _ & _ & _ & Hh & _).
  exact (conj Hs (conj Hc Hh)).
Defined.

(** C2 (as stated) fails: the manager is connected (status CONNECTED, socket
    open), and after [connect()] the status is CONNECTING, the socket held
    is another one, not open, and the promise has not resolved. *)
Lemma connect_when_connected_not_noop :
  let m := established quiet_host (sample_config 100 5) in
  let r := connect quiet_host (at_time 2000) m in
  status (state m) = ConnectionStatus.CONNECTED /\
  isConnected m = Ok true /\
  status (state (fst r)) <> ConnectionStatus.CONNECTED /\
  ws (fst r) <> ws m /\
  isConnected (fst r) = Ok false /\
  snd r = Pending /\
  fst r <> m.
Proof.
  vm_compute. repeat split; discriminate.
Qed.

(** ** Inbound dispatch *)

Section InboundDispatch.

Variable host : Host.

Lemma inbound_view_eq (a b : Manager) :
  inbound_view a = inbound_view b ->
  messageHandlers a = messageHandlers b /\
  subscriptionCallbacks a = subscriptionCallbacks b /\
  messagesReceived (stats (state a)) = messagesReceived (stats (state b)) /\
  bytesReceived (stats (state a)) = bytesReceived (stats (state b)) /\
  message_counts (subscriptions (state a))
  = message_counts (subscriptions (state b)) /\
  callback_invocations (effects a) = callback_invocations (effects b).
Proof. unfold inbound_view. intros [= -> -> -> -> -> ->]. repeat split. Qed.

(** C1 (as amended).  When the handlers registered for the type of an
    inbound envelope are called in turn and one of them throws, the
    handlers registered before it have been called with the envelope, the
    throwing one has been called, and no handler registered after it is
    called, nor any subscription callback: the throw ends the dispatch of
    this envelope.  It is caught by [handleMessage] and logged.  The
    counters of the dispatch path are those of the envelope having been
    counted once: [messagesReceived] one more, [bytesReceived] more by the
    length of the data, the message counts of the registry updated for the
    addressed subscription; the handler tables are unchanged. *)
Theorem dispatch_ends_at_first_throw (env : Env) (event : MessageEvent)
    (message : WebSocketMessage) (pre post : list MessageHandler)
    (h : MessageHandler) (m : Manager) :
  JSON_parse host (data event) = Some message ->
  messageHandlers m !! msg_type message = Some (pre ++ h :: post) ->
  forallb (fun h' => negb (throws_on message h')) pre = true ->
  throws_on message h = true ->
  let m' := handleMessage host env event m in
  invocations (effects m')
  = invocations (effects m) ++ map (fun h' => (h', message)) (pre ++ [h]) /\
  callback_invocations (effects m') = callback_invocations (effects m) /\
  (exists name,
     last (effects m') = Some (Console (LogHandlingError (HandlerError name)))) /\
  inbound_view m' = inbound_view (counted env event message m) /\
  messagesReceived (stats (state m')) = messagesReceived (stats (state m)) + 1 /\
  bytesReceived (stats (state m'))
  = bytesReceived (stats (state m)) + Z.of_nat (String.length (data event)) /\
  messageHandlers m' = messageHandlers m.
Proof.
  intros Hparse Hhs Hpre Hh. cbv zeta.
  pose proof (counted_view env event message m) as Hcv. cbv zeta in Hcv.
  destruct Hcv as (Cmh & Csc & Ce & Cl & Cmr & Cbr).
  destruct (forEach_throw host env message pre post h
              (counted env event message m) Hpre Hh)
    as (m1 & name & Hf & Hi & Hv & _).
  assert (Hm : handleMessage host env event m
               = emit (Console (LogHandlingError (HandlerError name))) m1).
  { unfold handleMessage, try_catch.
    rewrite (dispatch_unfold host env event message m Hparse).
    unfold bind. rewrite Hhs, Hf. reflexivity. }
  rewrite Hm.
  assert (Hview : inbound_view (emit (Console (LogHandlingError (HandlerError name))) m1)
                  = inbound_view (counted env event message m)).
  { rewrite <- Hv. unfold inbound_view; cbn.
    rewrite callback_invocations_app; cbn. rewrite app_nil_r. reflexivity. }
  destruct (inbound_view_eq _ _ Hview) as (Vmh & _ & Vmr & Vbr & _ & Vcb).
  split.
  { cbn [effects emit].
    rewrite invocations_app, Hi, Ce. cbn. rewrite app_nil_r. reflexivity. }
  split; [rewrite Vcb, Ce; reflexivity|].
  split; [exists name; cbn [effects emit]; apply last_snoc|].
  split; [exact Hview|].
  split; [rewrite Vmr; exact Cmr|].
  split; [rewrite Vbr; exact Cbr | rewrite Vmh; exact Cmh].
Qed.

End InboundDispatch.

(** Two consumer handlers registered for DATA, the first of which throws:
    one DATA envelope is counted, the first handler is called, and that is
    all. *)
Lemma dispatch_ends_at_first_throw_witness :
  let m := two_handlers in
  let m' := handleMessage quiet_host (at_time 2000) {| data := "data" |} m in
  map (fun c => handler_name (fst c)) (invocations (effects m')) = ["first"] /\
  messagesReceived (stats (state m')) = 1 /\
  bytesReceived (stats (state m')) = 4.
Proof.
  intros m m'.
  destruct (dispatch_ends_at_first_throw quiet_host (at_time 2000)
              {| data := "data" |}
              (sample_message MessageType.DATA "srv_2" (PData (Some "sub_1") "{}"))
              [] [sound_handler] faulty_handler m
              eq_refl ltac:(vm_compute; reflexivity) eq_refl eq_refl)
    as (Hi & _ & _ & _ & Hr & Hb & _).
  fold m' in Hi, Hr, Hb.
  split; [rewrite Hi; vm_compute; reflexivity|].
  split; [rewrite Hr | rewrite Hb]; vm_compute; reflexivity.
Defined.

(** C1 (as stated) fails: with the throwing handler registered first, the
    second handler is never called with the envelope. *)
Lemma second_handler_not_invoked :
  let m := two_handlers in
  let message :=
    sample_message MessageType.DATA "srv_2" (PData (Some "sub_1") "{}") in
  let m' := handleMessage quiet_host (at_time 2000) {| data := "data" |} m in
  messageHandlers m !! MessageType.DATA = Some [faulty_handler; sound_handler] /\
  JSON_parse quiet_host "data" = Some message /\
  ~ In (sound_handler, message) (invocations (effects m')).
Proof.
  split; [vm_compute; reflexivity|].
  split; [reflexivity|].
  vm_compute. intros [H | []]. discriminate H.
Qed.

(** ** The open event *)

Section OpenEvent.

Variable host : Host.

Lemma handleOpen_unfold env fuel m :
  let m6 :=
    startHeartbeat
      (with_reconnectAttempts 0
         (on_stats (with_connectedAt (Some (now env)))
            (on_state (with_connected true)
               (updateStatus env ConnectionStatus.CONNECTED
                  (emit (Console LogConnected) m))))) in
  handleOpen host env fuel m =
  match flushMessageQueue host fuel m6 with
  | Some m7 => Some (resubscribeAll m7)
  | None => None
  end.
Proof. unfold handleOpen. cbv zeta. reflexivity. Qed.

Lemma control_view_eq (a b : Manager) :
  control_view a = control_view b ->
  config a = config b /\ ws a = ws b /\
  status (state a) = status (state b) /\
  connected (state a) = connected (state b) /\
  subscriptions (state a) = subscriptions (state b) /\
  connectedAt (stats (state a)) = connectedAt (stats (state b)) /\
  reconnectTimer a = reconnectTimer b /\
  heartbeatTimer a = heartbeatTimer b /\
  messageHandlers a = messageHandlers b /\
  subscriptionCallbacks a = subscriptionCallbacks b /\
  reconnectAttempts a = reconnectAttempts b.
Proof.
  unfold control_view. intros [= -> -> -> -> -> _ -> _ _ -> -> -> -> ->].
  repeat split.
Qed.

(** The manager after the first half of [handleOpen], before the flush. *)
Lemma handleOpen_prepared env m :
  let m6 :=
    startHeartbeat
      (with_reconnectAttempts 0
         (on_stats (with_connectedAt (Some (now env)))
            (on_state (with_connected true)
               (updateStatus env ConnectionStatus.CONNECTED
                  (emit (Console LogConnected) m))))) in
  config m6 = config m /\ ws m6 = ws m /\
  status (state m6) = ConnectionStatus.CONNECTED /\
  connected (state m6) = true /\
  subscriptions (state m6) = subscriptions (state m) /\
  connectedAt (stats (state m6)) = Some (now env) /\
  reconnectTimer m6 = reconnectTimer m /\
  heartbeatTimer m6 = Some (IntervalHandle (heartbeatInterval (config m))) /\
  messageHandlers m6 = messageHandlers m /\
  subscriptionCallbacks m6 = subscriptionCallbacks m /\
  reconnectAttempts m6 = 0 /\
  messageQueue m6 = messageQueue m /\
  effects m6 = effects m ++ [Console LogConnected;
                             TimerSet (IntervalHandle (heartbeatInterval (config m)))].
Proof.
  destruct_manager m.
  destruct ca; cbn; rewrite <- app_assoc; repeat split.
Qed.

(** What the open event does when the socket held by the manager is open:
    status CONNECTED, attempt counter 0, connect time recorded, heartbeat
    timer requested and held, every queued envelope handed to the socket in
    queue order and the queue left empty, then one console line per active
    subscription.  The registry is not changed, and apart from the queued
    envelopes nothing is put on the wire. *)
Lemma open_event_effects (env : Env) (m : Manager) :
  isConnected m = Ok true ->
  exists m',
    handleOpen host env (length (messageQueue m)) m = Some m' /\
    status (state m') = ConnectionStatus.CONNECTED /\
    connected (state m') = true /\
    connectedAt (stats (state m')) = Some (now env) /\
    reconnectAttempts m' = 0 /\
    heartbeatTimer m' = Some (IntervalHandle (heartbeatInterval (config m))) /\
    messageQueue m' = [] /\
    subscriptions (state m') = subscriptions (state m) /\
    messageHandlers m' = messageHandlers m /\
    effects m' =
      effects m
      ++ [Console LogConnected;
          TimerSet (IntervalHandle (heartbeatInterval (config m)))]
      ++ map (transmit host) (messageQueue m)
      ++ map resubscribing (active_subscriptions m).
Proof.
  intros Hc. rewrite handleOpen_unfold. cbv zeta.
  pose proof (handleOpen_prepared env m) as Hp. cbv zeta in Hp.
  set (m6 := startHeartbeat _) in *.
  destruct Hp as (P1 & P2 & P3 & P4 & P5 & P6 & P7 & P8 & P9 & P10 & P11 & Pq & Pe).
  assert (Hc6 : isConnected m6 = Ok true).
  { unfold isConnected in *. rewrite P2. exact Hc. }
  destruct (flushMessageQueue_open host (length (messageQueue m)) m6 Hc6)
    as (m7 & Hf & Hq7 & He7 & Hv7); [rewrite Pq; lia|].
  rewrite Hf. exists (resubscribeAll m7). split; [reflexivity|].
  destruct (resubscribeAll_effects m7) as (He8 & Hq8 & Hv8 & _).
  rewrite Hv7 in Hv8.
  destruct (control_view_eq _ _ Hv7)
    as (_ & _ & _ & _ & F5 & _).
  destruct (control_view_eq _ _ Hv8)
    as (G1 & G2 & G3 & G4 & G5 & G6 & G7 & G8 & G9 & G10 & G11).
  assert (Hsubs : active_subscriptions m7 = active_subscriptions m).
  { unfold active_subscriptions. rewrite F5, P5. reflexivity. }
  rewrite He8, He7, Pe, Pq, Hq8, Hq7, Hsubs, <- !app_assoc.
  rewrite G3, G4, G5, G6, G8, G9, G11.
  repeat split; assumption.
Qed.

End OpenEvent.

(** C6 at a reconnect.  The manager subscribed to "wallet" while connected,
    lost its connection and reconnected.  When the new socket opens, the
    manager becomes CONNECTED with "wallet" as its one active subscription,
    and all it asks of the host is a console line, the heartbeat timer and
    the console line "Resubscribing to wallet": nothing is put on the wire
    of the new socket, so no resubscribe request is issued. *)
Theorem reopen_sends_no_resubscription :
  let m := before_reopen quiet_host (sample_config 100 5) in
  exists m',
    handleOpen quiet_host (at_time 3700) 10 m = Some m' /\
    isConnected m = Ok true /\
    status (state m') = ConnectionStatus.CONNECTED /\
    reconnectAttempts m' = 0 /\
    map sub_channel (active_subscriptions m') = ["wallet"] /\
    effects m' =
      effects m ++ [Console LogConnected; TimerSet (IntervalHandle 30000);
                    Console (LogResubscribing "wallet")] /\
    filter is_WsSend (drop (length (effects m)) (effects m')) = [].
Proof.
  eexists. split; [vm_compute; reflexivity|].
  vm_compute. repeat split.
Qed.

(** ** Handlers are only ever added *)

Section HandlerTable.

Variable host : Host.

Lemma connect_handlers env m :
  messageHandlers (fst (connect host env m)) = messageHandlers m.
Proof.
  unfold connect.
  pose proof (updateStatus_frame env ConnectionStatus.CONNECTING m) as F.
  cbv zeta in F. destruct F as (_ & _ & _ & _ & Fmh & _).
  set (m1 := updateStatus env ConnectionStatus.CONNECTING m) in *.
  pose proof (updateStatus_frame env ConnectionStatus.ERROR m1) as G.
  cbv zeta in G. destruct G as (_ & _ & _ & _ & Gmh & _).
  destruct (buildConnectionUrl host (config m1)) as [u|e];
    [destruct (new_WebSocket_throws host u)|]; cbn [fst];
    rewrite ?Gmh; exact Fmh.
Qed.

Lemma disconnect_handlers env m :
  messageHandlers (disconnect env m) = messageHandlers m.
Proof. destruct_manager m. destruct rt, ht, w, ca; reflexivity. Qed.

Lemma handleError_handlers env error m :
  messageHandlers (handleError env error m) = messageHandlers m.
Proof. destruct_manager m. destruct ca; reflexivity. Qed.

Lemma handleClose_handlers env event m :
  messageHandlers (handleClose env event m) = messageHandlers m.
Proof.
  rewrite handleClose_unfold. cbv zeta.
  destruct (negb _ && _); destruct_manager m; destruct rt, ht, ca; reflexivity.
Qed.

Lemma reconnect_handlers env m :
  messageHandlers (reconnect host env m) = messageHandlers m.
Proof. unfold reconnect. rewrite connect_handlers. reflexivity. Qed.

Lemma socket_becomes_handlers rs m :
  messageHandlers (socket_becomes rs m) = messageHandlers m.
Proof. unfold socket_becomes. destruct (ws m); reflexivity. Qed.

Lemma sendMessage_handlers x m :
  messageHandlers (fst (sendMessage host x m)) = messageHandlers m.
Proof.
  pose proof (sendMessage_frame host x m) as F. cbv zeta in F.
  destruct F as (_ & _ & _ & _ & F & _). exact F.
Qed.

Lemma subscribe_handlers env request m :
  messageHandlers (fst (subscribe host env request m)) = messageHandlers m.
Proof.
  rewrite subscribe_unfold.
  pose proof (sendMessage_handlers (subscribe_envelope env request) m) as F.
  destruct (sendMessage host (subscribe_envelope env request) m) as [m1 [[]|e]];
    exact F.
Qed.

Lemma unsubscribe_handlers env id m :
  messageHandlers (fst (unsubscribe host env id m)) = messageHandlers m.
Proof.
  rewrite unsubscribe_unfold.
  destruct (sub_get id (subscriptions (state m))); [|reflexivity].
  pose proof (sendMessage_handlers (unsubscribe_envelope env id) m) as F.
  destruct (sendMessage host (unsubscribe_envelope env id) m) as [m1 [[]|e]];
    exact F.
Qed.

Lemma flushMessageQueue_handlers fuel m m' :
  flushMessageQueue host fuel m = Some m' ->
  messageHandlers m' = messageHandlers m.
Proof.
  revert m. induction fuel as [|fuel IH]; intros m; cbn [flushMessageQueue];
    destruct (messageQueue m) as [|x q]; try discriminate;
    try (intros [= <-]; reflexivity).
  intros Hf. rewrite (IH _ Hf).
  destruct (detached_sendMessage host x (with_messageQueue q m))
    as (m1 & -> & Hv & _).
  destruct (inbound_view_eq _ _ Hv) as (Hm & _).
  cbn [fst]. rewrite Hm. reflexivity.
Qed.

Lemma handleOpen_handlers env fuel m m' :
  handleOpen host env fuel m = Some m' ->
  messageHandlers m' = messageHandlers m.
Proof.
  rewrite handleOpen_unfold. cbv zeta.
  pose proof (handleOpen_prepared env m) as Hp. cbv zeta in Hp.
  set (m6 := startHeartbeat _) in *.
  destruct Hp as (_ & _ & _ & _ & _ & _ & _ & _ & P9 & _).
  destruct (flushMessageQueue host fuel m6) as [m7|] eqn:Hf; [|discriminate].
  intros [= <-].
  destruct (resubscribeAll_effects m7) as (_ & _ & Hv & _).
  destruct (control_view_eq _ _ Hv) as (_ & _ & _ & _ & _ & _ & _ & _ & -> & _).
  rewrite (flushMessageQueue_handlers _ _ _ Hf). exact P9.
Qed.

Lemma forEach_handlers env message hs m :
  messageHandlers (fst (forEach (call host env message) hs m))
  = messageHandlers m.
Proof.
  revert m. induction hs as [|h hs IH]; intros m; [reflexivity|].
  cbn [forEach]. unfold bind at 1.
  destruct (throws_on message h) eqn:Hh.
  - destruct (call_throws host env message h m Hh) as (name & ->). reflexivity.
  - destruct (call_returns host env message h m Hh) as (m1 & -> & _ & Hv & _).
    rewrite IH. destruct (inbound_view_eq _ _ Hv) as (Hm & _). exact Hm.
Qed.

Lemma deliver_handlers message m :
  messageHandlers (fst (deliver message m)) = messageHandlers m.
Proof.
  unfold deliver.
  destruct (msg_type message); try reflexivity.
  destruct (truthy _) as [id|]; [|reflexivity].
  unfold bind, this.
  destruct (subscriptionCallbacks m !! id) as [cb|]; [|reflexivity].
  unfold call_back, bind, modify.
  destruct (cb_throws cb _); reflexivity.
Qed.

Lemma handleMessage_handlers env event m :
  messageHandlers (handleMessage host env event m) = messageHandlers m.
Proof.
  unfold handleMessage, try_catch.
  destruct (JSON_parse host (data event)) as [message|] eqn:Hp.
  - rewrite (dispatch_unfold host env event message m Hp).
    pose proof (counted_view env event message m) as Hc. cbv zeta in Hc.
    destruct Hc as (Cmh & _).
    assert (H1 : forall c : Js unit,
              (forall m0, messageHandlers (fst (c m0)) = messageHandlers m0) ->
              messageHandlers
                (fst (let (m', o) := bind c (fun _ => deliver message)
                                       (counted env event message m) in
                      match o with
                      | Ok _ => (m', Ok tt)
                      | Throw e => (emit (Console (LogHandlingError e)) m', Ok tt)
                      end)) = messageHandlers m).
    { intros c Hcm. unfold bind.
      specialize (Hcm (counted env event message m)).
      destruct (c (counted env event message m)) as [m1 [[]|e]]; cbn [fst] in *.
      - pose proof (deliver_handlers message m1) as Hd.
        destruct (deliver message m1) as [m2 [[]|e]]; cbn [fst] in *;
          cbn [messageHandlers emit]; congruence.
      - cbn [messageHandlers emit]. congruence. }
    destruct (messageHandlers m !! msg_type message) as [hs|].
    + apply H1. intros m0. apply forEach_handlers.
    + apply H1. intros m0. reflexivity.
  - unfold dispatch, deserializeMessage. rewrite Hp. reflexivity.
Qed.

Lemma pong_handlers_onMessage type h m :
  pong_handlers (onMessage type h m) =
  pong_handlers m ++ (if decide (type = MessageType.PONG) then [h] else []).
Proof.
  unfold pong_handlers, onMessage. cbn [messageHandlers with_messageHandlers].
  case_decide as Ht.
  - subst type. rewrite lookup_insert_eq. reflexivity.
  - rewrite lookup_insert_ne by exact Ht. rewrite app_nil_r. reflexivity.
Qed.

(** A heartbeat tick registers a latency handler exactly when it put a
    PING on the wire. *)
Lemma heartbeat_pong_handlers env m :
  pong_handlers (heartbeat host env m) =
  pong_handlers m ++ (if ping_sent host env m then [HLatency (now env)] else []).
Proof.
  unfold heartbeat, ping_sent.
  destruct (isConnected m) as [[|]|e] eqn:Hc; try (rewrite app_nil_r; reflexivity).
  unfold sendPing. fold (ping_envelope env).
  unfold sendMessage, serializeMessage. rewrite Hc.
  destruct (JSON_stringify host (ping_envelope env)) as [d|];
    [destruct (send_throws host d)|]; cbn [negb];
    rewrite ?pong_handlers_onMessage; try (rewrite app_nil_r; reflexivity).
  destruct (decide (MessageType.PONG = MessageType.PONG)); [|contradiction].
  reflexivity.
Qed.

(** No step removes a handler registered for PONG; a step adds one only
    when a consumer registers it or a heartbeat PING was sent. *)
Lemma step_pong_handlers env op m m' :
  step host env op m = Some m' ->
  pong_handlers m' =
  pong_handlers m ++
  match op with
  | CallOnMessage type name throws =>
      if decide (type = MessageType.PONG) then [HUser name throws] else []
  | TickHeartbeat => if ping_sent host env m then [HLatency (now env)] else []
  | _ => []
  end.
Proof.
  destruct op; cbn [step]; try (intros [= <-]);
    rewrite ?pong_handlers_onMessage, ?heartbeat_pong_handlers;
    try reflexivity;
    rewrite app_nil_r; unfold pong_handlers.
  - rewrite connect_handlers. reflexivity.
  - rewrite disconnect_handlers. reflexivity.
  - rewrite subscribe_handlers. reflexivity.
  - rewrite unsubscribe_handlers. reflexivity.
  - rewrite sendMessage_handlers. reflexivity.
  - reflexivity.
  - rewrite socket_becomes_handlers. reflexivity.
  - intros Ho. rewrite (handleOpen_handlers _ _ _ _ Ho). reflexivity.
  - rewrite handleMessage_handlers. reflexivity.
  - rewrite handleError_handlers. reflexivity.
  - rewrite handleClose_handlers. reflexivity.
  - rewrite reconnect_handlers. reflexivity.
Qed.

(** Along a run the PONG handler list only grows, and the latency handlers
    it gains are those of the PINGs sent, in order. *)
Lemma run_pong_handlers steps m m' :
  run host steps m = Some m' ->
  exists added,
    pong_handlers m' = pong_handlers m ++ added /\
    latency_handlers added = ping_times host steps m.
Proof.
  revert m. induction steps as [|[env op] steps IH]; intros m.
  - intros [= <-]. exists []. rewrite app_nil_r. split; reflexivity.
  - cbn [run ping_times].
    destruct (step host env op m) as [m1|] eqn:Hs; [|discriminate].
    intros Hr. destruct (IH m1 Hr) as (added & Ha & Hl).
    pose proof (step_pong_handlers env op m m1 Hs) as H1.
    eexists. split.
    + rewrite Ha, H1, <- app_assoc. reflexivity.
    + rewrite latency_handlers_app, Hl. f_equal.
      destruct op; try reflexivity.
      * destruct (decide (type = MessageType.PONG)); reflexivity.
      * destruct (ping_sent host env m); reflexivity.
Qed.

(** Dispatch of an envelope none of whose handlers throws, when no
    subscription callback is due: every handler is called, in order. *)
Lemma handleMessage_all_return env event message m :
  JSON_parse host (data event) = Some message ->
  msg_type message <> MessageType.DATA ->
  forallb (fun h => negb (throws_on message h))
    (default [] (messageHandlers m !! msg_type message)) = true ->
  let m' := handleMessage host env event m in
  invocations (effects m') =
    invocations (effects m)
    ++ map (fun h => (h, message))
         (default [] (messageHandlers m !! msg_type message)) /\
  latency (stats (state m')) =
    match last (latency_handlers
                  (default [] (messageHandlers m !! msg_type message))) with
    | Some t => now env - t
    | None => latency (stats (state m))
    end.
Proof.
  intros Hp Hty Hall. cbv zeta.
  pose proof (counted_view env event message m) as Hc. cbv zeta in Hc.
  destruct Hc as (_ & _ & Ce & Cl & _).
  assert (Hd : forall m0, deliver message m0 = (m0, Ok tt)).
  { intros m0. unfold deliver.
    destruct (msg_type message); try reflexivity. contradiction. }
  unfold handleMessage, try_catch.
  rewrite (dispatch_unfold host env event message m Hp). unfold bind.
  destruct (messageHandlers m !! msg_type message) as [hs|]; cbn [default] in *.
  - destruct (forEach_all_return host env message hs
                (counted env event message m) Hall)
      as (m1 & -> & Hi & _ & Hl).
    rewrite Hd. cbn [fst]. rewrite Hi, Hl, Ce, Cl. split; reflexivity.
  - unfold ret. rewrite Hd. cbn [fst]. rewrite Ce, Cl, app_nil_r.
    split; reflexivity.
Qed.

End HandlerTable.

(** ** Latency handlers *)

Section LatencyHandlers.

Variable host : Host.

(** C10 (as amended).  After any run of the manager since its
    construction, the latency handlers in the handler list of PONG are
    exactly those of the heartbeat PINGs that were sent, in ping order, one
    per PING; whatever happens next, the list only grows.  When no handler
    registered for PONG throws on an inbound PONG envelope, that one
    envelope calls every handler of the list, all latency handlers among
    them, and leaves [latency] at the time of the dispatch minus the send
    time of the most recent PING. *)
Theorem latency_handlers_accumulate (cfg : WebSocketConfig)
    (steps : list (Env * Op)) (m : Manager) :
  run host steps (constructor cfg) = Some m ->
  latency_handlers (pong_handlers m) = ping_times host steps (constructor cfg) /\
  (forall steps' m',
     run host steps' m = Some m' ->
     exists added, pong_handlers m' = pong_handlers m ++ added) /\
  (forall env event message,
     JSON_parse host (data event) = Some message ->
     msg_type message = MessageType.PONG ->
     forallb (fun h => negb (throws_on message h)) (pong_handlers m) = true ->
     let m' := handleMessage host env event m in
     invocations (effects m')
     = invocations (effects m) ++ map (fun h => (h, message)) (pong_handlers m) /\
     latency (stats (state m')) =
       match last (ping_times host steps (constructor cfg)) with
       | Some t => now env - t
       | None => latency (stats (state m))
       end).
Proof.
  intros Hrun.
  assert (Hlat : latency_handlers (pong_handlers m)
                 = ping_times host steps (constructor cfg)).
  { destruct (run_pong_handlers host steps _ _ Hrun) as (added & Ha & Hl).
    rewrite Ha, latency_handlers_app, Hl. reflexivity. }
  split; [exact Hlat|].
  split.
  { intros steps' m' Hr.
    destruct (run_pong_handlers host steps' _ _ Hr) as (added & Ha & _).
    exists added. exact Ha. }
  intros env event message Hp Hty Hall. cbv zeta.
  rewrite <- Hlat. unfold pong_handlers in *. rewrite <- Hty in *.
  apply (handleMessage_all_return host env event message m Hp);
    [rewrite Hty; discriminate | exact Hall].
Qed.

End LatencyHandlers.

(** Two heartbeat PINGs sent at 5000 and 35000: two latency handlers, in
    that order; a PONG dispatched at 35040 calls both and leaves a latency
    of 40. *)
Lemma latency_handlers_accumulate_witness :
  exists m,
    run quiet_host heartbeat_run (constructor (sample_config 100 5)) = Some m /\
    latency_handlers (pong_handlers m) = [5000; 35000] /\
    latency (stats (state (handleMessage quiet_host (at_time 35040)
                             {| data := "pong" |} m))) = 40.
Proof.
  eexists. split; [vm_compute; reflexivity|].
  match goal with
  | |- latency_handlers (pong_handlers ?m) = _ /\ _ =>
      destruct (latency_handlers_accumulate quiet_host (sample_config 100 5)
                  heartbeat_run m ltac:(vm_compute; reflexivity))
        as (Hl & _ & Hd)
  end.
  split; [rewrite Hl; vm_compute; reflexivity|].
  destruct (Hd (at_time 35040) {| data := "pong" |}
              (sample_message MessageType.PONG "srv_1" (PTimestamp 0))
              eq_refl eq_refl ltac:(vm_compute; reflexivity)) as (_ & Hlat).
  rewrite Hlat. vm_compute. reflexivity.
Defined.

(** C10 (as stated) fails when a consumer's PONG handler throws: two PINGs
    were sent and two latency handlers are registered, but the inbound PONG
    calls the consumer's handler only, and [latency] is not written. *)
Lemma pong_stops_at_throwing_handler :
  exists m,
    run quiet_host audited_run (constructor (sample_config 100 5)) = Some m /\
    ping_times quiet_host audited_run (constructor (sample_config 100 5))
    = [5000; 35000] /\
    latency_handlers (pong_handlers m) = [5000; 35000] /\
    let m' := handleMessage quiet_host (at_time 35040) {| data := "pong" |} m in
    map (fun c => handler_name (fst c))
      (drop (length (invocations (effects m))) (invocations (effects m')))
    = ["audit"] /\
    latency (stats (state m')) = 0 /\
    latency (stats (state m')) <> 35040 - 35000.
Proof.
  eexists. split; [vm_compute; reflexivity|].
  vm_compute. repeat split. discriminate.
Qed.

(** ** Before the first connect *)

Section FreshManager.

Variable host : Host.

(** X1.  A manager that has been constructed but never connected holds no
    socket reference at all, so [isConnected()] throws; [sendMessage] and
    [subscribe] therefore reject with that error and leave the manager
    untouched: nothing is queued and nothing is recorded.  Once a first
    [connect()] has created the socket the same call queues the envelope. *)
Theorem fresh_manager_rejects_sends (cfg : WebSocketConfig) (env : Env)
    (x : WebSocketMessage) (request : SubscriptionRequest) :
  isConnected (constructor cfg) = Throw TypeError /\
  sendMessage host x (constructor cfg) = (constructor cfg, Throw TypeError) /\
  subscribe host env request (constructor cfg)
  = (constructor cfg, Throw TypeError) /\
  messageQueue (constructor cfg) = [] /\
  subscriptions (state (constructor cfg)) = [] /\
  (snd (connect host env (constructor cfg)) = Pending ->
   sendMessage host x (fst (connect host env (constructor cfg)))
   = (queueMessage x (fst (connect host env (constructor cfg))), Ok tt)).
Proof.
  split; [reflexivity|]. split; [reflexivity|].
  split; [rewrite subscribe_unfold; reflexivity|].
  split; [reflexivity|]. split; [reflexivity|].
  intros Hp. apply sendMessage_not_open.
  unfold connect in *.
  destruct (buildConnectionUrl host _) as [u|e]; [|discriminate].
  destruct (new_WebSocket_throws host u); [discriminate|].
  reflexivity.
Qed.

End FreshManager.

(** ** More on inbound dispatch *)

Section DispatchOrder.

Variable host : Host.

Lemma counted_frame (env : Env) (event : MessageEvent)
    (message : WebSocketMessage) (m : Manager) :
  let m' := counted env event message m in
  config m' = config m /\ ws m' = ws m /\
  messageQueue m' = messageQueue m /\
  effects m' = effects m /\
  messagesSent (stats (state m')) = messagesSent (stats (state m)) /\
  bytesSent (stats (state m')) = bytesSent (stats (state m)) /\
  lastError (state m') = lastError (state m) /\
  subscriptions (state m') =
    match truthy (payload_subscriptionId (payload message)) with
    | Some id => sub_alter (sub_received (now env)) id (subscriptions (state m))
    | None => subscriptions (state m)
    end.
Proof.
  unfold counted.
  destruct (truthy (payload_subscriptionId (payload message))); cbn;
    repeat split.
Qed.

(** What [deliver] does: it calls the callback that is due, if any. *)
Lemma deliver_effects (message : WebSocketMessage) (m : Manager) :
  invocations (effects (fst (deliver message m))) = invocations (effects m) /\
  callback_invocations (effects (fst (deliver message m)))
  = callback_invocations (effects m) ++ due_callback message m /\
  messageHandlers (fst (deliver message m)) = messageHandlers m /\
  subscriptionCallbacks (fst (deliver message m)) = subscriptionCallbacks m /\
  state (fst (deliver message m)) = state m.
Proof.
  unfold deliver, due_callback.
  destruct (msg_type message); cbn [fst ret];
    try (rewrite app_nil_r; repeat split).
  destruct (truthy _) as [id|]; cbn [fst ret];
    [|rewrite app_nil_r; repeat split].
  unfold bind, this.
  destruct (subscriptionCallbacks m !! id) as [cb|]; cbn [fst ret];
    [|rewrite app_nil_r; repeat split].
  unfold call_back, bind, modify, throw, ret.
  destruct (cb_throws cb _); cbn [fst effects emit];
    rewrite invocations_app, callback_invocations_app;
    cbn; rewrite app_nil_r; repeat split.
Qed.

(** Dispatch of an envelope none of whose handlers throws: the handlers of
    its type are called in registration order, then the callback that is
    due; a throw of the callback is caught. *)
Lemma handleMessage_returning (env : Env) (event : MessageEvent)
    (message : WebSocketMessage) (m : Manager) :
  JSON_parse host (data event) = Some message ->
  forallb (fun h => negb (throws_on message h))
    (default [] (messageHandlers m !! msg_type message)) = true ->
  let m' := handleMessage host env event m in
  invocations (effects m') =
    invocations (effects m)
    ++ map (fun h => (h, message))
         (default [] (messageHandlers m !! msg_type message)) /\
  callback_invocations (effects m')
  = callback_invocations (effects m) ++ due_callback message m /\
  messageHandlers m' = messageHandlers m /\
  subscriptionCallbacks m' = subscriptionCallbacks m.
Proof.
  intros Hp Hall. cbv zeta.
  pose proof (counted_view env event message m) as Hc. cbv zeta in Hc.
  destruct Hc as (Cmh & Csc & Ce & _).
  assert (Hstep : forall m1,
            invocations (effects m1)
            = invocations (effects m)
              ++ map (fun h => (h, message))
                   (default [] (messageHandlers m !! msg_type message)) ->
            inbound_view m1 = inbound_view (counted env event message m) ->
            let m' := fst (let (m2, o) := deliver message m1 in
                           match o with
                           | Ok _ => (m2, Ok tt)
                           | Throw e => (emit (Console (LogHandlingError e)) m2, Ok tt)
                           end) in
            invocations (effects m') =
              invocations (effects m)
              ++ map (fun h => (h, message))
                   (default [] (messageHandlers m !! msg_type message)) /\
            callback_invocations (effects m')
            = callback_invocations (effects m) ++ due_callback message m /\
            messageHandlers m' = messageHandlers m /\
            subscriptionCallbacks m' = subscriptionCallbacks m).
  { intros m1 Hi Hv.
    destruct (inbound_view_eq _ _ Hv) as (Vmh & Vsc & _ & _ & _ & Vcb).
    destruct (deliver_effects message m1) as (Di & Dc & Dmh & Dsc & _).
    assert (Hdue : due_callback message m1 = due_callback message m).
    { unfold due_callback. rewrite Vsc, Csc. reflexivity. }
    rewrite Hdue, Vcb, Ce in Dc. rewrite Hi in Di.
    rewrite Vmh, Cmh in Dmh. rewrite Vsc, Csc in Dsc.
    destruct (deliver message m1) as [m2 [[]|e]]; cbn [fst] in *.
    - repeat split; assumption.
    - cbn [effects emit messageHandlers subscriptionCallbacks].
      rewrite invocations_app, callback_invocations_app, Di, Dc.
      cbn. rewrite !app_nil_r. repeat split; assumption. }
  unfold handleMessage, try_catch.
  rewrite (dispatch_unfold host env event message m Hp). unfold bind.
  destruct (messageHandlers m !! msg_type message) as [hs|]; cbn [default] in *.
  - destruct (forEach_all_return host env message hs
                (counted env event message m) Hall)
      as (m1 & -> & Hi & Hv & _).
    rewrite Ce in Hi. apply Hstep; assumption.
  - unfold ret. apply Hstep; [rewrite Ce, app_nil_r|]; reflexivity.
Qed.

(** X2.  When no handler registered for the type of an inbound envelope
    throws on it, [handleMessage] calls those handlers with the envelope in
    their registration order, each once, and then, for a DATA envelope that
    names a subscription with a registered callback, that callback once
    with [payload.data] (an exception of the callback is caught); for any
    other envelope no callback is called.  The handler and callback tables
    are left as they were. *)
Theorem dispatch_calls_in_registration_order (env : Env) (event : MessageEvent)
    (message : WebSocketMessage) (m : Manager) :
  JSON_parse host (data event) = Some message ->
  forallb (fun h => negb (throws_on message h))
    (default [] (messageHandlers m !! msg_type message)) = true ->
  let m' := handleMessage host env event m in
  invocations (effects m') =
    invocations (effects m)
    ++ map (fun h => (h, message))
         (default [] (messageHandlers m !! msg_type message)) /\
  callback_invocations (effects m')
  = callback_invocations (effects m) ++ due_callback message m /\
  (msg_type message <> MessageType.DATA -> due_callback message m = []) /\
  (forall type h,
     default [] (messageHandlers (onMessage type h m) !! type)
     = default [] (messageHandlers m !! type) ++ [h]) /\
  messageHandlers m' = messageHandlers m /\
  subscriptionCallbacks m' = subscriptionCallbacks m.
Proof.
  intros Hp Hall.
  pose proof (handleMessage_returning env event message m Hp Hall) as H.
  cbv zeta in *. destruct H as (Hi & Hc & Hmh & Hsc).
  split; [exact Hi|]. split; [exact Hc|].
  split.
  { intros Hty. unfold due_callback.
    destruct (msg_type message); try reflexivity. contradiction. }
  split.
  { intros type h. unfold onMessage.
    cbn [messageHandlers with_messageHandlers].
    rewrite lookup_insert_eq. reflexivity. }
  split; assumption.
Qed.

(** X3.  Data that does not parse is not counted and reaches no handler:
    the only thing [handleMessage] does with it is to log the error. *)
Theorem unparsable_data_is_only_logged (env : Env) (event : MessageEvent)
    (m : Manager) :
  JSON_parse host (data event) = None ->
  handleMessage host env event m
  = emit (Console (LogHandlingError SyntaxError)) m /\
  stats (state (handleMessage host env event m)) = stats (state m) /\
  invocations (effects (handleMessage host env event m))
  = invocations (effects m).
Proof.
  intros Hp.
  assert (H : handleMessage host env event m
              = emit (Console (LogHandlingError SyntaxError)) m).
  { unfold handleMessage, try_catch, dispatch, deserializeMessage.
    rewrite Hp. reflexivity. }
  rewrite H. split; [reflexivity|]. split; [reflexivity|].
  cbn [effects emit]. rewrite invocations_app. cbn. apply app_nil_r.
Qed.

End DispatchOrder.

(** Two consumer handlers registered for COMMAND and one callback for
    subscription "sub_1": a DATA envelope for "sub_1" calls the callback,
    and text that is not JSON is only logged. *)
Lemma dispatch_calls_in_registration_order_witness :
  let cb := {| cb_name := "wallet"; cb_throws := fun _ => false |} in
  let m := onSubscription "sub_1" cb
             (onMessage MessageType.DATA sound_handler
                (established quiet_host (sample_config 100 5))) in
  let m' := handleMessage quiet_host (at_time 2000) {| data := "data" |} m in
  map (fun c => handler_name (fst c)) (invocations (effects m')) = ["second"] /\
  map (fun c => (cb_name (fst c), snd c)) (callback_invocations (effects m'))
  = [("wallet", Some "{}")].
Proof.
  intros cb m m'.
  destruct (dispatch_calls_in_registration_order quiet_host (at_time 2000)
              {| data := "data" |}
              (sample_message MessageType.DATA "srv_2" (PData (Some "sub_1") "{}"))
              m eq_refl ltac:(vm_compute; reflexivity))
    as (Hi & Hc & _).
  fold m' in Hi, Hc.
  split; [rewrite Hi | rewrite Hc]; vm_compute; reflexivity.
Defined.

Lemma unparsable_data_is_only_logged_witness :
  let m := established quiet_host (sample_config 100 5) in
  messagesReceived (stats (state (handleMessage quiet_host (at_time 2000)
                                    {| data := "not json" |} m))) = 0.
Proof.
  intros m.
  destruct (unparsable_data_is_only_logged quiet_host (at_time 2000)
              {| data := "not json" |} m eq_refl) as (_ & Hs & _).
  rewrite Hs. vm_compute. reflexivity.
Defined.

(** ** The default handlers *)

Section DefaultHandlers.

Variable host : Host.

Lemma handleMessage_single_handler (env : Env) (event : MessageEvent)
    (message : WebSocketMessage) (h : MessageHandler) (m : Manager) :
  JSON_parse host (data event) = Some message ->
  messageHandlers m !! msg_type message = Some [h] ->
  msg_type message <> MessageType.DATA ->
  throws_on message h = false ->
  handleMessage host env event m
  = fst (call host env message h (counted env event message m)).
Proof.
  intros Hp Hh Hty Hth.
  unfold handleMessage, try_catch.
  rewrite (dispatch_unfold host env event message m Hp), Hh.
  cbn [forEach]. unfold bind at 1. unfold bind at 1.
  destruct (call_returns host env message h (counted env event message m) Hth)
    as (m1 & -> & _).
  unfold ret, deliver.
  destruct (msg_type message); try reflexivity. contradiction.
Qed.

(** X4.  With the handler table as the constructor leaves it for PING, an
    inbound PING is answered at once: on an open connection whose send goes
    through, exactly one PONG envelope, stamped with the current time, is
    put on the wire and counted as sent; when the connection is not open
    the PONG is put on the outbound queue instead.  The PING itself is
    counted as received in both cases. *)
Theorem ping_is_answered_with_pong (env : Env) (event : MessageEvent)
    (message : WebSocketMessage) (m : Manager) :
  JSON_parse host (data event) = Some message ->
  msg_type message = MessageType.PING ->
  messageHandlers m !! MessageType.PING = Some [HSendPong] ->
  let m' := handleMessage host env event m in
  messageHandlers (constructor (config m)) !! MessageType.PING = Some [HSendPong] /\
  messagesReceived (stats (state m')) = messagesReceived (stats (state m)) + 1 /\
  (forall d, isConnected m = Ok true ->
     JSON_stringify host (pong_envelope env) = Some d ->
     send_throws host d = false ->
     effects m' = effects m ++ [Invoke HSendPong message; WsSend d] /\
     messagesSent (stats (state m')) = messagesSent (stats (state m)) + 1 /\
     messageQueue m' = messageQueue m) /\
  (isConnected m = Ok false ->
     effects m' = effects m ++ [Invoke HSendPong message] /\
     messagesSent (stats (state m')) = messagesSent (stats (state m)) /\
     messageQueue m' = messageQueue (queueMessage (pong_envelope env) m)).
Proof.
  intros Hp Hty Hh. cbv zeta.
  pose proof (counted_frame env event message m) as Hf. cbv zeta in Hf.
  destruct Hf as (Fc & Fw & Fq & Fe & Fms & _).
  pose proof (counted_view env event message m) as Hv. cbv zeta in Hv.
  destruct Hv as (_ & _ & _ & _ & Vmr & _).
  rewrite (handleMessage_single_handler env event message HSendPong m Hp);
    [| rewrite Hty; exact Hh | rewrite Hty; discriminate | reflexivity].
  set (mc := counted env event message m) in *.
  unfold call, bind, modify, sendPong. fold (pong_envelope env).
  set (m0 := emit (Invoke HSendPong message) mc).
  assert (Hc0 : isConnected m0 = isConnected m).
  { unfold isConnected. cbn. rewrite Fw. reflexivity. }
  split; [reflexivity|].
  split.
  { pose proof (sendMessage_inbound_view host (pong_envelope env) m0) as (Hiv & _).
    unfold detached.
    destruct (sendMessage host (pong_envelope env) m0) as [m1 [[]|e]];
      cbn [fst] in *;
      destruct (inbound_view_eq _ _ Hiv) as (_ & _ & Hmr & _);
      cbn [stats state emit] in *; rewrite Hmr; exact Vmr. }
  split.
  - intros d Hc Hs Ht. unfold detached.
    rewrite (sendMessage_sent host (pong_envelope env) d m0);
      [| rewrite Hc0; exact Hc | exact Hs | exact Ht].
    cbn. rewrite Fe, Fms, Fq, <- app_assoc. repeat split.
  - intros Hc. unfold detached.
    rewrite (sendMessage_not_open host (pong_envelope env) m0);
      [| rewrite Hc0; exact Hc].
    cbn [fst].
    assert (Hq0 : messageQueue m0 = messageQueue m) by (cbn; exact Fq).
    assert (Hcfg0 : config m0 = config m) by (cbn; exact Fc).
    split; [|split].
    + unfold queueMessage. destruct (_ >=? _); cbn; rewrite Fe; reflexivity.
    + unfold queueMessage. destruct (_ >=? _); cbn; exact Fms.
    + rewrite !queueMessage_queue, Hq0, Hcfg0. reflexivity.
Qed.

(** X5.  With the handler table as the constructor leaves it for ERROR, an
    ERROR envelope addressed to a registered subscription is recorded as
    the last error and counted twice on that subscription: once as a
    message ([messageCount], [lastMessage]) and once as an error
    ([errorCount]); the connection status is not changed and nothing is put
    on the wire. *)
Theorem error_envelope_is_counted_twice (env : Env) (event : MessageEvent)
    (message : WebSocketMessage) (id : string) (err : WebSocketError)
    (s : SubscriptionState) (m : Manager) :
  JSON_parse host (data event) = Some message ->
  msg_type message = MessageType.ERROR ->
  payload message = PError (Some id) err ->
  id <> "" ->
  messageHandlers m !! MessageType.ERROR = Some [HErrorMessage] ->
  sub_get id (subscriptions (state m)) = Some s ->
  let m' := handleMessage host env event m in
  sub_get id (subscriptions (state m'))
  = Some {| sub_id := sub_id s; sub_channel := sub_channel s; active := active s;
            createdAt := createdAt s; lastMessage := Some (now env);
            messageCount := messageCount s + 1;
            errorCount := errorCount s + 1 |} /\
  lastError (state m') = Some (PError (Some id) err) /\
  status (state m') = status (state m) /\
  wire (effects m') = wire (effects m) /\
  messageHandlers (constructor (config m)) !! MessageType.ERROR
  = Some [HErrorMessage].
Proof.
  intros Hp Hty Hpl Hid Hh Hs. cbv zeta.
  rewrite (handleMessage_single_handler env event message HErrorMessage m Hp);
    [| rewrite Hty; exact Hh | rewrite Hty; discriminate | reflexivity].
  unfold call, bind, modify, handleErrorMessage, counted.
  rewrite Hpl. cbn [payload_subscriptionId truthy].
  destruct (decide (id = "")) as [|_]; [contradiction|].
  unfold bind, modify. cbn.
  rewrite !sub_get_alter_eq, Hs. cbn.
  unfold wire. rewrite !omap_app. cbn. rewrite !app_nil_r.
  repeat split.
Qed.

End DefaultHandlers.

(** A PING on an open connection puts one PONG on the wire. *)
Lemma ping_is_answered_with_pong_witness :
  let host :=
    {| JSON_stringify := JSON_stringify quiet_host;
       JSON_parse := fun _ =>
         Some (sample_message MessageType.PING "srv_3" (PTimestamp 7));
       new_URL_throws := fun _ => false;
       new_WebSocket_throws := fun _ => false;
       send_throws := fun _ => false |} in
  let m := established host (sample_config 100 5) in
  let m' := handleMessage host (at_time 2000) {| data := "ping" |} m in
  wire (effects m') = ["msg_2000_0"] /\
  messagesSent (stats (state m')) = 1.
Proof.
  intros host m m'.
  destruct (ping_is_answered_with_pong host (at_time 2000) {| data := "ping" |}
              (sample_message MessageType.PING "srv_3" (PTimestamp 7)) m
              eq_refl eq_refl ltac:(vm_compute; reflexivity))
    as (_ & _ & Hopen & _).
  destruct (Hopen "msg_2000_0" ltac:(vm_compute; reflexivity)
              ltac:(vm_compute; reflexivity) eq_refl) as (He & Hs & _).
  fold m' in He, Hs.
  split; [rewrite He | rewrite Hs]; vm_compute; reflexivity.
Defined.

(** An ERROR envelope for a subscription that has received nothing yet
    leaves it with one message and one error. *)
Lemma error_envelope_is_counted_twice_witness :
  let err := {| code := 4001; message := "rate limited"; timestamp := 0;
                details := None; recoverable := true |} in
  let id := generateSubscriptionId (at_time 1000) 0 in
  let host :=
    {| JSON_stringify := JSON_stringify quiet_host;
       JSON_parse := fun _ =>
         Some (sample_message MessageType.ERROR "srv_4" (PError (Some id) err));
       new_URL_throws := fun _ => false;
       new_WebSocket_throws := fun _ => false;
       send_throws := fun _ => false |} in
  let m := subscribed_early host (sample_config 100 5) in
  let m' := handleMessage host (at_time 2000) {| data := "error" |} m in
  (messageCount <$> sub_get id (subscriptions (state m')),
   errorCount <$> sub_get id (subscriptions (state m'))) = (Some 1, Some 1).
Proof.
  intros err id host m m'.
  destruct (error_envelope_is_counted_twice host (at_time 2000)
              {| data := "error" |}
              (sample_message MessageType.ERROR "srv_4" (PError (Some id) err))
              id err (subscribe_entry (at_time 1000) sample_request) m
              eq_refl eq_refl eq_refl ltac:(vm_compute; discriminate)
              ltac:(vm_compute; reflexivity) ltac:(vm_compute; reflexivity))
    as (Hsub & _).
  fold m' in Hsub. rewrite Hsub. reflexivity.
Defined.

(** ** The registry along a run *)

Section RegistryInvariant.

Variable host : Host.

Lemma detached_sendMessage_control_view (x : WebSocketMessage) (m : Manager) :
  control_view (fst (detached (sendMessage host x) m)) = control_view m.
Proof.
  pose proof (sendMessage_control_view host x m) as H. unfold detached.
  destruct (sendMessage host x m) as [m1 [[]|e]]; cbn [fst] in *; exact H.
Qed.

(** The only handler that writes to the registry is the default ERROR
    handler, and it writes to the entry the envelope is addressed to. *)
Lemma call_subscriptions (env : Env) (message : WebSocketMessage)
    (h : MessageHandler) (m : Manager) :
  subscriptions (state (fst (call host env message h m))) =
  match h, truthy (payload_subscriptionId (payload message)) with
  | HErrorMessage, Some id => sub_alter sub_errored id (subscriptions (state m))
  | _, _ => subscriptions (state m)
  end.
Proof.
  unfold call, bind, modify.
  destruct h as [| | |t|name throws].
  - unfold sendPong.
    pose proof (detached_sendMessage_control_view
                  {| msg_id := generateMessageId env 0;
                     msg_type := MessageType.PONG; msg_timestamp := now env;
                     payload := PTimestamp (now env); metadata := None |}
                  (emit (Invoke HSendPong message) m)) as Hv.
    destruct (control_view_eq _ _ Hv) as (_ & _ & _ & _ & Hs & _). exact Hs.
  - unfold handleErrorMessage, bind, modify, ret.
    destruct (truthy (payload_subscriptionId (payload message))); reflexivity.
  - reflexivity.
  - reflexivity.
  - unfold throw, ret. destruct (throws message); reflexivity.
Qed.

Lemma well_kept_alter f id l :
  (forall s, active (f s) = active s /\ sub_id (f s) = sub_id s) ->
  well_kept l -> well_kept (sub_alter f id l).
Proof.
  intros Hf. unfold well_kept.
  induction l as [|[k s] l IH]; intros Hl; cbn; [constructor|].
  apply Forall_cons in Hl as [[Ha Hi] Hl']. cbn in Ha, Hi.
  destruct (decide (k = id)).
  - constructor; [|assumption]. cbn. destruct (Hf s) as [-> ->]. auto.
  - constructor; [cbn; auto | apply IH; assumption].
Qed.

Lemma well_kept_set id s l :
  active s = true -> sub_id s = id -> well_kept l -> well_kept (sub_set id s l).
Proof.
  intros Ha Hi. unfold well_kept.
  induction l as [|[k x] l IH]; intros Hl; cbn.
  - constructor; [cbn; auto | constructor].
  - apply Forall_cons in Hl as [Hk Hl'].
    destruct (decide (k = id)) as [->|].
    + constructor; [cbn; auto | assumption].
    + constructor; [assumption | apply IH; assumption].
Qed.

Lemma well_kept_delete id l : well_kept l -> well_kept (sub_delete id l).
Proof.
  unfold well_kept.
  induction l as [|[k x] l IH]; intros Hl; cbn; [constructor|].
  apply Forall_cons in Hl as [Hk Hl'].
  destruct (decide (k = id)); [apply IH; assumption|].
  constructor; [assumption | apply IH; assumption].
Qed.

Lemma well_kept_deactivate_delete id l :
  well_kept l -> well_kept (sub_delete id (sub_alter sub_deactivate id l)).
Proof.
  unfold well_kept.
  induction l as [|[k x] l IH]; intros Hl; cbn; [constructor|].
  apply Forall_cons in Hl as [Hk Hl'].
  destruct (decide (k = id)) as [->|Hne]; cbn.
  - destruct (decide (id = id)); [|contradiction].
    apply well_kept_delete. exact Hl'.
  - destruct (decide (k = id)); [contradiction|].
    constructor; [assumption | apply IH; assumption].
Qed.

Lemma forEach_well_kept (env : Env) (message : WebSocketMessage)
    (hs : list MessageHandler) (m : Manager) :
  well_kept (subscriptions (state m)) ->
  well_kept (subscriptions (state (fst (forEach (call host env message) hs m)))).
Proof.
  revert m. induction hs as [|h hs IH]; intros m Hm; [exact Hm|].
  cbn [forEach]. unfold bind at 1.
  pose proof (call_subscriptions env message h m) as Hc.
  assert (H1 : well_kept (subscriptions (state (fst (call host env message h m))))).
  { rewrite Hc. destruct h; try exact Hm.
    destruct (truthy _); [|exact Hm].
    apply well_kept_alter; [intros ?; split; reflexivity | exact Hm]. }
  destruct (call host env message h m) as [m1 [[]|e]]; cbn [fst] in *.
  - apply IH. exact H1.
  - exact H1.
Qed.

Lemma handleMessage_well_kept (env : Env) (event : MessageEvent) (m : Manager) :
  well_kept (subscriptions (state m)) ->
  well_kept (subscriptions (state (handleMessage host env event m))).
Proof.
  intros Hm. unfold handleMessage, try_catch.
  destruct (JSON_parse host (data event)) as [message|] eqn:Hp.
  - rewrite (dispatch_unfold host env event message m Hp).
    pose proof (counted_frame env event message m) as Hf. cbv zeta in Hf.
    destruct Hf as (_ & _ & _ & _ & _ & _ & _ & Fs).
    assert (Hc : well_kept (subscriptions (state (counted env event message m)))).
    { rewrite Fs. destruct (truthy _); [|exact Hm].
      apply well_kept_alter; [intros ?; split; reflexivity | exact Hm]. }
    assert (H1 : forall c : Js unit,
              (forall m0, well_kept (subscriptions (state m0)) ->
                          well_kept (subscriptions (state (fst (c m0))))) ->
              well_kept
                (subscriptions
                   (state
                      (fst (let (m', o) := bind c (fun _ => deliver message)
                                             (counted env event message m) in
                            match o with
                            | Ok _ => (m', Ok tt)
                            | Throw e =>
                                (emit (Console (LogHandlingError e)) m', Ok tt)
                            end))))).
    { intros c Hcm. unfold bind.
      specialize (Hcm _ Hc).
      destruct (c (counted env event message m)) as [m1 [[]|e]]; cbn [fst] in *.
      - destruct (deliver_effects message m1) as (_ & _ & _ & _ & Hst).
        destruct (deliver message m1) as [m2 [[]|e]]; cbn [fst] in *;
          cbn [state emit]; rewrite Hst; exact Hcm.
      - exact Hcm. }
    destruct (messageHandlers m !! msg_type message) as [hs|].
    + apply H1. intros m0. apply forEach_well_kept.
    + apply H1. intros m0 H0. exact H0.
  - unfold dispatch, deserializeMessage. rewrite Hp. exact Hm.
Qed.

Lemma flushMessageQueue_control_view fuel m m' :
  flushMessageQueue host fuel m = Some m' -> control_view m' = control_view m.
Proof.
  revert m. induction fuel as [|fuel IH]; intros m; cbn [flushMessageQueue];
    destruct (messageQueue m) as [|x q]; try discriminate;
    try (intros [= <-]; reflexivity).
  intros Hf. rewrite (IH _ Hf).
  rewrite detached_sendMessage_control_view. reflexivity.
Qed.

Lemma handleOpen_subscriptions env fuel m m' :
  handleOpen host env fuel m = Some m' ->
  subscriptions (state m') = subscriptions (state m).
Proof.
  rewrite handleOpen_unfold. cbv zeta.
  pose proof (handleOpen_prepared env m) as Hp. cbv zeta in Hp.
  set (m6 := startHeartbeat _) in *.
  destruct Hp as (_ & _ & _ & _ & P5 & _).
  destruct (flushMessageQueue host fuel m6) as [m7|] eqn:Hf; [|discriminate].
  intros [= <-].
  destruct (resubscribeAll_effects m7) as (_ & _ & Hv & _).
  destruct (control_view_eq _ _ Hv) as (_ & _ & _ & _ & -> & _).
  destruct (control_view_eq _ _ (flushMessageQueue_control_view _ _ _ Hf))
    as (_ & _ & _ & _ & -> & _).
  exact P5.
Qed.

Lemma connect_subscriptions env m :
  subscriptions (state (fst (connect host env m))) = subscriptions (state m).
Proof.
  unfold connect.
  pose proof (updateStatus_frame env ConnectionStatus.CONNECTING m) as F.
  cbv zeta in F.
  destruct F as (_ & _ & _ & _ & _ & _ & _ & _ & _ & _ & Fs & _).
  set (m1 := updateStatus env ConnectionStatus.CONNECTING m) in *.
  pose proof (updateStatus_frame env ConnectionStatus.ERROR m1) as G.
  cbv zeta in G.
  destruct G as (_ & _ & _ & _ & _ & _ & _ & _ & _ & _ & Gs & _).
  destruct (buildConnectionUrl host (config m1)) as [u|e];
    [destruct (new_WebSocket_throws host u)|]; cbn [fst];
    rewrite ?Gs; exact Fs.
Qed.

Lemma heartbeat_subscriptions env m :
  subscriptions (state (heartbeat host env m)) = subscriptions (state m).
Proof.
  unfold heartbeat.
  destruct (isConnected m) as [[|]|e]; try reflexivity.
  unfold sendPing.
  pose proof (sendMessage_frame host
                {| msg_id := generateMessageId env 0;
                   msg_type := MessageType.PING; msg_timestamp := now env;
                   payload := PTimestamp (now env); metadata := None |} m) as F.
  cbv zeta in F. destruct F as (_ & _ & Fs & _).
  destruct (sendMessage host _ m) as [m1 [[]|e]]; cbn [fst] in *; exact Fs.
Qed.

(** Every step keeps the registry well kept. *)
Lemma step_well_kept env op m m' :
  step host env op m = Some m' ->
  well_kept (subscriptions (state m)) ->
  well_kept (subscriptions (state m')).
Proof.
  destruct op
    as [| |request|subscriptionId|x|ty name throws|subscriptionId callback|rs
       |fuel|event|error|event| |]; cbn [step]; try (intros [= <-]); intros Hm.
  - rewrite connect_subscriptions. exact Hm.
  - destruct_manager m. destruct rt, ht, w, ca; exact Hm.
  - rewrite subscribe_unfold.
    pose proof (sendMessage_frame host (subscribe_envelope env request) m) as F.
    cbv zeta in F. destruct F as (_ & _ & Fs & _).
    destruct (sendMessage host (subscribe_envelope env request) m)
      as [m1 [[]|e]]; cbn [fst] in *.
    + cbn. rewrite Fs. apply well_kept_set; [reflexivity | reflexivity | exact Hm].
    + rewrite Fs. exact Hm.
  - rewrite unsubscribe_unfold.
    destruct (sub_get subscriptionId (subscriptions (state m))); [|exact Hm].
    pose proof (sendMessage_frame host (unsubscribe_envelope env subscriptionId) m)
      as F.
    cbv zeta in F. destruct F as (_ & _ & Fs & _).
    destruct (sendMessage host (unsubscribe_envelope env subscriptionId) m)
      as [m1 [[]|e]]; cbn [fst] in *.
    + cbn. rewrite Fs. apply well_kept_deactivate_delete. exact Hm.
    + rewrite Fs. exact Hm.
  - pose proof (sendMessage_frame host x m) as F.
    cbv zeta in F. destruct F as (_ & _ & Fs & _). rewrite Fs. exact Hm.
  - exact Hm.
  - exact Hm.
  - unfold socket_becomes. destruct (ws m); exact Hm.
  - intros Hk. rewrite (handleOpen_subscriptions _ _ _ _ Hm). exact Hk.
  - apply handleMessage_well_kept. exact Hm.
  - destruct_manager m. destruct ca; exact Hm.
  - rewrite handleClose_unfold. cbv zeta.
    destruct (negb _ && _); destruct_manager m; destruct rt, ht, ca; exact Hm.
  - rewrite heartbeat_subscriptions. exact Hm.
  - unfold reconnect. rewrite connect_subscriptions. exact Hm.
Qed.

(** X6.  Whatever has happened to a manager since it was constructed,
    every entry of its registry is marked active and is stored under its
    own id: the only place that clears the flag, [unsubscribe], removes the
    entry in the same call.  Hence the active subscriptions that
    [resubscribeAll] walks over are all the entries of the registry. *)
Theorem registry_entries_stay_active (cfg : WebSocketConfig)
    (steps : list (Env * Op)) (m : Manager) :
  run host steps (constructor cfg) = Some m ->
  well_kept (subscriptions (state m)) /\
  (forall id s, sub_get id (subscriptions (state m)) = Some s ->
     active s = true /\ sub_id s = id) /\
  active_subscriptions m = map snd (subscriptions (state m)).
Proof.
  intros Hrun.
  assert (Hk : well_kept (subscriptions (state m))).
  { assert (Hgen : forall steps m0 m1,
              run host steps m0 = Some m1 ->
              well_kept (subscriptions (state m0)) ->
              well_kept (subscriptions (state m1))).
    { clear. induction steps as [|[env op] steps IH]; intros m0 m1.
      - intros [= <-] H. exact H.
      - cbn [run]. destruct (step host env op m0) as [m2|] eqn:Hs; [|discriminate].
        intros Hr H0. apply (IH _ _ Hr). exact (step_well_kept _ _ _ _ Hs H0). }
    apply (Hgen _ _ _ Hrun). constructor. }
  split; [exact Hk|]. split.
  - intros id s. unfold well_kept in Hk.
    induction (subscriptions (state m)) as [|[k x] l IH]; cbn; [discriminate|].
    apply Forall_cons in Hk as [[Ha Hi] Hl]. cbn in Ha, Hi.
    destruct (decide (k = id)) as [->|].
    + intros [= <-]. auto.
    + apply IH. exact Hl.
  - unfold active_subscriptions. unfold well_kept in Hk.
    induction (subscriptions (state m)) as [|[k x] l IH]; [reflexivity|].
    apply Forall_cons in Hk as [[Ha Hi] Hl]. cbn in Ha.
    cbn [map snd]. rewrite filter_cons.
    destruct (decide (active x = true)); [|contradiction].
    rewrite (IH Hl). reflexivity.
Qed.

End RegistryInvariant.

(** After subscribing, unsubscribing an unknown id and a heartbeat, the one
    entry of the registry is active. *)
Lemma registry_entries_stay_active_witness :
  exists m,
    run quiet_host
      (heartbeat_run ++ [(at_time 40000, CallSubscribe sample_request);
                         (at_time 40001, CallUnsubscribe "sub_unknown")])
      (constructor (sample_config 100 5)) = Some m /\
    map sub_channel (active_subscriptions m) = ["wallet"].
Proof.
  eexists. split; [vm_compute; reflexivity|].
  match goal with
  | |- map sub_channel (active_subscriptions ?m) = _ =>
      destruct (registry_entries_stay_active quiet_host (sample_config 100 5)
                  (heartbeat_run ++ [(at_time 40000, CallSubscribe sample_request);
                                     (at_time 40001, CallUnsubscribe "sub_unknown")])
                  m ltac:(vm_compute; reflexivity)) as (_ & _ & Ha)
  end.
  rewrite Ha. vm_compute. reflexivity.
Defined.

(** ** Callbacks and unsubscribing *)

Section CallbackTable.

Variable host : Host.

Lemma forEach_subscriptions_unaddressed (env : Env) (message : WebSocketMessage)
    (hs : list MessageHandler) (m : Manager) :
  (forall id, truthy (payload_subscriptionId (payload message)) = Some id ->
     sub_get id (subscriptions (state m)) = None) ->
  subscriptions (state (fst (forEach (call host env message) hs m)))
  = subscriptions (state m).
Proof.
  revert m. induction hs as [|h hs IH]; intros m Habs; [reflexivity|].
  cbn [forEach]. unfold bind at 1.
  pose proof (call_subscriptions host env message h m) as Hc.
  assert (H1 : subscriptions (state (fst (call host env message h m)))
               = subscriptions (state m)).
  { rewrite Hc. destruct h; try reflexivity.
    destruct (truthy _) as [id|]; [|reflexivity].
    apply sub_alter_absent. apply Habs. reflexivity. }
  destruct (call host env message h m) as [m1 [[]|e]]; cbn [fst] in *.
  - rewrite IH; [exact H1|]. intros id Hid. rewrite H1. apply Habs. exact Hid.
  - exact H1.
Qed.

(** An envelope that names no registered subscription leaves the registry
    as it is. *)
Lemma handleMessage_subscriptions_unaddressed (env : Env) (event : MessageEvent)
    (message : WebSocketMessage) (m : Manager) :
  JSON_parse host (data event) = Some message ->
  (forall id, truthy (payload_subscriptionId (payload message)) = Some id ->
     sub_get id (subscriptions (state m)) = None) ->
  subscriptions (state (handleMessage host env event m)) = subscriptions (state m).
Proof.
  intros Hp Habs. unfold handleMessage, try_catch.
  rewrite (dispatch_unfold host env event message m Hp).
  pose proof (counted_frame env event message m) as Hf. cbv zeta in Hf.
  destruct Hf as (_ & _ & _ & _ & _ & _ & _ & Fs).
  assert (Hc : subscriptions (state (counted env event message m))
               = subscriptions (state m)).
  { rewrite Fs. destruct (truthy _) as [id|] eqn:Hid; [|reflexivity].
    apply sub_alter_absent. apply Habs. reflexivity. }
  assert (H1 : forall c : Js unit,
            subscriptions (state (fst (c (counted env event message m))))
            = subscriptions (state m) ->
            subscriptions
              (state
                 (fst (let (m', o) := bind c (fun _ => deliver message)
                                        (counted env event message m) in
                       match o with
                       | Ok _ => (m', Ok tt)
                       | Throw e => (emit (Console (LogHandlingError e)) m', Ok tt)
                       end))) = subscriptions (state m)).
  { intros c Hcm. unfold bind.
    destruct (c (counted env event message m)) as [m1 [[]|e]]; cbn [fst] in *.
    - destruct (deliver_effects message m1) as (_ & _ & _ & _ & Hst).
      destruct (deliver message m1) as [m2 [[]|e]]; cbn [fst] in *;
        cbn [state emit]; rewrite Hst; exact Hcm.
    - exact Hcm. }
  destruct (messageHandlers m !! msg_type message) as [hs|]; apply H1.
  - rewrite forEach_subscriptions_unaddressed; [exact Hc|].
    intros id Hid. rewrite Hc. apply Habs. exact Hid.
  - exact Hc.
Qed.

(** X7.  [unsubscribe] removes the registry entry but not the callback
    registered with [onSubscription]: after a successful [unsubscribe(id)]
    the callback table still holds the callback of [id], and a later DATA
    envelope addressed to [id] (none of whose handlers throws) still calls
    it with [payload.data], while the registry, which no longer knows the
    id, is not changed by the envelope. *)
Theorem callback_outlives_unsubscribe (env : Env) (id : string)
    (cb : SubscriptionCallback) (m : Manager) :
  subscriptionCallbacks m !! id = Some cb ->
  snd (unsubscribe host env id m) = Ok tt ->
  let m' := fst (unsubscribe host env id m) in
  subscriptionCallbacks m' !! id = Some cb /\
  sub_get id (subscriptions (state m')) = None /\
  (forall env' event message d,
     JSON_parse host (data event) = Some message ->
     msg_type message = MessageType.DATA ->
     payload message = PData (Some id) d ->
     id <> "" ->
     forallb (fun h => negb (throws_on message h))
       (default [] (messageHandlers m' !! MessageType.DATA)) = true ->
     callback_invocations (effects (handleMessage host env' event m'))
     = callback_invocations (effects m') ++ [(cb, Some d)] /\
     subscriptions (state (handleMessage host env' event m'))
     = subscriptions (state m')).
Proof.
  intros Hcb Hok. cbv zeta.
  assert (Hfacts : subscriptionCallbacks (fst (unsubscribe host env id m))
                   = subscriptionCallbacks m /\
                   sub_get id (subscriptions (state (fst (unsubscribe host env id m))))
                   = None).
  { rewrite unsubscribe_unfold in *.
    destruct (sub_get id (subscriptions (state m))) as [s|]; [|discriminate].
    pose proof (sendMessage_frame host (unsubscribe_envelope env id) m) as F.
    cbv zeta in F. destruct F as (_ & _ & _ & _ & _ & Fsc & _).
    destruct (sendMessage host (unsubscribe_envelope env id) m) as [m1 [[]|e]];
      [|discriminate].
    cbn in *. split; [exact Fsc | apply sub_get_delete_eq]. }
  destruct Hfacts as (Hsc & Hgone).
  set (m' := fst (unsubscribe host env id m)) in *.
  split; [rewrite Hsc; exact Hcb|]. split; [exact Hgone|].
  intros env' event message d Hp Hty Hpl Hid Hall.
  split.
  - pose proof (handleMessage_returning host env' event message m' Hp) as H.
    rewrite Hty in H. destruct (H Hall) as (_ & Hc & _).
    rewrite Hc. f_equal. unfold due_callback.
    rewrite Hty, Hpl. cbn [payload_subscriptionId truthy payload_data].
    destruct (decide (id = "")); [contradiction|].
    rewrite Hsc, Hcb. reflexivity.
  - apply (handleMessage_subscriptions_unaddressed env' event message m' Hp).
    intros id' Hid'. rewrite Hpl in Hid'. cbn in Hid'.
    destruct (decide (id = "")); [discriminate|].
    injection Hid' as <-. exact Hgone.
Qed.

End CallbackTable.

(** The callback registered for the "wallet" subscription is still called
    after the subscription has been removed. *)
Lemma callback_outlives_unsubscribe_witness :
  let id := generateSubscriptionId (at_time 1000) 0 in
  let cb := {| cb_name := "wallet"; cb_throws := fun _ => false |} in
  let host :=
    {| JSON_stringify := JSON_stringify quiet_host;
       JSON_parse := fun _ =>
         Some (sample_message MessageType.DATA "srv_5" (PData (Some id) "{}"));
       new_URL_throws := fun _ => false;
       new_WebSocket_throws := fun _ => false;
       send_throws := fun _ => false |} in
  let m := onSubscription id cb (subscribed_early host (sample_config 100 5)) in
  let m' := fst (unsubscribe host (at_time 3000) id m) in
  subscriptions (state m') = [] /\
  map (fun c => (cb_name (fst c), snd c))
    (callback_invocations
       (effects (handleMessage host (at_time 4000) {| data := "data" |} m')))
  = [("wallet", Some "{}")].
Proof.
  intros id cb host m m'.
  destruct (callback_outlives_unsubscribe host (at_time 3000) id cb m
              ltac:(vm_compute; reflexivity) ltac:(vm_compute; reflexivity))
    as (_ & _ & Hlater).
  split; [vm_compute; reflexivity|].
  destruct (Hlater (at_time 4000) {| data := "data" |}
              (sample_message MessageType.DATA "srv_5" (PData (Some id) "{}")) "{}"
              eq_refl eq_refl eq_refl ltac:(vm_compute; discriminate)
              ltac:(vm_compute; reflexivity)) as (Hc & _).
  fold m' in Hc. rewrite Hc. vm_compute. reflexivity.
Defined.

(** ** Errors of the transport and of its construction *)

Section TransportErrors.

Variable host : Host.

(** X8.  An [error] event of the socket is recorded and nothing more: the
    status becomes ERROR and [lastError] a recoverable error with code
    1006, stamped with the current time; the socket is neither closed nor
    replaced, no timer is set or cleared, and the queue, the registry and
    the attempt counter are left as they were, so no reconnection starts
    from here. *)
Theorem error_event_only_records (env : Env) (error : any) (m : Manager) :
  let m' := handleError env error m in
  status (state m') = ConnectionStatus.ERROR /\
  lastError (state m')
  = Some (PError None {| code := 1006; message := "WebSocket error occurred";
                         timestamp := now env; details := Some error;
                         recoverable := true |}) /\
  effects m' = effects m ++ [Console LogSocketError] /\
  ws m' = ws m /\
  isConnected m' = isConnected m /\
  reconnectTimer m' = reconnectTimer m /\
  heartbeatTimer m' = heartbeatTimer m /\
  messageQueue m' = messageQueue m /\
  subscriptions (state m') = subscriptions (state m) /\
  connected (state m') = connected (state m) /\
  reconnectAttempts m' = reconnectAttempts m.
Proof.
  destruct_manager m. destruct ca; cbn; repeat split.
Qed.

(** X9.  When the URL or the socket cannot be constructed, [connect()]
    rejects and leaves the status at ERROR; no socket is created, the
    socket held before (if any) is kept, and neither the timers nor the
    queue, the registry or the attempt counter are touched.  Nothing
    schedules a retry. *)
Theorem connect_failure_sets_error (env : Env) (m : Manager) :
  (new_URL_throws host (url (config m)) = true \/
   exists u, buildConnectionUrl host (config m) = Ok u /\
             new_WebSocket_throws host u = true) ->
  let r := connect host env m in
  snd r = Rejected SyntaxError /\
  status (state (fst r)) = ConnectionStatus.ERROR /\
  ws (fst r) = ws m /\
  effects (fst r) = effects m /\
  reconnectTimer (fst r) = reconnectTimer m /\
  heartbeatTimer (fst r) = heartbeatTimer m /\
  messageQueue (fst r) = messageQueue m /\
  subscriptions (state (fst r)) = subscriptions (state m) /\
  reconnectAttempts (fst r) = reconnectAttempts m.
Proof.
  intros Hfail. cbv zeta.
  pose proof (updateStatus_frame env ConnectionStatus.CONNECTING m) as F.
  cbv zeta in F.
  destruct F as (Fc & Fw & Frt & Fht & _ & _ & Fq & Fra & Fe & _ & Fs & _).
  pose proof (updateStatus_frame env ConnectionStatus.ERROR
                (updateStatus env ConnectionStatus.CONNECTING m)) as G.
  cbv zeta in G.
  destruct G as (_ & Gw & Grt & Ght & _ & _ & Gq & Gra & Ge & _ & Gs & _).
  assert (Hr : connect host env m
               = (updateStatus env ConnectionStatus.ERROR
                    (updateStatus env ConnectionStatus.CONNECTING m),
                  Rejected SyntaxError)).
  { unfold connect. rewrite Fc.
    destruct Hfail as [Hu | (u & Hu & Hw)].
    - unfold buildConnectionUrl. rewrite Hu. reflexivity.
    - rewrite Hu, Hw. reflexivity. }
  rewrite Hr. cbn [fst snd].
  rewrite updateStatus_status, Gw, Grt, Ght, Gq, Gra, Ge, Gs.
  repeat split; assumption.
Qed.

(** X10.  The flush loop relies on the connection being open: while it is
    not, [sendMessage] puts every envelope taken from the queue back on it,
    so with a queue that is not empty the loop never ends, whatever number
    of iterations it is given, and neither does the [open] handler that
    runs it. *)
Theorem flush_needs_open_connection (env : Env) (m : Manager) :
  isConnected m = Ok false ->
  messageQueue m <> [] ->
  forall fuel : nat,
    flushMessageQueue host fuel m = None /\ handleOpen host env fuel m = None.
Proof.
  intros Hc Hq fuel.
  split; [apply flushMessageQueue_not_open; assumption|].
  rewrite handleOpen_unfold. cbv zeta.
  pose proof (handleOpen_prepared env m) as Hp. cbv zeta in Hp.
  set (m6 := startHeartbeat _) in *.
  destruct Hp as (_ & P2 & _ & _ & _ & _ & _ & _ & _ & _ & _ & Pq & _).
  rewrite (flushMessageQueue_not_open host fuel m6); [reflexivity| |].
  - unfold isConnected in *. rewrite P2. exact Hc.
  - rewrite Pq. exact Hq.
Qed.

End TransportErrors.

(** A host on which no URL parses: connecting ends in ERROR. *)
Lemma connect_failure_sets_error_witness :
  let host :=
    {| JSON_stringify := JSON_stringify quiet_host;
       JSON_parse := JSON_parse quiet_host;
       new_URL_throws := fun _ => true;
       new_WebSocket_throws := fun _ => false;
       send_throws := fun _ => false |} in
  let r := connect host (at_time 1000) (constructor (sample_config 100 5)) in
  snd r = Rejected SyntaxError /\
  status (state (fst r)) = ConnectionStatus.ERROR /\
  ws (fst r) = WsUndefined.
Proof.
  intros host r.
  destruct (connect_failure_sets_error host (at_time 1000)
              (constructor (sample_config 100 5)) (or_introl eq_refl))
    as (H1 & H2 & H3 & _).
  exact (conj H1 (conj H2 H3)).
Defined.

(** An envelope queued while the first socket was open-pending, then a
    second [connect()]: when the first socket opens, the manager holds the
    second one, which is not open, and the flush does not end. *)
Lemma flush_needs_open_connection_witness :
  let e := sample_message MessageType.COMMAND "1" PUndefined in
  let m1 := fst (sendMessage quiet_host e
                   (connecting quiet_host (sample_config 100 5))) in
  let m2 := fst (connect quiet_host (at_time 1500) m1) in
  messageQueue m2 = [e] /\
  handleOpen quiet_host (at_time 1600) 1000 m2 = None.
Proof.
  intros e m1 m2.
  split; [vm_compute; reflexivity|].
  apply (flush_needs_open_connection quiet_host (at_time 1600) m2
           ltac:(vm_compute; reflexivity) ltac:(vm_compute; discriminate) 1000).
Defined.

(** ** The reconnect budget *)

Section ReconnectBudget.

Variable host : Host.

Lemma connect_keeps_budget env m :
  config (fst (connect host env m)) = config m /\
  reconnectAttempts (fst (connect host env m)) = reconnectAttempts m /\
  reconnectCount (stats (state (fst (connect host env m))))
  = reconnectCount (stats (state m)) /\
  filter is_TimerSet (effects (fst (connect host env m)))
  = filter is_TimerSet (effects m).
Proof.
  unfold connect.
  pose proof (updateStatus_frame env ConnectionStatus.CONNECTING m) as F.
  cbv zeta in F.
  destruct F as (Fc & _ & _ & _ & _ & _ & _ & Fra & Fe & _ & _ & _ & Fst).
  set (m1 := updateStatus env ConnectionStatus.CONNECTING m) in *.
  pose proof (updateStatus_frame env ConnectionStatus.ERROR m1) as G.
  cbv zeta in G.
  destruct G as (Gc & _ & _ & _ & _ & _ & _ & Gra & Ge & _ & _ & _ & Gst).
  assert (Hrc : forall a b, with_uptime 0 a = with_uptime 0 b ->
                            reconnectCount a = reconnectCount b).
  { intros a b H. apply (f_equal reconnectCount) in H. exact H. }
  apply Hrc in Fst. apply Hrc in Gst.
  destruct (buildConnectionUrl host (config m1)) as [u|e];
    [destruct (new_WebSocket_throws host u)|]; cbn [fst];
    cbn [config reconnectAttempts state effects with_ws emit];
    rewrite ?Gc, ?Gra, ?Ge, ?Gst, ?filter_app, ?Fe; cbn;
    rewrite ?app_nil_r; repeat split; assumption.
Qed.

Lemma handleClose_keeps_budget env event m :
  config (handleClose env event m) = config m /\
  reconnectCount (stats (state (handleClose env event m)))
  = reconnectCount (stats (state m)).
Proof.
  rewrite handleClose_unfold. cbv zeta.
  destruct (negb _ && _); destruct_manager m; destruct rt, ht, ca; split;
    reflexivity.
Qed.

(** One abnormal closure with budget left: a timer is requested, and when
    it fires both counters go up by one. *)
Lemma drop_and_retry_within_budget env m :
  reconnectAttempts m < maxReconnectAttempts (config m) ->
  let m' := drop_and_retry host env m in
  config m' = config m /\
  reconnectAttempts m' = reconnectAttempts m + 1 /\
  reconnectCount (stats (state m')) = reconnectCount (stats (state m)) + 1 /\
  length (filter is_TimerSet (effects m'))
  = S (length (filter is_TimerSet (effects m))).
Proof.
  intros Hlt. cbv zeta. unfold drop_and_retry.
  set (ev := {| close_code := 1006; close_reason := "" |}).
  pose proof (handleClose_outcome env ev m) as Ho. cbv zeta in Ho.
  destruct Ho as (Hra & _ & Ho).
  assert (Hsr : shouldReconnect m = true)
    by (unfold shouldReconnect; apply Z.ltb_lt; exact Hlt).
  rewrite Hsr in Ho.
  change (negb (close_code ev =? 1000) && true) with true in Ho.
  destruct Ho as (_ & Hrt & Hef).
  destruct (handleClose_keeps_budget env ev m) as (Hcfg & Hrc).
  rewrite Hrt. unfold reconnect.
  set (m2 := on_stats _ _).
  destruct (connect_keeps_budget env m2) as (Cc & Ca & Cr & Cf).
  rewrite Cc, Ca, Cr, Cf. subst m2.
  cbn [config reconnectAttempts effects stats state on_stats on_state
       with_stats with_state with_reconnectAttempts with_reconnectCount
       reconnectCount].
  rewrite Hcfg, Hra, Hrc, Hef, !filter_app, !length_app.
  assert (Hcl : filter is_TimerSet (cleared m) = []).
  { unfold cleared. destruct (reconnectTimer m), (heartbeatTimer m); reflexivity. }
  assert (H1 : forall c r, filter is_TimerSet [Console (LogClosed c r)] = [])
    by reflexivity.
  assert (H2 : forall d n,
            filter is_TimerSet [Console (LogReconnecting d n);
                                TimerSet (TimeoutHandle d)]
            = [TimerSet (TimeoutHandle d)]) by reflexivity.
  rewrite Hcl, H1, H2. cbn [length]. repeat split; lia.
Qed.

Lemma drop_and_retry_all_cons env envs m :
  drop_and_retry_all host (env :: envs) m
  = drop_and_retry_all host envs (drop_and_retry host env m).
Proof. unfold drop_and_retry_all. cbn [fold_left]. reflexivity. Qed.

Lemma drop_and_retry_all_within_budget (envs : list Env) (m : Manager) :
  reconnectAttempts m + Z.of_nat (length envs) <= maxReconnectAttempts (config m) ->
  let m' := drop_and_retry_all host envs m in
  config m' = config m /\
  reconnectAttempts m' = reconnectAttempts m + Z.of_nat (length envs) /\
  reconnectCount (stats (state m'))
  = reconnectCount (stats (state m)) + Z.of_nat (length envs) /\
  length (filter is_TimerSet (effects m'))
  = (length (filter is_TimerSet (effects m)) + length envs)%nat.
Proof.
  revert m. induction envs as [|env envs IH]; intros m Hle; cbv zeta.
  - cbn. repeat split; lia.
  - cbn [length] in Hle. rewrite drop_and_retry_all_cons.
    destruct (drop_and_retry_within_budget env m ltac:(lia)) as (Hc & Ha & Hr & Hf).
    destruct (IH (drop_and_retry host env m)) as (Ic & Ia & Ir & If).
    { rewrite Hc, Ha. lia. }
    rewrite Ic, Ia, Ir, If, Hc, Ha, Hr, Hf. cbn [length].
    repeat split; lia.
Qed.

(** X11.  [maxReconnectAttempts] is a budget of reconnect timers per
    connection cycle.  Starting with no attempt made, a series of
    [maxReconnectAttempts] abnormal closures, each followed by the firing
    of the timer it scheduled, requests exactly that many timers and ends
    with the attempt counter at [maxReconnectAttempts] and [reconnectCount]
    that much higher.  The next close event, whatever its code, requests no
    timer and leaves the manager DISCONNECTED. *)
Theorem reconnect_budget_is_exact (envs : list Env) (m : Manager) :
  reconnectAttempts m = 0 ->
  Z.of_nat (length envs) = maxReconnectAttempts (config m) ->
  let m' := drop_and_retry_all host envs m in
  reconnectAttempts m' = maxReconnectAttempts (config m) /\
  reconnectCount (stats (state m'))
  = reconnectCount (stats (state m)) + maxReconnectAttempts (config m) /\
  length (filter is_TimerSet (effects m'))
  = (length (filter is_TimerSet (effects m)) + length envs)%nat /\
  (forall env event,
     status (state (handleClose env event m')) = ConnectionStatus.DISCONNECTED /\
     reconnectTimer (handleClose env event m') = None /\
     filter is_TimerSet (effects (handleClose env event m'))
     = filter is_TimerSet (effects m')).
Proof.
  intros H0 Hn. cbv zeta.
  destruct (drop_and_retry_all_within_budget envs m ltac:(lia))
    as (Hc & Ha & Hr & Hf).
  rewrite Ha, Hr, Hf, H0, Hn.
  split; [lia|]. split; [reflexivity|]. split; [reflexivity|].
  intros env event.
  pose proof (handleClose_outcome env event (drop_and_retry_all host envs m))
    as Ho.
  cbv zeta in Ho. destruct Ho as (_ & _ & Ho).
  assert (Hsr : shouldReconnect (drop_and_retry_all host envs m) = false)
    by (unfold shouldReconnect; apply Z.ltb_ge; rewrite Hc, Ha; lia).
  rewrite Hsr, andb_false_r in Ho. destruct Ho as (Hs & Hrt & Hef).
  rewrite Hs, Hrt, Hef, !filter_app.
  assert (Hcl : forall m0, filter is_TimerSet (cleared m0) = []).
  { intros m0. unfold cleared.
    destruct (reconnectTimer m0), (heartbeatTimer m0); reflexivity. }
  rewrite Hcl. cbn. rewrite !app_nil_r. repeat split.
Qed.

End ReconnectBudget.

(** With [maxReconnectAttempts] = 3: three closures and retries use the
    budget up; a fourth closure leaves the manager DISCONNECTED. *)
Lemma reconnect_budget_is_exact_witness :
  let m := established quiet_host (sample_config 100 3) in
  let envs := [at_time 2000; at_time 3000; at_time 4000] in
  let m' := drop_and_retry_all quiet_host envs m in
  reconnectAttempts m' = 3 /\
  status (state (handleClose (at_time 5000)
                   {| close_code := 1006; close_reason := "" |} m'))
  = ConnectionStatus.DISCONNECTED.
Proof.
  intros m envs m'.
  destruct (reconnect_budget_is_exact quiet_host envs m
              ltac:(vm_compute; reflexivity) ltac:(vm_compute; reflexivity))
    as (Ha & _ & _ & Hnext).
  destruct (Hnext (at_time 5000) {| close_code := 1006; close_reason := "" |})
    as (Hs & _).
  split; [|exact Hs].
  etransitivity; [exact Ha | vm_compute; reflexivity].
Defined.

(** ** Queueing, then opening *)

Section QueueThenOpen.

Variable host : Host.

(** A flush that ends within some fuel ends the same way within more. *)
Lemma flushMessageQueue_more_fuel (fuel extra : nat) (m m' : Manager) :
  flushMessageQueue host fuel m = Some m' ->
  flushMessageQueue host (fuel + extra) m = Some m'.
Proof.
  revert m. induction fuel as [|fuel IH]; intros m.
  - cbn [flushMessageQueue].
    destruct (messageQueue m) as [|x q] eqn:Hq; [|discriminate].
    intros [= <-]. destruct extra; cbn [Nat.add flushMessageQueue]; rewrite Hq;
      reflexivity.
  - cbn [Nat.add flushMessageQueue].
    destruct (messageQueue m) as [|x q]; [intros H; exact H|].
    apply IH.
Qed.

Lemma wire_app es es' : wire (es ++ es') = wire es ++ wire es'.
Proof. apply omap_app. Qed.

Lemma wire_resubscribing l : wire (map resubscribing l) = [].
Proof. induction l as [|s l IH]; [reflexivity | exact IH]. Qed.

(** X12.  The [open] event of the socket the manager holds: the manager
    becomes CONNECTED with the attempt counter back at 0 and the connect
    time recorded, requests and holds the heartbeat timer, hands every
    queued envelope to the socket in queue order (an envelope whose send
    throws is dropped) and leaves the queue empty, then writes one console
    line per active subscription.  The registry is not changed and only
    the queued envelopes reach the wire.  One iteration of the flush loop
    per queued envelope is enough, and more iterations change nothing. *)
Theorem open_event_flushes_queue (env : Env) (m : Manager) :
  isConnected m = Ok true ->
  exists m',
    (forall extra : nat,
       handleOpen host env (length (messageQueue m) + extra) m = Some m') /\
    status (state m') = ConnectionStatus.CONNECTED /\
    connected (state m') = true /\
    connectedAt (stats (state m')) = Some (now env) /\
    reconnectAttempts m' = 0 /\
    heartbeatTimer m' = Some (IntervalHandle (heartbeatInterval (config m))) /\
    messageQueue m' = [] /\
    subscriptions (state m') = subscriptions (state m) /\
    effects m' =
      effects m
      ++ [Console LogConnected;
          TimerSet (IntervalHandle (heartbeatInterval (config m)))]
      ++ map (transmit host) (messageQueue m)
      ++ map resubscribing (active_subscriptions m) /\
    wire (effects m')
    = wire (effects m) ++ wire (map (transmit host) (messageQueue m)).
Proof.
  intros Hc.
  destruct (open_event_effects host env m Hc)
    as (m' & Ho & Hs & Hcn & Hca & Hra & Hht & Hq & Hsub & _ & He).
  exists m'.
  split.
  { intros extra. rewrite handleOpen_unfold in *. cbv zeta in *.
    set (m6 := startHeartbeat _) in *.
    destruct (flushMessageQueue host (length (messageQueue m)) m6) as [m7|] eqn:Hf;
      [|discriminate].
    rewrite (flushMessageQueue_more_fuel _ extra _ _ Hf). exact Ho. }
  repeat (split; [assumption|]).
  rewrite He, !wire_app, wire_resubscribing, app_nil_r. reflexivity.
Qed.

Lemma sendAll_not_open_effects (ms : list WebSocketMessage) (m : Manager) :
  isConnected m = Ok false ->
  effects (sendAll host ms m) = effects m /\
  ws (sendAll host ms m) = ws m /\
  state (sendAll host ms m) = state m.
Proof.
  revert m. induction ms as [|x ms IH]; intros m Hc; [repeat split|].
  rewrite sendAll_cons, sendMessage_not_open by exact Hc. cbn [fst].
  destruct (IH (queueMessage x m)) as (He & Hw & Hs).
  { rewrite isConnected_queueMessage. exact Hc. }
  rewrite He, Hw, Hs. unfold queueMessage.
  destruct (_ >=? _); repeat split.
Qed.

(** X13.  Envelopes submitted while the socket is still connecting are
    delivered when it opens: with a capacity of at least 1 and an empty
    queue to start with, after any series of envelopes has been handed to
    [sendMessage] the [open] event puts on the wire, in submission order,
    the last [messageQueueSize] of them (all of them if they are fewer) and
    nothing else; the earlier ones are lost without notice. *)
Theorem queued_envelopes_are_flushed_on_open (env : Env)
    (ms : list WebSocketMessage) (sock : WebSocket) (m : Manager) :
  1 <= messageQueueSize (config m) ->
  messageQueue m = [] ->
  ws m = WsSocket sock ->
  readyState sock <> WS_OPEN ->
  let kept := last_n (Z.to_nat (messageQueueSize (config m))) ms in
  let m1 := socket_becomes WS_OPEN (sendAll host ms m) in
  exists m',
    handleOpen host env (length kept) m1 = Some m' /\
    messageQueue m' = [] /\
    effects m' =
      effects m
      ++ [Console LogConnected;
          TimerSet (IntervalHandle (heartbeatInterval (config m)))]
      ++ map (transmit host) kept
      ++ map resubscribing (active_subscriptions m) /\
    wire (effects m') = wire (effects m) ++ wire (map (transmit host) kept).
Proof.
  intros Hcap Hq0 Hws Hrs. cbv zeta.
  assert (Hc : isConnected m = Ok false).
  { unfold isConnected. rewrite Hws. rewrite bool_decide_eq_false_2 by exact Hrs.
    reflexivity. }
  destruct (sendAll_not_open host ms m Hcap ltac:(rewrite Hq0; cbn; lia) Hc)
    as (Scfg & _ & Sq).
  rewrite Hq0 in Sq. cbn [app] in Sq.
  destruct (sendAll_not_open_effects ms m Hc) as (Se & Sw & Ss).
  set (m0 := sendAll host ms m) in *.
  assert (Hm1 : socket_becomes WS_OPEN m0
                = with_ws (WsSocket {| ws_url := ws_url sock;
                                       ws_protocols := ws_protocols sock;
                                       ws_binaryType := ws_binaryType sock;
                                       readyState := WS_OPEN |}) m0).
  { unfold socket_becomes. rewrite Sw, Hws. reflexivity. }
  rewrite Hm1.
  set (m1 := with_ws _ m0).
  destruct (open_event_effects host env m1 eq_refl)
    as (m' & Ho & _ & _ & _ & _ & _ & Hq & _ & _ & He).
  assert (Hact : active_subscriptions m1 = active_subscriptions m).
  { unfold active_subscriptions. subst m1. cbn [state with_ws]. rewrite Ss.
    reflexivity. }
  subst m1. cbn [messageQueue config effects with_ws] in *.
  rewrite Sq, Scfg, Se, Hact in *.
  exists m'. split; [exact Ho|]. split; [exact Hq|]. split; [exact He|].
  rewrite He, !wire_app, wire_resubscribing, app_nil_r. reflexivity.
Qed.

End QueueThenOpen.

(** Five envelopes, capacity three: the third, fourth and fifth are sent
    when the socket opens. *)
Lemma queued_envelopes_are_flushed_on_open_witness :
  let e := fun i : Z => sample_message MessageType.COMMAND (pretty i) PUndefined in
  let m := connecting quiet_host (sample_config 3 5) in
  let m1 := socket_becomes WS_OPEN
              (sendAll quiet_host [e 1; e 2; e 3; e 4; e 5] m) in
  exists m',
    handleOpen quiet_host (at_time 1001) 3 m1 = Some m' /\
    wire (effects m') = ["3"; "4"; "5"].
Proof.
  intros e m m1.
  destruct (queued_envelopes_are_flushed_on_open quiet_host (at_time 1001)
              [e 1; e 2; e 3; e 4; e 5]
              {| ws_url := {| href := "wss://example.test/stream";
                              searchParams := [] |};
                 ws_protocols := None; ws_binaryType := None;
                 readyState := WS_CONNECTING |}
              m ltac:(vm_compute; discriminate) ltac:(vm_compute; reflexivity)
              ltac:(vm_compute; reflexivity) ltac:(discriminate))
    as (m' & Ho & _ & _ & Hw).
  exists m'. split; [exact Ho|].
  etransitivity; [exact Hw | vm_compute; reflexivity].
Defined.

(** An open socket with one queued envelope: the open event sends it. *)
Lemma open_event_flushes_queue_witness :
  let e := sample_message MessageType.COMMAND "1" PUndefined in
  let m := socket_becomes WS_OPEN
             (fst (sendMessage quiet_host e
                     (connecting quiet_host (sample_config 3 5)))) in
  exists m',
    handleOpen quiet_host (at_time 1001) 1 m = Some m' /\
    messageQueue m' = [] /\
    wire (effects m') = ["1"].
Proof.
  intros e m.
  destruct (open_event_flushes_queue quiet_host (at_time 1001) m
              ltac:(vm_compute; reflexivity))
    as (m' & Ho & _ & _ & _ & _ & _ & Hq & _ & _ & Hw).
  exists m'. split; [exact (Ho 0%nat)|]. split; [exact Hq|].
  etransitivity; [exact Hw | vm_compute; reflexivity].
Defined.

(** ** The traffic counters *)

Section Traffic.

Variable host : Host.

Lemma wire_bytes_app es es' : wire_bytes (es ++ es') = wire_bytes es + wire_bytes es'.
Proof.
  unfold wire_bytes. rewrite wire_app.
  induction (wire es) as [|d l IH]; cbn [app foldr]; [reflexivity|].
  rewrite IH. lia.
Qed.

(** A step that leaves the four counters alone and puts nothing on the
    wire leaves the view alone. *)
Lemma traffic_view_same (m m' : Manager) :
  with_uptime 0 (with_latency 0 (with_connectedAt None
    (with_disconnectedAt None (with_reconnectCount 0 (stats (state m'))))))
  = with_uptime 0 (with_latency 0 (with_connectedAt None
      (with_disconnectedAt None (with_reconnectCount 0 (stats (state m)))))) ->
  wire (effects m') = wire (effects m) ->
  traffic_view m' = traffic_view m.
Proof.
  intros Hs Hw. unfold traffic_view, wire_bytes. rewrite Hw.
  destruct (stats (state m')), (stats (state m)). cbn in *.
  injection Hs as -> -> -> ->. reflexivity.
Qed.

Lemma sendMessage_traffic (x : WebSocketMessage) (m : Manager) :
  traffic_view (fst (sendMessage host x m)) = traffic_view m.
Proof.
  destruct (sendMessage_cases host x m)
    as [(d & _ & _ & _ & ->) | [(_ & ->) | (e & ->)]]; cbn [fst].
  - destruct_manager m. unfold traffic_view. cbn.
    rewrite wire_bytes_app, wire_app, length_app.
    change (wire [WsSend d]) with [d]. change (wire_bytes [WsSend d])
      with (Z.of_nat (String.length d) + 0). cbn [length].
    repeat match goal with |- (_, _) = (_, _) => f_equal end; lia.
  - unfold queueMessage. destruct (_ >=? _); reflexivity.
  - reflexivity.
Qed.

Lemma detached_sendMessage_traffic (x : WebSocketMessage) (m : Manager) :
  traffic_view (fst (detached (sendMessage host x) m)) = traffic_view m.
Proof.
  pose proof (sendMessage_traffic x m) as H. unfold detached.
  destruct (sendMessage host x m) as [m1 [[]|e]]; cbn [fst] in *; [exact H|].
  rewrite <- H. destruct_manager m1. quiet_step traffic_view_same.
Qed.

Lemma call_traffic (env : Env) (message : WebSocketMessage)
    (h : MessageHandler) (m : Manager) :
  traffic_view (fst (call host env message h m)) = traffic_view m.
Proof.
  assert (He : traffic_view (emit (Invoke h message) m) = traffic_view m).
  { destruct_manager m. quiet_step traffic_view_same. }
  unfold call, bind, modify.
  destruct h as [| | |t|name throws].
  - unfold sendPong. rewrite detached_sendMessage_traffic. exact He.
  - rewrite <- He. unfold handleErrorMessage, bind, modify, ret.
    destruct_manager m.
    destruct (truthy (payload_subscriptionId (payload message)));
      quiet_step traffic_view_same.
  - rewrite <- He. destruct_manager m. quiet_step traffic_view_same.
  - rewrite <- He. destruct_manager m. quiet_step traffic_view_same.
  - unfold throw, ret. destruct (throws message); exact He.
Qed.

Lemma forEach_traffic (env : Env) (message : WebSocketMessage)
    (hs : list MessageHandler) (m : Manager) :
  traffic_view (fst (forEach (call host env message) hs m)) = traffic_view m.
Proof.
  revert m. induction hs as [|h hs IH]; intros m; [reflexivity|].
  cbn [forEach]. unfold bind at 1.
  pose proof (call_traffic env message h m) as Hc.
  destruct (call host env message h m) as [m1 [[]|e]]; cbn [fst] in *.
  - rewrite IH. exact Hc.
  - exact Hc.
Qed.

Lemma deliver_traffic (message : WebSocketMessage) (m : Manager) :
  traffic_view (fst (deliver message m)) = traffic_view m.
Proof.
  unfold deliver.
  destruct (msg_type message); try reflexivity.
  destruct (truthy _) as [id|]; [|reflexivity].
  unfold bind, this. cbn [fst snd].
  destruct (subscriptionCallbacks m !! id) as [cb|]; [|reflexivity].
  unfold call_back, bind, modify, throw, ret.
  destruct (cb_throws cb _); cbn [fst]; destruct_manager m;
    quiet_step traffic_view_same.
Qed.

Lemma counted_traffic (env : Env) (event : MessageEvent)
    (message : WebSocketMessage) (m : Manager) :
  traffic_view (counted env event message m)
  = received_one (data event) (traffic_view m).
Proof.
  unfold counted. destruct_manager m.
  destruct (truthy (payload_subscriptionId (payload message))); reflexivity.
Qed.

Lemma handleMessage_traffic (env : Env) (event : MessageEvent) (m : Manager) :
  traffic_view (handleMessage host env event m)
  = match JSON_parse host (data event) with
    | Some _ => received_one (data event) (traffic_view m)
    | None => traffic_view m
    end.
Proof.
  unfold handleMessage, try_catch.
  destruct (JSON_parse host (data event)) as [message|] eqn:Hp.
  - rewrite (dispatch_unfold host env event message m Hp).
    rewrite <- (counted_traffic env event message m).
    assert (H1 : forall c : Js unit,
              (forall m0, traffic_view (fst (c m0)) = traffic_view m0) ->
              traffic_view
                (fst (let (m', o) := bind c (fun _ => deliver message)
                                       (counted env event message m) in
                      match o with
                      | Ok _ => (m', Ok tt)
                      | Throw e => (emit (Console (LogHandlingError e)) m', Ok tt)
                      end))
              = traffic_view (counted env event message m)).
    { intros c Hcm. unfold bind.
      specialize (Hcm (counted env event message m)).
      destruct (c (counted env event message m)) as [m1 [[]|e]]; cbn [fst] in *.
      - pose proof (deliver_traffic message m1) as Hd.
        destruct (deliver message m1) as [m2 [[]|e]]; cbn [fst] in *.
        + rewrite Hd. exact Hcm.
        + rewrite <- Hcm, <- Hd. destruct_manager m2.
          quiet_step traffic_view_same.
      - rewrite <- Hcm. destruct_manager m1. quiet_step traffic_view_same. }
    destruct (messageHandlers m !! msg_type message) as [hs|].
    + apply H1. intros m0. apply forEach_traffic.
    + apply H1. intros m0. reflexivity.
  - unfold dispatch, deserializeMessage, lift, bind. rewrite Hp. cbn [fst].
    destruct_manager m. quiet_step traffic_view_same.
Qed.

Lemma flushMessageQueue_traffic fuel m m' :
  flushMessageQueue host fuel m = Some m' -> traffic_view m' = traffic_view m.
Proof.
  revert m. induction fuel as [|fuel IH]; intros m; cbn [flushMessageQueue];
    destruct (messageQueue m) as [|x q] eqn:Hq; try discriminate;
    try (intros [= <-]; reflexivity).
  intros Hf. rewrite (IH _ Hf).
  rewrite detached_sendMessage_traffic. destruct_manager m. reflexivity.
Qed.

Lemma updateStatus_traffic env s m :
  traffic_view (updateStatus env s m) = traffic_view m.
Proof. destruct_manager m. destruct ca; quiet_step traffic_view_same. Qed.

Lemma clearTimers_traffic m : traffic_view (clearTimers m) = traffic_view m.
Proof. destruct_manager m. destruct rt, ht; quiet_step traffic_view_same. Qed.

Lemma connect_traffic env m :
  traffic_view (fst (connect host env m)) = traffic_view m.
Proof.
  unfold connect.
  rewrite <- (updateStatus_traffic env ConnectionStatus.CONNECTING m).
  set (m1 := updateStatus env ConnectionStatus.CONNECTING m).
  destruct (buildConnectionUrl host (config m1)) as [u|e];
    [destruct (new_WebSocket_throws host u)|]; cbn [fst];
    rewrite ?updateStatus_traffic; try reflexivity.
  destruct_manager m1. quiet_step traffic_view_same.
Qed.

Lemma handleOpen_traffic env fuel m m' :
  handleOpen host env fuel m = Some m' -> traffic_view m' = traffic_view m.
Proof.
  rewrite handleOpen_unfold. cbv zeta.
  set (m6 := startHeartbeat _).
  assert (H6 : traffic_view m6 = traffic_view m).
  { subst m6. unfold startHeartbeat.
    transitivity (traffic_view
                    (updateStatus env ConnectionStatus.CONNECTED
                       (emit (Console LogConnected) m))).
    - set (m2 := updateStatus _ _ _). destruct_manager m2.
      quiet_step traffic_view_same.
    - rewrite updateStatus_traffic. destruct_manager m.
      quiet_step traffic_view_same. }
  destruct (flushMessageQueue host fuel m6) as [m7|] eqn:Hf; [|discriminate].
  intros [= <-]. rewrite <- H6, <- (flushMessageQueue_traffic _ _ _ Hf).
  apply traffic_view_same.
  - destruct (resubscribeAll_effects m7) as (_ & _ & _ & ->). reflexivity.
  - destruct (resubscribeAll_effects m7) as (-> & _).
    rewrite wire_app, wire_resubscribing, app_nil_r. reflexivity.
Qed.

Lemma handleClose_traffic env event m :
  traffic_view (handleClose env event m) = traffic_view m.
Proof.
  rewrite handleClose_unfold. cbv zeta.
  set (m5 := clearTimers _).
  assert (H5 : traffic_view m5 = traffic_view m).
  { subst m5. rewrite clearTimers_traffic.
    transitivity (traffic_view
                    (updateStatus env ConnectionStatus.DISCONNECTED
                       (emit (Console (LogClosed (close_code event)
                                         (close_reason event))) m))).
    - set (m2 := updateStatus _ _ _). destruct_manager m2.
      quiet_step traffic_view_same.
    - rewrite updateStatus_traffic. destruct_manager m.
      quiet_step traffic_view_same. }
  destruct (negb _ && _); [|exact H5].
  rewrite <- H5. unfold scheduleReconnect. cbv zeta.
  transitivity (traffic_view (updateStatus env ConnectionStatus.RECONNECTING m5));
    [|apply updateStatus_traffic].
  set (m1 := updateStatus env ConnectionStatus.RECONNECTING m5).
  generalize (calculateReconnectDelay env m1). intros delay.
  destruct_manager m1. quiet_step traffic_view_same.
Qed.

Lemma heartbeat_traffic env m :
  traffic_view (heartbeat host env m) = traffic_view m.
Proof.
  unfold heartbeat.
  destruct (isConnected m) as [[|]|e]; [|reflexivity|destruct_manager m;
    quiet_step traffic_view_same].
  unfold sendPing. cbv zeta.
  pose proof (sendMessage_traffic
                {| msg_id := generateMessageId env 0;
                   msg_type := MessageType.PING; msg_timestamp := now env;
                   payload := PTimestamp (now env); metadata := None |} m) as F.
  destruct (sendMessage host _ m) as [m1 [[]|e]]; cbn [fst] in *;
    rewrite <- F; [reflexivity|].
  destruct_manager m1. quiet_step traffic_view_same.
Qed.

(** What a step does to the counters. *)
Lemma step_traffic env op m m' :
  step host env op m = Some m' ->
  traffic_view m'
  = match op with
    | EvMessage event =>
        match JSON_parse host (data event) with
        | Some _ => received_one (data event) (traffic_view m)
        | None => traffic_view m
        end
    | _ => traffic_view m
    end.
Proof.
  destruct op
    as [| |request|subscriptionId|x|ty name throws|subscriptionId callback|rs
       |fuel|event|error|event| |]; cbn [step]; try (intros [= <-]).
  - apply connect_traffic.
  - unfold disconnect. cbv zeta. rewrite updateStatus_traffic.
    rewrite <- (clearTimers_traffic m).
    set (m1 := clearTimers m). destruct_manager m1. destruct w;
      quiet_step traffic_view_same.
  - rewrite subscribe_unfold.
    pose proof (sendMessage_traffic (subscribe_envelope env request) m) as F.
    destruct (sendMessage host (subscribe_envelope env request) m)
      as [m1 [[]|e]]; cbn [fst] in *; rewrite <- F; reflexivity.
  - rewrite unsubscribe_unfold.
    destruct (sub_get subscriptionId (subscriptions (state m))); [|reflexivity].
    pose proof (sendMessage_traffic (unsubscribe_envelope env subscriptionId) m)
      as F.
    destruct (sendMessage host (unsubscribe_envelope env subscriptionId) m)
      as [m1 [[]|e]]; cbn [fst] in *; rewrite <- F; reflexivity.
  - apply sendMessage_traffic.
  - reflexivity.
  - reflexivity.
  - unfold socket_becomes. destruct (ws m); reflexivity.
  - apply handleOpen_traffic.
  - apply handleMessage_traffic.
  - unfold handleError. cbv zeta. rewrite updateStatus_traffic.
    destruct_manager m. quiet_step traffic_view_same.
  - apply handleClose_traffic.
  - apply heartbeat_traffic.
  - unfold reconnect. cbv zeta. rewrite connect_traffic. reflexivity.
Qed.

Lemma parsed_data_cons (env : Env) (op : Op) (steps : list (Env * Op)) :
  parsed_data host ((env, op) :: steps)
  = match op with
    | EvMessage event =>
        match JSON_parse host (data event) with
        | Some _ => data event :: parsed_data host steps
        | None => parsed_data host steps
        end
    | _ => parsed_data host steps
    end.
Proof.
  destruct op
    as [| |request|subscriptionId|x|ty name throws|subscriptionId callback|rs
       |fuel|event|error|event| |]; try reflexivity.
  unfold parsed_data. cbn. destruct (JSON_parse host (data event)); reflexivity.
Qed.

Lemma run_traffic (steps : list (Env * Op)) (m m' : Manager) :
  run host steps m = Some m' ->
  traffic_view m'
  = foldl (fun v d => received_one d v) (traffic_view m) (parsed_data host steps).
Proof.
  revert m. induction steps as [|[env op] steps IH]; intros m.
  - intros [= <-]. reflexivity.
  - cbn [run]. destruct (step host env op m) as [m1|] eqn:Hs; [|discriminate].
    intros Hr. rewrite (IH _ Hr), (step_traffic _ _ _ _ Hs), parsed_data_cons.
    destruct op
    as [| |request|subscriptionId|x|ty name throws|subscriptionId callback|rs
       |fuel|event|error|event| |]; try reflexivity.
    destruct (JSON_parse host (data event)); reflexivity.
Qed.

(** X14.  The traffic counters of [getState().stats] are exact.  Whatever
    has happened to a manager since it was constructed, [messagesSent] is
    the number of [send] calls on its sockets that returned and [bytesSent]
    the total length of the data handed to them, whether the envelope came
    from the caller, from the queue, from the heartbeat or from the PING
    handler; [messagesReceived] is the number of [message] events whose data
    [JSON.parse] accepted and [bytesReceived] the total length of their
    data.  An envelope that is queued, a send that throws and data that
    does not parse are not counted. *)
Theorem traffic_counters_are_exact (cfg : WebSocketConfig)
    (steps : list (Env * Op)) (m : Manager) :
  run host steps (constructor cfg) = Some m ->
  let c := stats (state m) in
  messagesSent c = Z.of_nat (length (wire (effects m))) /\
  bytesSent c = wire_bytes (effects m) /\
  messagesReceived c = Z.of_nat (length (parsed_data host steps)) /\
  bytesReceived c
  = foldr (fun d n => Z.of_nat (String.length d) + n) 0 (parsed_data host steps).
Proof.
  intros Hrun. cbv zeta.
  pose proof (run_traffic _ _ _ Hrun) as Hv.
  assert (Hf : forall l a b mr br,
            foldl (fun v d => received_one d v) (a, b, mr, br) l
            = (a, b, mr + Z.of_nat (length l),
               br + foldr (fun d n => Z.of_nat (String.length d) + n) 0 l)).
  { clear. induction l as [|d l IH]; intros a b mr br; cbn [foldl foldr length].
    - rewrite !Z.add_0_r. reflexivity.
    - unfold received_one at 2. rewrite IH. f_equal; [f_equal|]; lia. }
  change (traffic_view (constructor cfg)) with (0, 0, 0, 0) in Hv.
  rewrite Hf in Hv. unfold traffic_view in Hv.
  injection Hv as H1 H2 H3 H4. repeat split; lia.
Qed.

End Traffic.

(** An envelope queued while connecting and sent at the open event, a
    heartbeat, a PONG from the server and a piece of data that is not JSON:
    two envelopes sent, one received. *)
Lemma traffic_counters_are_exact_witness :
  let steps :=
    [(at_time 1000, CallConnect);
     (at_time 1000,
      CallSendMessage (sample_message MessageType.COMMAND "1" PUndefined));
     (at_time 1001, SocketBecomes WS_OPEN);
     (at_time 1001, EvOpen 1);
     (at_time 5000, TickHeartbeat);
     (at_time 5001, EvMessage {| data := "pong" |});
     (at_time 5002, EvMessage {| data := "junk" |})] in
  exists m,
    run quiet_host steps (constructor (sample_config 100 5)) = Some m /\
    wire (effects m) = ["1"; "msg_5000_0"] /\
    messagesSent (stats (state m)) = 2 /\
    bytesSent (stats (state m)) = 11 /\
    messagesReceived (stats (state m)) = 1 /\
    bytesReceived (stats (state m)) = 4.
Proof.
  intros steps.
  eexists. split; [vm_compute; reflexivity|].
  match goal with
  | |- wire (effects ?m) = _ /\ _ =>
      destruct (traffic_counters_are_exact quiet_host (sample_config 100 5)
                  steps m ltac:(vm_compute; reflexivity))
        as (H1 & H2 & H3 & H4)
  end.
  split; [vm_compute; reflexivity|].
  split; [etransitivity; [exact H1 | vm_compute; reflexivity]|].
  split; [etransitivity; [exact H2 | vm_compute; reflexivity]|].
  split; [etransitivity; [exact H3 | vm_compute; reflexivity]|].
  etransitivity; [exact H4 | vm_compute; reflexivity].
Defined.

(** ** The handler table along a run *)

Section HandlerOrder.

Variable host : Host.

Lemma handlers_for_onMessage type type' h m :
  handlers_for type (onMessage type' h m) =
  handlers_for type m ++ (if decide (type' = type) then [h] else []).
Proof.
  unfold handlers_for, onMessage. cbn [messageHandlers with_messageHandlers].
  case_decide as Ht.
  - subst type'. rewrite lookup_insert_eq. reflexivity.
  - rewrite lookup_insert_ne by exact Ht. rewrite app_nil_r. reflexivity.
Qed.

Lemma heartbeat_handlers_for type env m :
  type <> MessageType.PONG ->
  handlers_for type (heartbeat host env m) = handlers_for type m.
Proof.
  intros Ht. unfold heartbeat.
  destruct (isConnected m) as [[|]|e]; try reflexivity.
  unfold sendPing. cbv zeta.
  pose proof (sendMessage_handlers host
                {| msg_id := generateMessageId env 0;
                   msg_type := MessageType.PING; msg_timestamp := now env;
                   payload := PTimestamp (now env); metadata := None |} m) as F.
  destruct (sendMessage host _ m) as [m1 [[]|e]]; cbn [fst] in F.
  - rewrite handlers_for_onMessage.
    destruct (decide (MessageType.PONG = type)) as [E|_]; [congruence|].
    rewrite app_nil_r. unfold handlers_for. rewrite F. reflexivity.
  - unfold handlers_for. cbn [messageHandlers emit]. rewrite F. reflexivity.
Qed.

Lemma registered_cons type env op steps :
  registered type ((env, op) :: steps)
  = match op with
    | CallOnMessage type' name throws =>
        if decide (type' = type) then HUser name throws :: registered type steps
        else registered type steps
    | _ => registered type steps
    end.
Proof.
  destruct op
    as [| |request|subscriptionId|x|ty name throws|subscriptionId callback|rs
       |fuel|event|error|event| |]; try reflexivity.
  unfold registered. cbn. destruct (decide (ty = type)); reflexivity.
Qed.

Lemma step_handlers_for type env op m m' :
  type <> MessageType.PONG ->
  step host env op m = Some m' ->
  handlers_for type m' = handlers_for type m ++ registered type [(env, op)].
Proof.
  intros Ht.
  rewrite registered_cons.
  destruct op
    as [| |request|subscriptionId|x|ty name throws|subscriptionId callback|rs
       |fuel|event|error|event| |]; cbn [step]; try (intros [= <-]);
    rewrite ?handlers_for_onMessage, ?heartbeat_handlers_for by exact Ht;
    try (rewrite app_nil_r; reflexivity);
    try (destruct (decide (_ = _)); reflexivity);
    rewrite app_nil_r; unfold handlers_for.
  - rewrite connect_handlers. reflexivity.
  - rewrite disconnect_handlers. reflexivity.
  - rewrite subscribe_handlers. reflexivity.
  - rewrite unsubscribe_handlers. reflexivity.
  - rewrite sendMessage_handlers. reflexivity.
  - rewrite socket_becomes_handlers. reflexivity.
  - intros Ho. rewrite (handleOpen_handlers _ _ _ _ _ Ho). reflexivity.
  - rewrite handleMessage_handlers. reflexivity.
  - rewrite handleError_handlers. reflexivity.
  - rewrite handleClose_handlers. reflexivity.
  - rewrite reconnect_handlers. reflexivity.
Qed.

Lemma run_handlers_for type steps m m' :
  type <> MessageType.PONG ->
  run host steps m = Some m' ->
  handlers_for type m' = handlers_for type m ++ registered type steps.
Proof.
  intros Ht. revert m. induction steps as [|[env op] steps IH]; intros m.
  - intros [= <-]. rewrite app_nil_r. reflexivity.
  - cbn [run]. destruct (step host env op m) as [m1|] eqn:Hs; [|discriminate].
    intros Hr. rewrite (IH _ Hr), (step_handlers_for _ _ _ _ _ Ht Hs).
    rewrite <- app_assoc. f_equal.
    rewrite !registered_cons.
    destruct op
    as [| |request|subscriptionId|x|ty name throws|subscriptionId callback|rs
       |fuel|event|error|event| |]; try reflexivity.
    destruct (decide (ty = type)); reflexivity.
Qed.

(** X15.  Handlers are only ever appended.  Whatever has happened to a
    manager since it was constructed, the handlers it calls for a type
    other than PONG are the built-in one of [setupDefaultHandlers] (for
    PING, ERROR and ACK) followed by the handlers given to [onMessage] for
    that type, in the order of the calls: no method removes, replaces or
    reorders a handler, [disconnect] included, and a built-in handler is
    always called first. *)
Theorem handlers_are_only_appended (cfg : WebSocketConfig)
    (type : MessageType.t) (steps : list (Env * Op)) (m : Manager) :
  type <> MessageType.PONG ->
  run host steps (constructor cfg) = Some m ->
  handlers_for type m = builtin_handlers type ++ registered type steps.
Proof.
  intros Ht Hrun.
  rewrite (run_handlers_for type steps _ _ Ht Hrun). f_equal.
  destruct type; vm_compute; reflexivity.
Qed.

End HandlerOrder.

(** A consumer's ERROR handler registered before connecting is still the
    second one after a disconnect. *)
Lemma handlers_are_only_appended_witness :
  let steps :=
    [(at_time 900, CallOnMessage MessageType.ERROR "report" (fun _ => false));
     (at_time 1000, CallConnect);
     (at_time 2000, CallDisconnect)] in
  exists m,
    run quiet_host steps (constructor (sample_config 100 5)) = Some m /\
    map handler_name (handlers_for MessageType.ERROR m)
    = map handler_name [HErrorMessage; HUser "report" (fun _ => false)].
Proof.
  intros steps.
  eexists. split; [vm_compute; reflexivity|].
  match goal with
  | |- map handler_name (handlers_for _ ?m) = _ =>
      rewrite (handlers_are_only_appended quiet_host (sample_config 100 5)
                 MessageType.ERROR steps m ltac:(discriminate)
                 ltac:(vm_compute; reflexivity))
  end.
  reflexivity.
Defined.

(** ** The lifetime statistics *)

Section Lifetime.

Variable host : Host.

(** A step that writes to the traffic counters and the latency only. *)
Lemma lifetime_same (m m' : Manager) :
  with_sent 0 0 (with_received 0 0 (with_latency 0 (stats (state m'))))
  = with_sent 0 0 (with_received 0 0 (with_latency 0 (stats (state m)))) ->
  lifetime m' = lifetime m.
Proof.
  intros Hs. unfold lifetime.
  destruct (stats (state m')), (stats (state m)). cbn in *.
  injection Hs as -> -> -> ->. reflexivity.
Qed.

Lemma sendMessage_lifetime (x : WebSocketMessage) (m : Manager) :
  lifetime (fst (sendMessage host x m)) = lifetime m.
Proof.
  destruct (sendMessage_cases host x m)
    as [(d & _ & _ & _ & ->) | [(_ & ->) | (e & ->)]]; cbn [fst].
  - destruct_manager m. apply lifetime_same; reflexivity.
  - unfold queueMessage. destruct (_ >=? _); reflexivity.
  - reflexivity.
Qed.

Lemma detached_sendMessage_lifetime (x : WebSocketMessage) (m : Manager) :
  lifetime (fst (detached (sendMessage host x) m)) = lifetime m.
Proof.
  pose proof (sendMessage_lifetime x m) as H. unfold detached.
  destruct (sendMessage host x m) as [m1 [[]|e]]; cbn [fst] in *; exact H.
Qed.

Lemma call_lifetime (env : Env) (message : WebSocketMessage)
    (h : MessageHandler) (m : Manager) :
  lifetime (fst (call host env message h m)) = lifetime m.
Proof.
  unfold call, bind, modify.
  destruct h as [| | |t|name throws].
  - unfold sendPong. rewrite detached_sendMessage_lifetime. reflexivity.
  - unfold handleErrorMessage, bind, modify, ret.
    destruct (truthy (payload_subscriptionId (payload message))); reflexivity.
  - reflexivity.
  - destruct_manager m. apply lifetime_same; reflexivity.
  - unfold throw, ret. destruct (throws message); reflexivity.
Qed.

Lemma forEach_lifetime (env : Env) (message : WebSocketMessage)
    (hs : list MessageHandler) (m : Manager) :
  lifetime (fst (forEach (call host env message) hs m)) = lifetime m.
Proof.
  revert m. induction hs as [|h hs IH]; intros m; [reflexivity|].
  cbn [forEach]. unfold bind at 1.
  pose proof (call_lifetime env message h m) as Hc.
  destruct (call host env message h m) as [m1 [[]|e]]; cbn [fst] in *.
  - rewrite IH. exact Hc.
  - exact Hc.
Qed.

Lemma handleMessage_lifetime (env : Env) (event : MessageEvent) (m : Manager) :
  lifetime (handleMessage host env event m) = lifetime m.
Proof.
  unfold handleMessage, try_catch.
  destruct (JSON_parse host (data event)) as [message|] eqn:Hp.
  - rewrite (dispatch_unfold host env event message m Hp).
    assert (Hc : lifetime (counted env event message m) = lifetime m).
    { unfold counted. destruct_manager m.
      destruct (truthy (payload_subscriptionId (payload message)));
        apply lifetime_same; reflexivity. }
    rewrite <- Hc.
    assert (H1 : forall c : Js unit,
              (forall m0, lifetime (fst (c m0)) = lifetime m0) ->
              lifetime
                (fst (let (m', o) := bind c (fun _ => deliver message)
                                       (counted env event message m) in
                      match o with
                      | Ok _ => (m', Ok tt)
                      | Throw e => (emit (Console (LogHandlingError e)) m', Ok tt)
                      end))
              = lifetime (counted env event message m)).
    { intros c Hcm. unfold bind.
      specialize (Hcm (counted env event message m)).
      destruct (c (counted env event message m)) as [m1 [[]|e]]; cbn [fst] in *.
      - destruct (deliver_effects message m1) as (_ & _ & _ & _ & Hst).
        rewrite <- Hcm.
        destruct (deliver message m1) as [m2 [[]|e]]; cbn [fst] in *;
          unfold lifetime; cbn [state emit]; rewrite Hst; reflexivity.
      - exact Hcm. }
    destruct (messageHandlers m !! msg_type message) as [hs|].
    + apply H1. intros m0. apply forEach_lifetime.
    + apply H1. intros m0. reflexivity.
  - unfold dispatch, deserializeMessage, lift, bind. rewrite Hp. reflexivity.
Qed.

Lemma flushMessageQueue_lifetime fuel m m' :
  flushMessageQueue host fuel m = Some m' -> lifetime m' = lifetime m.
Proof.
  revert m. induction fuel as [|fuel IH]; intros m; cbn [flushMessageQueue];
    destruct (messageQueue m) as [|x q] eqn:Hq; try discriminate;
    try (intros [= <-]; reflexivity).
  intros Hf. rewrite (IH _ Hf).
  rewrite detached_sendMessage_lifetime. reflexivity.
Qed.

(** [updateStatus] measures the uptime from the connect time on record. *)
Lemma updateStatus_lifetime env s m :
  lifetime (updateStatus env s m)
  = let '(ca, da, rc, up) := lifetime m in
    (ca, da, rc, match ca with Some t => now env - t | None => up end).
Proof. destruct_manager m. destruct ca; reflexivity. Qed.

Lemma updateStatus_twice_lifetime env s s' m :
  lifetime (updateStatus env s' (updateStatus env s m))
  = lifetime (updateStatus env s m).
Proof. destruct_manager m. destruct ca; reflexivity. Qed.

Lemma clearTimers_lifetime m : lifetime (clearTimers m) = lifetime m.
Proof. destruct_manager m. destruct rt, ht; reflexivity. Qed.

Lemma connect_lifetime env m :
  lifetime (fst (connect host env m))
  = lifetime (updateStatus env ConnectionStatus.CONNECTING m).
Proof.
  unfold connect.
  set (m1 := updateStatus env ConnectionStatus.CONNECTING m).
  destruct (buildConnectionUrl host (config m1)) as [u|e];
    [destruct (new_WebSocket_throws host u)|]; cbn [fst]; subst m1;
    rewrite ?updateStatus_twice_lifetime; reflexivity.
Qed.

Lemma handleOpen_lifetime env fuel m m' :
  handleOpen host env fuel m = Some m' ->
  lifetime m' = lifetime_step (lifetime m) (env, EvOpen fuel).
Proof.
  rewrite handleOpen_unfold. cbv zeta.
  set (m6 := startHeartbeat _).
  assert (H6 : lifetime m6 = lifetime_step (lifetime m) (env, EvOpen fuel)).
  { subst m6. destruct_manager m. destruct ca; reflexivity. }
  destruct (flushMessageQueue host fuel m6) as [m7|] eqn:Hf; [|discriminate].
  intros [= <-]. rewrite <- H6, <- (flushMessageQueue_lifetime _ _ _ Hf).
  unfold lifetime.
  destruct (resubscribeAll_effects m7) as (_ & _ & _ & ->). reflexivity.
Qed.

Lemma handleClose_lifetime env event m :
  lifetime (handleClose env event m)
  = lifetime_step (lifetime m) (env, EvClose event).
Proof.
  rewrite handleClose_unfold. cbv zeta.
  set (m5 := clearTimers _).
  assert (H5 : lifetime m5 = lifetime_step (lifetime m) (env, EvClose event)).
  { subst m5. rewrite clearTimers_lifetime.
    destruct_manager m. destruct ca; reflexivity. }
  destruct (negb _ && _); [|exact H5].
  rewrite <- H5. unfold scheduleReconnect. cbv zeta.
  set (m1 := updateStatus env ConnectionStatus.RECONNECTING m5).
  transitivity (lifetime m1); [reflexivity|].
  subst m1 m5. rewrite updateStatus_lifetime, clearTimers_lifetime.
  destruct_manager m. destruct ca; cbn; f_equal; lia.
Qed.

Lemma heartbeat_lifetime env m :
  lifetime (heartbeat host env m) = lifetime m.
Proof.
  unfold heartbeat.
  destruct (isConnected m) as [[|]|e]; try reflexivity.
  unfold sendPing. cbv zeta.
  pose proof (sendMessage_lifetime
                {| msg_id := generateMessageId env 0;
                   msg_type := MessageType.PING; msg_timestamp := now env;
                   payload := PTimestamp (now env); metadata := None |} m) as F.
  destruct (sendMessage host _ m) as [m1 [[]|e]]; cbn [fst] in *;
    rewrite <- F; reflexivity.
Qed.

Lemma lifetime_step_quiet v env op :
  changes_status op = false -> lifetime_step v (env, op) = v.
Proof.
  destruct v as [[[ca da] rc] up]. destruct op; try discriminate; reflexivity.
Qed.

Lemma step_lifetime env op m m' :
  step host env op m = Some m' ->
  lifetime m' = lifetime_step (lifetime m) (env, op).
Proof.
  destruct op
    as [| |request|subscriptionId|x|ty name throws|subscriptionId callback|rs
       |fuel|event|error|event| |]; cbn [step]; try (intros [= <-]);
    rewrite ?lifetime_step_quiet by reflexivity.
  - rewrite connect_lifetime, updateStatus_lifetime.
    destruct (lifetime m) as [[[ca da] rc] up]. reflexivity.
  - unfold disconnect. cbv zeta. rewrite updateStatus_lifetime.
    set (m1 := clearTimers m).
    assert (H : lifetime
                  (match ws m1 with
                   | WsSocket _ =>
                       with_ws WsNull (emit (WsClose 1000 "Client disconnect") m1)
                   | _ => m1
                   end) = lifetime m).
    { rewrite <- (clearTimers_lifetime m). fold m1. destruct (ws m1); reflexivity. }
    rewrite H. destruct (lifetime m) as [[[ca da] rc] up]. reflexivity.
  - rewrite subscribe_unfold.
    pose proof (sendMessage_lifetime (subscribe_envelope env request) m) as F.
    destruct (sendMessage host (subscribe_envelope env request) m)
      as [m1 [[]|e]]; cbn [fst] in *; rewrite <- F; reflexivity.
  - rewrite unsubscribe_unfold.
    destruct (sub_get subscriptionId (subscriptions (state m))); [|reflexivity].
    pose proof (sendMessage_lifetime (unsubscribe_envelope env subscriptionId) m)
      as F.
    destruct (sendMessage host (unsubscribe_envelope env subscriptionId) m)
      as [m1 [[]|e]]; cbn [fst] in *; rewrite <- F; reflexivity.
  - apply sendMessage_lifetime.
  - reflexivity.
  - reflexivity.
  - unfold socket_becomes. destruct (ws m); reflexivity.
  - apply handleOpen_lifetime.
  - apply handleMessage_lifetime.
  - unfold handleError. cbv zeta. rewrite updateStatus_lifetime.
    destruct_manager m. reflexivity.
  - apply handleClose_lifetime.
  - apply heartbeat_lifetime.
  - unfold reconnect. cbv zeta. rewrite connect_lifetime, updateStatus_lifetime.
    destruct_manager m. reflexivity.
Qed.

Lemma run_lifetime steps m m' :
  run host steps m = Some m' ->
  lifetime m' = foldl lifetime_step (lifetime m) steps.
Proof.
  revert m. induction steps as [|[env op] steps IH]; intros m.
  - intros [= <-]. reflexivity.
  - cbn [run foldl]. destruct (step host env op m) as [m1|] eqn:Hs; [|discriminate].
    intros Hr. rewrite (IH _ Hr), (step_lifetime _ _ _ _ Hs). reflexivity.
Qed.

Lemma never_opened steps v :
  forallb (fun s => negb (is_EvOpen s)) steps = true ->
  fst (fst (fst v)) = None ->
  fst (fst (fst (foldl lifetime_step v steps))) = None /\
  snd (foldl lifetime_step v steps) = snd v.
Proof.
  revert v. induction steps as [|[env op] steps IH]; intros v Hs Hv;
    [split; [exact Hv | reflexivity]|].
  cbn [forallb] in Hs. apply andb_prop in Hs as [Ho Hs].
  cbn [foldl]. destruct v as [[[ca da] rc] up]. cbn in Hv. subst ca.
  destruct (IH (lifetime_step (None, da, rc, up) (env, op)) Hs) as [H1 H2].
  { destruct op; try reflexivity. discriminate. }
  split; [exact H1|]. rewrite H2.
  destruct op; reflexivity.
Qed.

(** X16.  How the lifetime statistics follow the events.  Whatever has
    happened to a manager since it was constructed, [connectedAt] is the
    time of the last [open] event and [disconnectedAt] the time of the last
    [close] event ([disconnect()] does not record one); [reconnectCount] is
    the number of reconnect timers that fired; and [uptime] is recomputed
    only by the steps that set the status (connect, disconnect, the open,
    error and close events and the reconnect timer), as the time since the
    [connectedAt] on record before the step: the open event measures from
    the previous open, and nothing resets [uptime].  A manager whose socket
    never opened has no [connectedAt] and [uptime] 0. *)
Theorem lifetime_stats_follow_events (cfg : WebSocketConfig)
    (steps : list (Env * Op)) (m : Manager) :
  run host steps (constructor cfg) = Some m ->
  lifetime m = foldl lifetime_step (None, None, 0, 0) steps /\
  (forallb (fun s => negb (is_EvOpen s)) steps = true ->
   connectedAt (stats (state m)) = None /\ uptime (stats (state m)) = 0).
Proof.
  intros Hrun. pose proof (run_lifetime _ _ _ Hrun) as Hl.
  change (lifetime (constructor cfg)) with (@None Z, @None Z, 0, 0) in Hl.
  split; [exact Hl|].
  intros Hn.
  destruct (never_opened steps (None, None, 0, 0) Hn eq_refl) as [H1 H2].
  rewrite <- Hl in H1, H2. split; [exact H1 | exact H2].
Qed.

End Lifetime.

(** Open at 1001, lose the connection at 3000, reconnect at 3600 and open
    again at 3700: the uptime then reads 2699, the time since the first
    open. *)
Lemma lifetime_stats_follow_events_witness :
  let steps :=
    [(at_time 1000, CallConnect);
     (at_time 1001, SocketBecomes WS_OPEN);
     (at_time 1001, EvOpen 0);
     (at_time 3000, SocketBecomes WS_CLOSED);
     (at_time 3000, EvClose {| close_code := 1006; close_reason := "" |});
     (at_time 3600, TickReconnect);
     (at_time 3700, SocketBecomes WS_OPEN);
     (at_time 3700, EvOpen 0)] in
  exists m,
    run quiet_host steps (constructor (sample_config 100 5)) = Some m /\
    lifetime m = (Some 3700, Some 3000, 1, 2699).
Proof.
  intros steps.
  eexists. split; [vm_compute; reflexivity|].
  match goal with
  | |- lifetime ?m = _ =>
      etransitivity;
      [exact (proj1 (lifetime_stats_follow_events quiet_host
                       (sample_config 100 5) steps m
                       ltac:(vm_compute; reflexivity)))
      | vm_compute; reflexivity]
  end.
Defined.
